(** * Branch Watch dialog (DolphinQt/Debugger/BranchWatchDialog.cpp)

    A shallow embedding of the filtering proxy model and of the dialog's
    handlers, with the branch-watch store they drive, and the properties
    of the filter, the branch-kind classification, the recording phase,
    the refusals and the status line.

    The dialog is a state passed from handler to handler; what it shows to
    the user (warnings, status line, menu actions) is part of that state.
    Left out are the layout of the widgets, the refresh timer, the help
    pages, the clipboard, the code view and the saved settings. *)

From Stdlib Require Import ZArith List String Ascii Bool Lia.
Import ListNotations.
Local Open Scope Z_scope.

(* ================================================================== *)
(** * Part I. Definitions                                              *)
(* ================================================================== *)

(** ** Common/CommonTypes.h: u32, u64 and std::size_t as integers with
    their wrap-around written out. *)

Definition wrap32 (x : Z) : Z := x mod 2 ^ 32.
Definition wrap64 (x : Z) : Z := x mod 2 ^ 64.
Definition is_u32 (x : Z) : Prop := 0 <= x < 2 ^ 32.

(** ** UGeckoInstruction *)

Module Gekko.

(** A raw instruction word; the source builds it from a [u32]. *)
Definition UGeckoInstruction := Z.

(** A C++ bit-field of [width] bits whose lowest bit is bit [pos]. *)
Definition bitfield (pos width : Z) (hex : UGeckoInstruction) : Z :=
  Z.land (Z.shiftr hex pos) (Z.ones width).

(** Modelled from the spec: the bit-field layout of UGeckoInstruction is
    declared in Core/PowerPC/Gekko.h, which is not part of the file; the
    dialog only names the fields OPCD, SUBOP10, BO and LK.  The spec calls
    them the primary opcode, the extended sub-opcode, the BO bits and the
    link-register-update bit of the PowerPC encoding: the primary opcode is
    the top six bits, BO the five bits below it, the sub-opcode bits 1 to
    10 and LK bit 0.  The spec's example word 0x48001001 (a bl) and the BLR
    word 0x4e800020 written by the dialog decode accordingly. *)
Definition OPCD : UGeckoInstruction -> Z := bitfield 26 6.
Definition BO : UGeckoInstruction -> Z := bitfield 21 5.
Definition SUBOP10 : UGeckoInstruction -> Z := bitfield 1 10.
Definition LK : UGeckoInstruction -> Z := bitfield 0 1.

End Gekko.

(** ** The part of QString the proxy model uses.

    QString belongs to Qt, not to the repository.  Strings are modelled as
    [string] (8-bit characters); case folding acts on the ASCII letters. *)

Module QString.

Inductive CaseSensitivity := CaseInsensitive | CaseSensitive.

Definition isEmpty (s : string) : bool :=
  match s with EmptyString => true | String _ _ => false end.

Definition code (c : ascii) : Z := Z.of_nat (nat_of_ascii c).

Definition foldCase_char (c : ascii) : ascii :=
  if (65 <=? code c) && (code c <=? 90)
  then ascii_of_nat (nat_of_ascii c + 32) else c.

Fixpoint foldCase (s : string) : string :=
  match s with
  | EmptyString => EmptyString
  | String c s' => String (foldCase_char c) (foldCase s')
  end.

Fixpoint startsWith (s pre : string) : bool :=
  match pre, s with
  | EmptyString, _ => true
  | String _ _, EmptyString => false
  | String a pre', String b s' => Ascii.eqb a b && startsWith s' pre'
  end.

(** Does [sub] occur in [s], at any position? *)
Fixpoint occurs (s sub : string) : bool :=
  startsWith s sub ||
  match s with
  | EmptyString => false
  | String _ s' => occurs s' sub
  end.

(** [QString::contains(str, cs)]. *)
Definition contains (s sub : string) (cs : CaseSensitivity) : bool :=
  match cs with
  | CaseSensitive => occurs s sub
  | CaseInsensitive => occurs (foldCase s) (foldCase sub)
  end.

(** *** [QString::toUInt(bool* ok, int base)] at base 16.

    Surrounding white space is skipped, a plus sign and a 0x prefix are
    accepted, a minus sign is not; at least one digit is needed and every
    remaining character has to be a hexadecimal digit; a value that does
    not fit 32 bits fails.  On failure the value returned is 0. *)

Definition isSpace (c : ascii) : bool :=
  (code c =? 32) || ((9 <=? code c) && (code c <=? 13)).

Fixpoint skipSpace (s : string) : string :=
  match s with
  | String c s' => if isSpace c then skipSpace s' else s
  | EmptyString => EmptyString
  end.

Fixpoint rev_append (s acc : string) : string :=
  match s with
  | EmptyString => acc
  | String c s' => rev_append s' (String c acc)
  end.

Definition reversed (s : string) : string := rev_append s EmptyString.

Definition trimmed (s : string) : string :=
  reversed (skipSpace (reversed (skipSpace s))).

Definition hexDigit (c : ascii) : option Z :=
  let n := code c in
  if (48 <=? n) && (n <=? 57) then Some (n - 48)
  else if (97 <=? n) && (n <=? 102) then Some (n - 87)
  else if (65 <=? n) && (n <=? 70) then Some (n - 55)
  else None.

Fixpoint digits (acc : Z) (s : string) : option Z :=
  match s with
  | EmptyString => Some acc
  | String c s' =>
      match hexDigit c with
      | Some d => digits (16 * acc + d) s'
      | None => None
      end
  end.

Definition skipPlus (s : string) : string :=
  match s with
  | String "+"%char s' => s'
  | _ => s
  end.

Definition skipHexPrefix (s : string) : string :=
  match s with
  | String "0"%char (String "x"%char s') => s'
  | String "0"%char (String "X"%char s') => s'
  | _ => s
  end.

(** The pair is (returned value, [*ok]). *)
Definition toUInt16 (text : string) : Z * bool :=
  let body := skipHexPrefix (skipPlus (trimmed text)) in
  if isEmpty body then (0, false)
  else match digits 0 body with
       | Some v => if v <=? 0xFFFFFFFF then (v, true) else (0, false)
       | None => (0, false)
       end.

End QString.

(** ** Core/Debugger/BranchWatch.h: the types the dialog reads *)

Record BranchWatchCollectionKey := {
  origin_addr : Z;
  destin_addr : Z;
  original_inst : Gekko.UGeckoInstruction
}.

(** [Selection::value_type], as [filterAcceptsRow] reads it: [collection_ptr]
    stands for [collection_ptr->first], the key of the record pointed to.
    Key and condition together are the spec's BranchIdentity. *)
Record SelectionValue := {
  collection_ptr : BranchWatchCollectionKey;
  condition : bool
}.

(** A row of [BranchWatchTableModel::GetSymbolList()]: a QVariant is invalid
    ([None]) when no symbol was found at the address. *)
Record SymbolListValue := {
  origin_name : option string;
  destin_name : option string;
  origin_symbol_addr : option Z;
  destin_symbol_addr : option Z
}.

(** ** BranchWatchProxyModel *)

Record BranchWatchProxyModel := {
  m_origin_symbol_name : string;
  m_destin_symbol_name : string;
  m_origin_min : option Z;
  m_origin_max : option Z;
  m_destin_min : option Z;
  m_destin_max : option Z;
  m_b : bool; m_bl : bool; m_bc : bool; m_bcl : bool;
  m_blr : bool; m_blrl : bool; m_bclr : bool; m_bclrl : bool;
  m_bctr : bool; m_bctrl : bool; m_bcctr : bool; m_bcctrl : bool;
  m_cond_true : bool;
  m_cond_false : bool
}.

(** The member initialisers of the class: empty strings, no bounds, every
    flag false. *)
Definition proxy_default : BranchWatchProxyModel :=
  {| m_origin_symbol_name := EmptyString;
     m_destin_symbol_name := EmptyString;
     m_origin_min := None; m_origin_max := None;
     m_destin_min := None; m_destin_max := None;
     m_b := false; m_bl := false; m_bc := false; m_bcl := false;
     m_blr := false; m_blrl := false; m_bclr := false; m_bclrl := false;
     m_bctr := false; m_bctrl := false; m_bcctr := false; m_bcctrl := false;
     m_cond_true := false; m_cond_false := false |}.

(** The pointers to member the slot templates are instantiated with. *)
Inductive BoolMember :=
| M_b | M_bl | M_bc | M_bcl | M_blr | M_blrl | M_bclr | M_bclrl
| M_bctr | M_bctrl | M_bcctr | M_bcctrl | M_cond_true | M_cond_false.

Inductive SymbolMember := M_origin_symbol_name | M_destin_symbol_name.

Inductive AddressMember :=
| M_origin_min | M_origin_max | M_destin_min | M_destin_max.

Definition BoolMember_eqb (a b : BoolMember) : bool :=
  match a, b with
  | M_b, M_b | M_bl, M_bl | M_bc, M_bc | M_bcl, M_bcl
  | M_blr, M_blr | M_blrl, M_blrl | M_bclr, M_bclr | M_bclrl, M_bclrl
  | M_bctr, M_bctr | M_bctrl, M_bctrl | M_bcctr, M_bcctr
  | M_bcctrl, M_bcctrl | M_cond_true, M_cond_true
  | M_cond_false, M_cond_false => true
  | _, _ => false
  end.

Definition SymbolMember_eqb (a b : SymbolMember) : bool :=
  match a, b with
  | M_origin_symbol_name, M_origin_symbol_name
  | M_destin_symbol_name, M_destin_symbol_name => true
  | _, _ => false
  end.

Definition AddressMember_eqb (a b : AddressMember) : bool :=
  match a, b with
  | M_origin_min, M_origin_min | M_origin_max, M_origin_max
  | M_destin_min, M_destin_min | M_destin_max, M_destin_max => true
  | _, _ => false
  end.

Definition get_bool (m : BoolMember) (p : BranchWatchProxyModel) : bool :=
  match m with
  | M_b => m_b p | M_bl => m_bl p | M_bc => m_bc p | M_bcl => m_bcl p
  | M_blr => m_blr p | M_blrl => m_blrl p
  | M_bclr => m_bclr p | M_bclrl => m_bclrl p
  | M_bctr => m_bctr p | M_bctrl => m_bctrl p
  | M_bcctr => m_bcctr p | M_bcctrl => m_bcctrl p
  | M_cond_true => m_cond_true p | M_cond_false => m_cond_false p
  end.

Definition get_symbol (m : SymbolMember) (p : BranchWatchProxyModel) : string :=
  match m with
  | M_origin_symbol_name => m_origin_symbol_name p
  | M_destin_symbol_name => m_destin_symbol_name p
  end.

Definition get_address (m : AddressMember) (p : BranchWatchProxyModel)
  : option Z :=
  match m with
  | M_origin_min => m_origin_min p | M_origin_max => m_origin_max p
  | M_destin_min => m_destin_min p | M_destin_max => m_destin_max p
  end.

(** [this->*member = v], for each of the three member types. *)
Definition set_bool (m : BoolMember) (v : bool) (p : BranchWatchProxyModel)
  : BranchWatchProxyModel :=
  let pick m' (old : BranchWatchProxyModel -> bool) :=
    if BoolMember_eqb m m' then v else old p in
  {| m_origin_symbol_name := m_origin_symbol_name p;
     m_destin_symbol_name := m_destin_symbol_name p;
     m_origin_min := m_origin_min p; m_origin_max := m_origin_max p;
     m_destin_min := m_destin_min p; m_destin_max := m_destin_max p;
     m_b := pick M_b m_b; m_bl := pick M_bl m_bl;
     m_bc := pick M_bc m_bc; m_bcl := pick M_bcl m_bcl;
     m_blr := pick M_blr m_blr; m_blrl := pick M_blrl m_blrl;
     m_bclr := pick M_bclr m_bclr; m_bclrl := pick M_bclrl m_bclrl;
     m_bctr := pick M_bctr m_bctr; m_bctrl := pick M_bctrl m_bctrl;
     m_bcctr := pick M_bcctr m_bcctr; m_bcctrl := pick M_bcctrl m_bcctrl;
     m_cond_true := pick M_cond_true m_cond_true;
     m_cond_false := pick M_cond_false m_cond_false |}.

Definition set_symbol (m : SymbolMember) (v : string)
  (p : BranchWatchProxyModel) : BranchWatchProxyModel :=
  let pick m' (old : BranchWatchProxyModel -> string) :=
    if SymbolMember_eqb m m' then v else old p in
  {| m_origin_symbol_name := pick M_origin_symbol_name m_origin_symbol_name;
     m_destin_symbol_name := pick M_destin_symbol_name m_destin_symbol_name;
     m_origin_min := m_origin_min p; m_origin_max := m_origin_max p;
     m_destin_min := m_destin_min p; m_destin_max := m_destin_max p;
     m_b := m_b p; m_bl := m_bl p; m_bc := m_bc p; m_bcl := m_bcl p;
     m_blr := m_blr p; m_blrl := m_blrl p;
     m_bclr := m_bclr p; m_bclrl := m_bclrl p;
     m_bctr := m_bctr p; m_bctrl := m_bctrl p;
     m_bcctr := m_bcctr p; m_bcctrl := m_bcctrl p;
     m_cond_true := m_cond_true p; m_cond_false := m_cond_false p |}.

Definition set_address (m : AddressMember) (v : option Z)
  (p : BranchWatchProxyModel) : BranchWatchProxyModel :=
  let pick m' (old : BranchWatchProxyModel -> option Z) :=
    if AddressMember_eqb m m' then v else old p in
  {| m_origin_symbol_name := m_origin_symbol_name p;
     m_destin_symbol_name := m_destin_symbol_name p;
     m_origin_min := pick M_origin_min m_origin_min;
     m_origin_max := pick M_origin_max m_origin_max;
     m_destin_min := pick M_destin_min m_destin_min;
     m_destin_max := pick M_destin_max m_destin_max;
     m_b := m_b p; m_bl := m_bl p; m_bc := m_bc p; m_bcl := m_bcl p;
     m_blr := m_blr p; m_blrl := m_blrl p;
     m_bclr := m_bclr p; m_bclrl := m_bclrl p;
     m_bctr := m_bctr p; m_bctrl := m_bctrl p;
     m_bcctr := m_bcctr p; m_bcctrl := m_bcctrl p;
     m_cond_true := m_cond_true p; m_cond_false := m_cond_false p |}.

(** [OnToggled<member>], [OnSymbolTextChanged<member>] and
    [OnAddressTextChanged<member>]; [invalidateRowsFilter] makes the view
    evaluate [filterAcceptsRow] afresh, which the model does on every
    reading. *)
Definition OnToggled (member : BoolMember) (enabled : bool)
  (p : BranchWatchProxyModel) : BranchWatchProxyModel :=
  set_bool member enabled p.

Definition OnSymbolTextChanged (member : SymbolMember) (text : string)
  (p : BranchWatchProxyModel) : BranchWatchProxyModel :=
  set_symbol member text p.

Definition OnAddressTextChanged (member : AddressMember) (text : string)
  (p : BranchWatchProxyModel) : BranchWatchProxyModel :=
  let '(value, ok) := QString.toUInt16 text in
  if ok then set_address member (Some value) p
  else set_address member None p.

(** The condition of the DEBUG_ASSERT in [BranchSavesLR]; it is checked in
    debug builds only and does not change the value returned. *)
Definition BranchSavesLR_asserted (inst : Gekko.UGeckoInstruction) : bool :=
  (Gekko.OPCD inst =? 18) || (Gekko.OPCD inst =? 16) ||
  ((Gekko.OPCD inst =? 19) &&
   ((Gekko.SUBOP10 inst =? 16) || (Gekko.SUBOP10 inst =? 528))).

(** [return inst.LK;] converted to bool. *)
Definition BranchSavesLR (inst : Gekko.UGeckoInstruction) : bool :=
  negb (Gekko.LK inst =? 0).

Definition IsBranchTypeAllowed (p : BranchWatchProxyModel)
  (inst : Gekko.UGeckoInstruction) : bool :=
  let lr_saved := BranchSavesLR inst in
  if Gekko.OPCD inst =? 18 then (if lr_saved then m_bl p else m_b p)
  else if Gekko.OPCD inst =? 16 then (if lr_saved then m_bcl p else m_bc p)
  else if Gekko.OPCD inst =? 19 then
    if Gekko.SUBOP10 inst =? 16 then
      if Z.land (Gekko.BO inst) 0x14 =? 0x14      (* 0b10100 *)
      then (if lr_saved then m_blrl p else m_blr p)
      else (if lr_saved then m_bclrl p else m_bclr p)
    else if Gekko.SUBOP10 inst =? 528 then
      if Z.land (Gekko.BO inst) 0x14 =? 0x14
      then (if lr_saved then m_bctrl p else m_bctr p)
      else (if lr_saved then m_bcctrl p else m_bcctr p)
    else false
  else false.

(** The test applied to one side's symbol name. *)
Definition symbol_name_rejected (symbol_name_v : option string)
  (wanted : string) : bool :=
  match symbol_name_v with
  | None => true                                    (* !isValid() *)
  | Some name => negb (QString.contains name wanted QString.CaseInsensitive)
  end.

(** [filterAcceptsRow], on the selection entry and the symbol row found at
    [source_row]; each early [return false] is one [if]. *)
Definition filterAcceptsRow (p : BranchWatchProxyModel)
  (value : SelectionValue) (sym : SymbolListValue) : bool :=
  if (if condition value then negb (m_cond_true p) else negb (m_cond_false p))
  then false
  else
    let k := collection_ptr value in
    if negb (IsBranchTypeAllowed p (original_inst k)) then false
    else if match m_origin_min p with
            | Some lo => origin_addr k <? lo | None => false end then false
    else if match m_origin_max p with
            | Some hi => origin_addr k >? hi | None => false end then false
    else if match m_destin_min p with
            | Some lo => destin_addr k <? lo | None => false end then false
    else if match m_destin_max p with
            | Some hi => destin_addr k >? hi | None => false end then false
    else if negb (QString.isEmpty (m_origin_symbol_name p)) &&
            symbol_name_rejected (origin_name sym) (m_origin_symbol_name p)
    then false
    else if negb (QString.isEmpty (m_destin_symbol_name p)) &&
            symbol_name_rejected (destin_name sym) (m_destin_symbol_name p)
    then false
    else true.

(** The lookup of row [source_row] in the selection and in the symbol list,
    which the table model keeps as long as the selection.  An index past the
    end is not a row: the view never asks for one. *)
Definition filterAcceptsRow_at (p : BranchWatchProxyModel)
  (selection : list SelectionValue) (symbols : list SymbolListValue)
  (source_row : nat) : option bool :=
  match nth_error selection source_row, nth_error symbols source_row with
  | Some value, Some sym => Some (filterAcceptsRow p value sym)
  | _, _ => None
  end.

(** ** The spec's wording of the filter (section 4.3) *)

Module Kind.
Inductive t :=
| b | bl | bc | bcl | blr | blrl | bclr | bclrl
| bctr | bctrl | bcctr | bcctrl.
End Kind.

(** BO matches the pattern 1_1__: the bits of weight 16 and 4 are set. *)
Definition BO_unconditional (bo : Z) : bool :=
  Z.testbit bo 4 && Z.testbit bo 2.

(** The classification table, row by row. *)
Definition classification_table (opcd subop bo : Z) (lr_saved : bool)
  : option Kind.t :=
  match opcd with
  | 18 => Some (if lr_saved then Kind.bl else Kind.b)
  | 16 => Some (if lr_saved then Kind.bcl else Kind.bc)
  | 19 =>
      match subop with
      | 16 => if BO_unconditional bo
              then Some (if lr_saved then Kind.blrl else Kind.blr)
              else Some (if lr_saved then Kind.bclrl else Kind.bclr)
      | 528 => if BO_unconditional bo
               then Some (if lr_saved then Kind.bctrl else Kind.bctr)
               else Some (if lr_saved then Kind.bcctrl else Kind.bcctr)
      | _ => None
      end
  | _ => None
  end.

(** The kind of a raw word: fields decoded, LK as [lr_saved]. *)
Definition branch_kind (inst : Gekko.UGeckoInstruction) : option Kind.t :=
  classification_table (Gekko.OPCD inst) (Gekko.SUBOP10 inst) (Gekko.BO inst)
    (Z.testbit inst 0).

(** The criteria struct read off the proxy model's members. *)
Definition branch_kind_mask (p : BranchWatchProxyModel) (k : Kind.t)
  : bool :=
  match k with
  | Kind.b => m_b p | Kind.bl => m_bl p
  | Kind.bc => m_bc p | Kind.bcl => m_bcl p
  | Kind.blr => m_blr p | Kind.blrl => m_blrl p
  | Kind.bclr => m_bclr p | Kind.bclrl => m_bclrl p
  | Kind.bctr => m_bctr p | Kind.bctrl => m_bctrl p
  | Kind.bcctr => m_bcctr p | Kind.bcctrl => m_bcctrl p
  end.

Definition condition_mask (p : BranchWatchProxyModel) (c : bool) : bool :=
  if c then m_cond_true p else m_cond_false p.

(** A symbol substring is set when the text field is not empty. *)
Definition origin_symbol_substring (p : BranchWatchProxyModel)
  : option string :=
  if QString.isEmpty (m_origin_symbol_name p) then None
  else Some (m_origin_symbol_name p).

Definition destin_symbol_substring (p : BranchWatchProxyModel)
  : option string :=
  if QString.isEmpty (m_destin_symbol_name p) then None
  else Some (m_destin_symbol_name p).

(** An address is within a range when it respects each bound that is set. *)
Definition within_range (lo hi : option Z) (addr : Z) : Prop :=
  (forall l, lo = Some l -> l <= addr) /\ (forall h, hi = Some h -> addr <= h).

(** [name] contains [sub], letter case ignored. *)
Definition contains_ignoring_case (name sub : string) : Prop :=
  exists pre post,
    QString.foldCase name = (pre ++ QString.foldCase sub ++ post)%string.

(** No substring is set, or the symbol resolves and its name contains it. *)
Definition symbol_matches (wanted : option string) (resolved : option string)
  : Prop :=
  match wanted with
  | None => True
  | Some sub => exists name, resolved = Some name /\
                             contains_ignoring_case name sub
  end.

Definition passes_filter (p : BranchWatchProxyModel) (value : SelectionValue)
  (sym : SymbolListValue) : Prop :=
  condition_mask p (condition value) = true /\
  (exists k, branch_kind (original_inst (collection_ptr value)) = Some k /\
             branch_kind_mask p k = true) /\
  within_range (m_origin_min p) (m_origin_max p)
    (origin_addr (collection_ptr value)) /\
  within_range (m_destin_min p) (m_destin_max p)
    (destin_addr (collection_ptr value)) /\
  symbol_matches (origin_symbol_substring p) (origin_name sym) /\
  symbol_matches (destin_symbol_substring p) (destin_name sym).

(** The four range tests of [filterAcceptsRow], one per bound: the row is
    rejected when the test of a bound that is set fails. *)
Definition bound_test (member : AddressMember) (p : BranchWatchProxyModel)
  (k : BranchWatchCollectionKey) : bool :=
  match member with
  | M_origin_min =>
      match m_origin_min p with
      | Some lo => negb (origin_addr k <? lo) | None => true end
  | M_origin_max =>
      match m_origin_max p with
      | Some hi => negb (origin_addr k >? hi) | None => true end
  | M_destin_min =>
      match m_destin_min p with
      | Some lo => negb (destin_addr k <? lo) | None => true end
  | M_destin_max =>
      match m_destin_max p with
      | Some hi => negb (destin_addr k >? hi) | None => true end
  end.

(** The symbol test of [filterAcceptsRow], one per side. *)
Definition symbol_test (wanted : string) (symbol_name_v : option string)
  : bool :=
  negb (negb (QString.isEmpty wanted) &&
        symbol_name_rejected symbol_name_v wanted).

(** The check box of each branch kind, and the filter that has only the
    box of [k] checked. *)
Definition member_of_kind (k : Kind.t) : BoolMember :=
  match k with
  | Kind.b => M_b | Kind.bl => M_bl | Kind.bc => M_bc | Kind.bcl => M_bcl
  | Kind.blr => M_blr | Kind.blrl => M_blrl
  | Kind.bclr => M_bclr | Kind.bclrl => M_bclrl
  | Kind.bctr => M_bctr | Kind.bctrl => M_bctrl
  | Kind.bcctr => M_bcctr | Kind.bcctrl => M_bcctrl
  end.

Definition only_kind (k : Kind.t) : BranchWatchProxyModel :=
  OnToggled (member_of_kind k) true proxy_default.

(** The filter with both origin bounds removed. *)
Definition without_origin_range (p : BranchWatchProxyModel)
  : BranchWatchProxyModel :=
  set_address M_origin_max None (set_address M_origin_min None p).

Definition with_origin_addr (a : Z) (value : SelectionValue) : SelectionValue :=
  {| collection_ptr :=
       {| origin_addr := a;
          destin_addr := destin_addr (collection_ptr value);
          original_inst := original_inst (collection_ptr value) |};
     condition := condition value |}.

(** ** The branch-watch store (Core::BranchWatch)

    The dialog drives the store through [m_branch_watch] and through the
    table model, which forwards to it.  Neither is part of the file, so the
    store is written from the spec, sections 3, 4.1, 4.2 and 6. *)

Definition BranchWatchCollectionKey_eqb (x y : BranchWatchCollectionKey)
  : bool :=
  (origin_addr x =? origin_addr y) && (destin_addr x =? destin_addr y) &&
  (original_inst x =? original_inst y).

Definition SelectionValue_eqb (x y : SelectionValue) : bool :=
  BranchWatchCollectionKey_eqb (collection_ptr x) (collection_ptr y) &&
  Bool.eqb (condition x) (condition y).

Module BranchWatch.

(** Modelled from the spec: the Phase of section 3; the dialog names its
    two values, [Phase::Blacklist] and [Phase::Reduction]. *)
Inductive Phase := Blacklist | Reduction.

(** Modelled from the spec: the recorder's activity flag of section 4.1. *)
Inductive Activity := Inactive | Active | Paused.

(** Modelled from the spec: the CandidateRecord of section 3; [total_hits]
    is a u64 and [recent_hits] a u32. *)
Record CandidateRecord := {
  total_hits : Z;
  recent_hits : Z;
  inspected : bool;
  blacklisted : bool
}.

(** Modelled from the spec: the BranchIdentity of section 3, the key of a
    record together with the evaluated condition. *)
Definition BranchIdentity := SelectionValue.

(** Modelled from the spec: the CandidateStore of section 3.  The
    collection holds one record per identity, in insertion order; the
    selection is the ordered candidate sequence of the Reduction phase,
    each entry referring to its record by identity. *)
Record t := {
  m_recording_phase : Phase;
  m_recording_active : Activity;
  m_collection : list (BranchIdentity * CandidateRecord);
  m_selection : list BranchIdentity
}.

(** Modelled from the spec: what a snapshot file carries (section 6), the
    phase and every record with its fields and its selection membership;
    the text layout of the file is left out. *)
Record Snapshot := {
  snapshot_phase : Phase;
  snapshot_collection : list (BranchIdentity * CandidateRecord);
  snapshot_selection : list BranchIdentity
}.

(** Modelled from the spec: the record inserted at the first hit of an
    identity (section 4.1). *)
Definition fresh : CandidateRecord :=
  {| total_hits := 1; recent_hits := 1;
     inspected := false; blacklisted := false |}.

(** Modelled from the spec: a further hit increments both counters
    (section 4.1), each wrapping at its width. *)
Definition hit (r : CandidateRecord) : CandidateRecord :=
  {| total_hits := wrap64 (total_hits r + 1);
     recent_hits := wrap32 (recent_hits r + 1);
     inspected := inspected r; blacklisted := blacklisted r |}.

(** Modelled from the spec: the assignments to one attribute of a record
    (section 3). *)
Definition set_recent_hits (n : Z) (r : CandidateRecord) : CandidateRecord :=
  {| total_hits := total_hits r; recent_hits := n;
     inspected := inspected r; blacklisted := blacklisted r |}.

(** Modelled from the spec: the inspected attribute of section 3. *)
Definition set_inspected (v : bool) (r : CandidateRecord)
  : CandidateRecord :=
  {| total_hits := total_hits r; recent_hits := recent_hits r;
     inspected := v; blacklisted := blacklisted r |}.

(** Modelled from the spec: the blacklisted attribute of section 3. *)
Definition set_blacklisted (v : bool) (r : CandidateRecord)
  : CandidateRecord :=
  {| total_hits := total_hits r; recent_hits := recent_hits r;
     inspected := inspected r; blacklisted := v |}.

(** Modelled from the spec: the associative lookup of the store (section 2,
    CandidateStore). *)
Fixpoint lookup (id : BranchIdentity)
  (c : list (BranchIdentity * CandidateRecord)) : option CandidateRecord :=
  match c with
  | [] => None
  | (i, r) :: c' => if SelectionValue_eqb id i then Some r else lookup id c'
  end.

(** Modelled from the spec: an update of the record of [id]. *)
Definition update (id : BranchIdentity)
  (f : CandidateRecord -> CandidateRecord)
  (c : list (BranchIdentity * CandidateRecord))
  : list (BranchIdentity * CandidateRecord) :=
  map (fun e => (fst e, if SelectionValue_eqb id (fst e)
                        then f (snd e) else snd e)) c.

(** Modelled from the spec: an update of every record, as the two wipes of
    section 4.2 need. *)
Definition update_all (f : CandidateRecord -> CandidateRecord)
  (c : list (BranchIdentity * CandidateRecord))
  : list (BranchIdentity * CandidateRecord) :=
  map (fun e => (fst e, f (snd e))) c.

(** Modelled from the spec: membership of an identity in a sequence of
    identities. *)
Definition mem (id : BranchIdentity) (l : list BranchIdentity) : bool :=
  existsb (SelectionValue_eqb id) l.

(** Modelled from the spec: the records of the identities in [gone] are
    destroyed (section 3, lifecycle). *)
Definition destroy (gone : list BranchIdentity)
  (c : list (BranchIdentity * CandidateRecord))
  : list (BranchIdentity * CandidateRecord) :=
  filter (fun e => negb (mem (fst e) gone)) c.

(** Modelled from the spec: the store with its records replaced. *)
Definition with_collection (c : list (BranchIdentity * CandidateRecord))
  (s : t) : t :=
  {| m_recording_phase := m_recording_phase s;
     m_recording_active := m_recording_active s;
     m_collection := c; m_selection := m_selection s |}.

(** Modelled from the spec: the store with its activity flag replaced. *)
Definition with_activity (a : Activity) (s : t) : t :=
  {| m_recording_phase := m_recording_phase s;
     m_recording_active := a;
     m_collection := m_collection s; m_selection := m_selection s |}.

(** Modelled from the spec: the accessors the dialog calls
    ([GetRecordingPhase], [GetRecordingActive], [GetSelection],
    [GetCollectionSize], [GetBlacklistSize]), declared in
    Core/Debugger/BranchWatch.h. *)
Definition GetRecordingPhase (s : t) : Phase := m_recording_phase s.

(** Modelled from the spec: recording is active in the Active state of
    section 4.1. *)
Definition GetRecordingActive (s : t) : bool :=
  match m_recording_active s with Active => true | _ => false end.

(** Modelled from the spec: the Selection of section 3. *)
Definition GetSelection (s : t) : list BranchIdentity := m_selection s.

(** Modelled from the spec: the number of recorded candidates. *)
Definition GetCollectionSize (s : t) : Z :=
  Z.of_nat (List.length (m_collection s)).

(** Modelled from the spec: the number of blacklisted candidates. *)
Definition GetBlacklistSize (s : t) : Z :=
  Z.of_nat (List.length (filter (fun e => blacklisted (snd e)) (m_collection s))).

(** Modelled from the spec: [CanSave] of section 4.2, true iff the store
    has any recorded candidate, whatever the phase. *)
Definition CanSave (s : t) : bool :=
  match m_collection s with [] => false | _ :: _ => true end.

(** Modelled from the spec: [RecordHit] of section 4.1. *)
Definition RecordHit (id : BranchIdentity) (s : t) : t :=
  match m_recording_active s with
  | Active =>
      match lookup id (m_collection s) with
      | None => with_collection (m_collection s ++ [(id, fresh)])%list s
      | Some _ => with_collection (update id hit (m_collection s)) s
      end
  | _ => s
  end.

(** Modelled from the spec: [Start] of section 4.1. *)
Definition Start (s : t) : t := with_activity Active s.

(** Modelled from the spec: [Pause] of section 4.1, from Active only. *)
Definition Pause (s : t) : t :=
  match m_recording_active s with
  | Active => with_activity Paused s
  | _ => s
  end.

(** Modelled from the spec: [TransitionToReduction] of section 4.2; the
    selection becomes the recorded identities minus the blacklisted ones. *)
Definition TransitionToReduction (s : t) : t :=
  match m_recording_phase s with
  | Blacklist =>
      {| m_recording_phase := Reduction;
         m_recording_active := m_recording_active s;
         m_collection := m_collection s;
         m_selection :=
           map fst (filter (fun e => negb (blacklisted (snd e)))
                      (m_collection s)) |}
  | Reduction => s
  end.

(** Modelled from the spec: does the record of [id] satisfy [test]?  An
    identity without a record does not. *)
Definition satisfies (test : BranchIdentity -> CandidateRecord -> bool)
  (c : list (BranchIdentity * CandidateRecord)) (id : BranchIdentity)
  : bool :=
  match lookup id c with
  | Some r => test id r
  | None => false
  end.

(** Modelled from the spec: a reduction pass of section 4.2.  In the
    Reduction phase the selection keeps the identities that satisfy
    [test], and the records of the others are destroyed (section 3,
    lifecycle).  In the Blacklist phase the candidates that fail [test]
    are excluded, that is blacklisted: the dialog's help text says so of
    the three reductions other than "Code Path Was Taken". *)
Definition reduce (test : BranchIdentity -> CandidateRecord -> bool)
  (s : t) : t :=
  match m_recording_phase s with
  | Reduction =>
      let kept := filter (satisfies test (m_collection s)) (m_selection s) in
      let gone :=
        filter (fun id => negb (satisfies test (m_collection s) id))
          (m_selection s) in
      {| m_recording_phase := Reduction;
         m_recording_active := m_recording_active s;
         m_collection := destroy gone (m_collection s);
         m_selection := kept |}
  | Blacklist =>
      with_collection
        (map (fun e => (fst e, if test (fst e) (snd e) then snd e
                               else set_blacklisted true (snd e)))
           (m_collection s)) s
  end.

(** Modelled from the spec: the keep-conditions of the four reductions
    (section 4.2); this one is [recent_hits > 0]. *)
Definition was_taken (_ : BranchIdentity) (r : CandidateRecord) : bool :=
  0 <? recent_hits r.

(** Modelled from the spec: [recent_hits == 0]. *)
Definition not_taken (_ : BranchIdentity) (r : CandidateRecord) : bool :=
  recent_hits r =? 0.

(** Modelled from the spec: the word now at the origin differs from
    [original_inst]; [read] is the memory reader, [ReadInstructionWord]
    (section 6). *)
Definition was_overwritten (read : Z -> Z) (id : BranchIdentity)
  (_ : CandidateRecord) : bool :=
  negb (read (origin_addr (collection_ptr id)) =?
        original_inst (collection_ptr id)).

(** Modelled from the spec: the word now at the origin is still
    [original_inst]. *)
Definition not_overwritten (read : Z -> Z) (id : BranchIdentity)
  (_ : CandidateRecord) : bool :=
  read (origin_addr (collection_ptr id)) =?
  original_inst (collection_ptr id).

(** Modelled from the spec: [ApplyTakenReduction] of section 4.2. *)
Definition ApplyTakenReduction (s : t) : t := reduce was_taken s.

(** Modelled from the spec: "Code Path Was Taken".  The first request
    makes the transition to the Reduction phase (section 3); later ones
    are [ApplyTakenReduction].  The table model's [OnCodePathWasTaken]
    forwards to it. *)
Definition CodePathWasTaken (s : t) : t :=
  match m_recording_phase s with
  | Blacklist => TransitionToReduction s
  | Reduction => ApplyTakenReduction s
  end.

(** Modelled from the spec: [ApplyNotTakenReduction]. *)
Definition ApplyNotTakenReduction (s : t) : t := reduce not_taken s.

(** Modelled from the spec: [ApplyOverwrittenReduction]. *)
Definition ApplyOverwrittenReduction (read : Z -> Z) (s : t) : t :=
  reduce (was_overwritten read) s.

(** Modelled from the spec: [ApplyNotOverwrittenReduction]. *)
Definition ApplyNotOverwrittenReduction (read : Z -> Z) (s : t) : t :=
  reduce (not_overwritten read) s.

(** Modelled from the spec: [WipeRecentHits] of section 4.2. *)
Definition WipeRecentHits (s : t) : t :=
  with_collection (update_all (set_recent_hits 0) (m_collection s)) s.

(** Modelled from the spec: [WipeInspectionData] of section 4.2. *)
Definition WipeInspectionData (s : t) : t :=
  with_collection (update_all (set_inspected false) (m_collection s)) s.

(** Modelled from the spec: [ClearAll] of section 4.2: every record is
    destroyed, the selection emptied and the phase reset; the activity flag
    is left as it is. *)
Definition ClearAll (s : t) : t :=
  {| m_recording_phase := Blacklist;
     m_recording_active := m_recording_active s;
     m_collection := []; m_selection := [] |}.

(** Modelled from the spec: [Blacklist] and [Unblacklist] of section 4.2,
    valid in the Blacklist phase only. *)
Definition SetBlacklisted (v : bool) (id : BranchIdentity) (s : t) : t :=
  match m_recording_phase s with
  | Blacklist =>
      with_collection (update id (set_blacklisted v) (m_collection s)) s
  | Reduction => s
  end.

(** Modelled from the spec: [Delete] of section 4.3, an unconditional
    removal of the given identities. *)
Definition Delete (ids : list BranchIdentity) (s : t) : t :=
  {| m_recording_phase := m_recording_phase s;
     m_recording_active := m_recording_active s;
     m_collection := destroy ids (m_collection s);
     m_selection := filter (fun id => negb (mem id ids)) (m_selection s) |}.

(** Modelled from the spec: the inspected flag of section 3 is set on the
    candidate a NOP or BLR patch was applied to. *)
Definition SetInspected (id : BranchIdentity) (s : t) : t :=
  with_collection (update id (set_inspected true) (m_collection s)) s.

(** Modelled from the spec: [Encode] of sections 4.4 and 6. *)
Definition Encode (s : t) : Snapshot :=
  {| snapshot_phase := m_recording_phase s;
     snapshot_collection := m_collection s;
     snapshot_selection := m_selection s |}.

(** Modelled from the spec: [Decode] of sections 4.4 and 6; decoding
    replaces phase, records and selection by the snapshot's. *)
Definition Decode (snap : Snapshot) (s : t) : t :=
  {| m_recording_phase := snapshot_phase snap;
     m_recording_active := m_recording_active s;
     m_collection := snapshot_collection snap;
     m_selection := snapshot_selection snap |}.

(** Modelled from the spec: the operations on the store (sections 4.1 to
    4.4).  The overwritten checks carry the memory they read. *)
Inductive Op :=
| OpRecordHit (id : BranchIdentity)
| OpStart
| OpPause
| OpBlacklist (id : BranchIdentity)
| OpUnblacklist (id : BranchIdentity)
| OpCodePathWasTaken
| OpCodePathNotTaken
| OpBranchWasOverwritten (read : Z -> Z)
| OpBranchNotOverwritten (read : Z -> Z)
| OpWipeRecentHits
| OpWipeInspection
| OpClear
| OpDelete (ids : list BranchIdentity)
| OpSetInspected (id : BranchIdentity)
| OpLoad (snap : Snapshot).

(** Modelled from the spec: the effect of each operation. *)
Definition apply (s : t) (op : Op) : t :=
  match op with
  | OpRecordHit id => RecordHit id s
  | OpStart => Start s
  | OpPause => Pause s
  | OpBlacklist id => SetBlacklisted true id s
  | OpUnblacklist id => SetBlacklisted false id s
  | OpCodePathWasTaken => CodePathWasTaken s
  | OpCodePathNotTaken => ApplyNotTakenReduction s
  | OpBranchWasOverwritten read => ApplyOverwrittenReduction read s
  | OpBranchNotOverwritten read => ApplyNotOverwrittenReduction read s
  | OpWipeRecentHits => WipeRecentHits s
  | OpWipeInspection => WipeInspectionData s
  | OpClear => ClearAll s
  | OpDelete ids => Delete ids s
  | OpSetInspected id => SetInspected id s
  | OpLoad snap => Decode snap s
  end.

(** Modelled from the spec: the store when Branch Watch is created. *)
Definition empty : t :=
  {| m_recording_phase := Blacklist; m_recording_active := Inactive;
     m_collection := []; m_selection := [] |}.

End BranchWatch.

(** ** The collaborators of the dialog *)

Module Core.

(** Modelled from the spec: [Core::State] is declared in Core/Core.h; the
    handlers below only ask whether the emulated environment is
    uninitialized, that is whether any emulated memory exists. *)
Inductive State := Uninitialized | Paused | Running | Stopping | Starting.

Definition State_eqb (x y : State) : bool :=
  match x, y with
  | Uninitialized, Uninitialized | Paused, Paused | Running, Running
  | Stopping, Stopping | Starting, Starting => true
  | _, _ => false
  end.

End Core.

(** Modelled from the spec: what a file holds, a snapshot written by
    [Save] or something that does not parse as one (section 6). *)
Inductive FileContents :=
| SnapshotFile (snap : BranchWatch.Snapshot)
| MalformedFile.

(** Modelled from the spec: [Core::System] and the collaborators reached
    through it (section 6): the core state, the emulated instruction memory
    with the patches set so far (oldest first), the symbol database (name
    and start address of the symbol containing an address) and the files. *)
Record System := {
  core_state : Core.State;
  instructions : Z -> Z;
  patches : list (Z * Z);
  symbol_db : Z -> option (string * Z);
  files : list (string * FileContents);
  unopenable : list string;
  default_filepath : string
}.

Definition with_core_state (st : Core.State) (sys : System) : System :=
  {| core_state := st; instructions := instructions sys;
     patches := patches sys; symbol_db := symbol_db sys;
     files := files sys; unopenable := unopenable sys;
     default_filepath := default_filepath sys |}.

(** Modelled from the spec: [SetPatch(address, new_instruction_word)]
    replaces the instruction at the address (section 6). *)
Definition SetPatch (address value : Z) (sys : System) : System :=
  {| core_state := core_state sys;
     instructions := fun a => if a =? address then value
                              else instructions sys a;
     patches := (patches sys ++ [(address, value)])%list;
     symbol_db := symbol_db sys;
     files := files sys; unopenable := unopenable sys;
     default_filepath := default_filepath sys |}.

Fixpoint file_lookup (path : string) (fs : list (string * FileContents))
  : option FileContents :=
  match fs with
  | [] => None
  | (p, c) :: fs' => if String.eqb path p then Some c else file_lookup path fs'
  end.

Definition file_write (path : string) (c : FileContents) (sys : System)
  : System :=
  {| core_state := core_state sys; instructions := instructions sys;
     patches := patches sys; symbol_db := symbol_db sys;
     files := (path, c) :: files sys; unopenable := unopenable sys;
     default_filepath := default_filepath sys |}.

Definition can_open (path : string) (sys : System) : bool :=
  negb (existsb (String.eqb path) (unopenable sys)).

(** ** BranchWatchDialog *)

(** The modal warnings of the dialog, all titled "Error": "There is nothing
    to save!", "Core is uninitialized.", and the two about a snapshot file
    that could not be saved or opened. *)
Inductive Warning :=
| NothingToSave
| CoreIsUninitialized
| FailedToSave (filepath : string)
| FailedToOpen (filepath : string).

(** The four texts [UpdateStatus] shows, with their arguments. *)
Inductive StatusMessage :=
| Candidates (candidates : Z)
| CandidatesExcludedRemaining (candidates excluded remaining : Z)
| ZeroCandidatesRemaining
| CandidatesFilteredRemaining (candidates filtered remaining : Z).

Record BranchWatchDialog := {
  m_system : System;
  m_branch_watch : BranchWatch.t;
  m_table_proxy : BranchWatchProxyModel;
  m_act_autosave : bool;                    (* isChecked() *)
  m_autosave_filepath : option string;
  m_btn_wipe_recent_hits : bool;            (* isEnabled() *)
  m_status_bar : option StatusMessage;      (* the message on display *)
  warnings : list Warning                   (* shown so far, oldest first *)
}.

Definition with_system (sys : System) (d : BranchWatchDialog)
  : BranchWatchDialog :=
  {| m_system := sys; m_branch_watch := m_branch_watch d;
     m_table_proxy := m_table_proxy d; m_act_autosave := m_act_autosave d;
     m_autosave_filepath := m_autosave_filepath d;
     m_btn_wipe_recent_hits := m_btn_wipe_recent_hits d;
     m_status_bar := m_status_bar d; warnings := warnings d |}.

Definition with_branch_watch (bw : BranchWatch.t) (d : BranchWatchDialog)
  : BranchWatchDialog :=
  {| m_system := m_system d; m_branch_watch := bw;
     m_table_proxy := m_table_proxy d; m_act_autosave := m_act_autosave d;
     m_autosave_filepath := m_autosave_filepath d;
     m_btn_wipe_recent_hits := m_btn_wipe_recent_hits d;
     m_status_bar := m_status_bar d; warnings := warnings d |}.

Definition with_table_proxy (p : BranchWatchProxyModel)
  (d : BranchWatchDialog) : BranchWatchDialog :=
  {| m_system := m_system d; m_branch_watch := m_branch_watch d;
     m_table_proxy := p; m_act_autosave := m_act_autosave d;
     m_autosave_filepath := m_autosave_filepath d;
     m_btn_wipe_recent_hits := m_btn_wipe_recent_hits d;
     m_status_bar := m_status_bar d; warnings := warnings d |}.

Definition with_autosave (checked : bool) (filepath : option string)
  (d : BranchWatchDialog) : BranchWatchDialog :=
  {| m_system := m_system d; m_branch_watch := m_branch_watch d;
     m_table_proxy := m_table_proxy d; m_act_autosave := checked;
     m_autosave_filepath := filepath;
     m_btn_wipe_recent_hits := m_btn_wipe_recent_hits d;
     m_status_bar := m_status_bar d; warnings := warnings d |}.

Definition setEnabled_wipe_recent_hits (enabled : bool)
  (d : BranchWatchDialog) : BranchWatchDialog :=
  {| m_system := m_system d; m_branch_watch := m_branch_watch d;
     m_table_proxy := m_table_proxy d; m_act_autosave := m_act_autosave d;
     m_autosave_filepath := m_autosave_filepath d;
     m_btn_wipe_recent_hits := enabled;
     m_status_bar := m_status_bar d; warnings := warnings d |}.

Definition showMessage (msg : StatusMessage) (d : BranchWatchDialog)
  : BranchWatchDialog :=
  {| m_system := m_system d; m_branch_watch := m_branch_watch d;
     m_table_proxy := m_table_proxy d; m_act_autosave := m_act_autosave d;
     m_autosave_filepath := m_autosave_filepath d;
     m_btn_wipe_recent_hits := m_btn_wipe_recent_hits d;
     m_status_bar := Some msg; warnings := warnings d |}.

(** [ModalMessageBox::warning(this, tr("Error"), ...)]. *)
Definition warning (w : Warning) (d : BranchWatchDialog) : BranchWatchDialog :=
  {| m_system := m_system d; m_branch_watch := m_branch_watch d;
     m_table_proxy := m_table_proxy d; m_act_autosave := m_act_autosave d;
     m_autosave_filepath := m_autosave_filepath d;
     m_btn_wipe_recent_hits := m_btn_wipe_recent_hits d;
     m_status_bar := m_status_bar d;
     warnings := (warnings d ++ [w])%list |}.

(** Modelled from the spec: the symbol list of the table model, one row per
    selection entry, each side resolved by address through the symbol
    lookup collaborator (sections 4.3 and 6). *)
Definition symbol_row (sys : System) (value : SelectionValue)
  : SymbolListValue :=
  let o := symbol_db sys (origin_addr (collection_ptr value)) in
  let t := symbol_db sys (destin_addr (collection_ptr value)) in
  {| origin_name := option_map fst o; destin_name := option_map fst t;
     origin_symbol_addr := option_map snd o;
     destin_symbol_addr := option_map snd t |}.

Definition GetSymbolList (d : BranchWatchDialog) : list SymbolListValue :=
  map (symbol_row (m_system d)) (BranchWatch.GetSelection (m_branch_watch d)).

(** The rows of the proxy: the source rows [filterAcceptsRow] accepts. *)
Definition visible_rows (d : BranchWatchDialog)
  : list (SelectionValue * SymbolListValue) :=
  filter (fun row => filterAcceptsRow (m_table_proxy d) (fst row) (snd row))
    (combine (BranchWatch.GetSelection (m_branch_watch d)) (GetSymbolList d)).

Definition rowCount (d : BranchWatchDialog) : Z :=
  Z.of_nat (List.length (visible_rows d)).

(** [UpdateStatus]; the subtractions are on [std::size_t]. *)
Definition status_message (d : BranchWatchDialog) : StatusMessage :=
  match BranchWatch.GetRecordingPhase (m_branch_watch d) with
  | BranchWatch.Blacklist =>
      let candidate_size := BranchWatch.GetCollectionSize (m_branch_watch d) in
      let blacklist_size := BranchWatch.GetBlacklistSize (m_branch_watch d) in
      if blacklist_size =? 0 then Candidates candidate_size
      else CandidatesExcludedRemaining candidate_size blacklist_size
             (wrap64 (candidate_size - blacklist_size))
  | BranchWatch.Reduction =>
      let candidate_size :=
        Z.of_nat (List.length (BranchWatch.GetSelection (m_branch_watch d))) in
      if candidate_size =? 0 then ZeroCandidatesRemaining
      else
        let remaining_size := rowCount d in
        CandidatesFilteredRemaining candidate_size
          (wrap64 (candidate_size - remaining_size)) remaining_size
  end.

Definition UpdateStatus (d : BranchWatchDialog) : BranchWatchDialog :=
  showMessage (status_message d) d.

(** [Update]; [UpdateHits] only asks the view to redraw the hit columns. *)
Definition Update (d : BranchWatchDialog) : BranchWatchDialog :=
  match BranchWatch.GetRecordingPhase (m_branch_watch d) with
  | BranchWatch.Blacklist => UpdateStatus d
  | BranchWatch.Reduction => d
  end.

Definition GetSnapshotDefaultFilepath (d : BranchWatchDialog) : string :=
  default_filepath (m_system d).

Definition Save (filepath : string) (d : BranchWatchDialog)
  : BranchWatchDialog :=
  if negb (can_open filepath (m_system d))
  then warning (FailedToSave filepath) d
  else with_system
         (file_write filepath
            (SnapshotFile (BranchWatch.Encode (m_branch_watch d))) (m_system d))
         d.

(** [Load]: a file that is absent or cannot be opened gives the warning;
    a malformed one leaves the store as it is (section 6). *)
Definition Load (filepath : string) (d : BranchWatchDialog)
  : BranchWatchDialog :=
  match (if can_open filepath (m_system d)
         then file_lookup filepath (files (m_system d)) else None) with
  | None => warning (FailedToOpen filepath) d
  | Some contents =>
      let d' :=
        match contents with
        | SnapshotFile snap =>
            with_branch_watch (BranchWatch.Decode snap (m_branch_watch d)) d
        | MalformedFile => d
        end in
      setEnabled_wipe_recent_hits
        (match BranchWatch.GetRecordingPhase (m_branch_watch d') with
         | BranchWatch.Reduction => true
         | BranchWatch.Blacklist => false
         end) d'
  end.

Definition AutoSave (d : BranchWatchDialog) : BranchWatchDialog :=
  if negb (m_act_autosave d) || negb (BranchWatch.CanSave (m_branch_watch d))
  then d
  else Save (match m_autosave_filepath d with
             | Some filepath => filepath
             | None => GetSnapshotDefaultFilepath d
             end) d.

Definition OnStartPause (checked : bool) (d : BranchWatchDialog)
  : BranchWatchDialog :=
  if checked
  then Update (with_branch_watch (BranchWatch.Start (m_branch_watch d)) d)
  else Update (with_branch_watch (BranchWatch.Pause (m_branch_watch d)) d).

Definition OnClearBranchWatch (d : BranchWatchDialog) : BranchWatchDialog :=
  let d1 := with_branch_watch (BranchWatch.ClearAll (m_branch_watch d)) d in
  let d2 := AutoSave d1 in
  UpdateStatus (setEnabled_wipe_recent_hits false d2).

Definition OnSave (d : BranchWatchDialog) : BranchWatchDialog :=
  if negb (BranchWatch.CanSave (m_branch_watch d))
  then warning NothingToSave d
  else Save (GetSnapshotDefaultFilepath d) d.

(** [filepath] is what the file dialog returns, empty when cancelled. *)
Definition OnSaveAs (filepath : string) (d : BranchWatchDialog)
  : BranchWatchDialog :=
  if negb (BranchWatch.CanSave (m_branch_watch d))
  then warning NothingToSave d
  else if QString.isEmpty filepath then d
  else Save filepath d.

Definition OnLoad (d : BranchWatchDialog) : BranchWatchDialog :=
  Load (GetSnapshotDefaultFilepath d) d.

Definition OnLoadFrom (filepath : string) (d : BranchWatchDialog)
  : BranchWatchDialog :=
  if QString.isEmpty filepath then d else Load filepath d.

Definition OnCodePathWasTaken (d : BranchWatchDialog) : BranchWatchDialog :=
  let d1 :=
    with_branch_watch (BranchWatch.CodePathWasTaken (m_branch_watch d)) d in
  let d2 := AutoSave d1 in
  UpdateStatus (setEnabled_wipe_recent_hits true d2).

Definition OnCodePathNotTaken (d : BranchWatchDialog) : BranchWatchDialog :=
  let d1 :=
    with_branch_watch (BranchWatch.ApplyNotTakenReduction (m_branch_watch d)) d in
  UpdateStatus (AutoSave d1).

Definition OnBranchWasOverwritten (d : BranchWatchDialog)
  : BranchWatchDialog :=
  if Core.State_eqb (core_state (m_system d)) Core.Uninitialized
  then warning CoreIsUninitialized d
  else
    let d1 :=
      with_branch_watch
        (BranchWatch.ApplyOverwrittenReduction (instructions (m_system d))
           (m_branch_watch d)) d in
    UpdateStatus (AutoSave d1).

Definition OnBranchNotOverwritten (d : BranchWatchDialog)
  : BranchWatchDialog :=
  if Core.State_eqb (core_state (m_system d)) Core.Uninitialized
  then warning CoreIsUninitialized d
  else
    let d1 :=
      with_branch_watch
        (BranchWatch.ApplyNotOverwrittenReduction (instructions (m_system d))
           (m_branch_watch d)) d in
    UpdateStatus (AutoSave d1).

Definition OnWipeRecentHits (d : BranchWatchDialog) : BranchWatchDialog :=
  with_branch_watch (BranchWatch.WipeRecentHits (m_branch_watch d)) d.

Definition OnWipeInspection (d : BranchWatchDialog) : BranchWatchDialog :=
  with_branch_watch (BranchWatch.WipeInspectionData (m_branch_watch d)) d.

Definition OnTimeout (d : BranchWatchDialog) : BranchWatchDialog := Update d.

(** The core enters [new_state]; the dialog reacts when it is visible. *)
Definition OnEmulationStateChanged (new_state : Core.State) (isVisible : bool)
  (d : BranchWatchDialog) : BranchWatchDialog :=
  let d' := with_system (with_core_state new_state (m_system d)) d in
  if negb isVisible then d' else Update d'.

(** The action is checked or unchecked first, then the slot runs;
    [filepath] is what the file dialog returns. *)
Definition OnToggleAutoSave (checked : bool) (filepath : string)
  (d : BranchWatchDialog) : BranchWatchDialog :=
  if negb checked then with_autosave checked (m_autosave_filepath d) d
  else if QString.isEmpty filepath then with_autosave checked None d
  else with_autosave checked (Some filepath) d.

(** *** The table *)

Inductive Column :=
| Instruction | Condition | Origin | Destination
| RecentHits | TotalHits | OriginSymbol | DestinSymbol.

(** An index of the proxy, named by the source row it maps to. *)
Record QModelIndex := { row : nat; column : Column }.

(** Modelled from the spec: [data(index, UserRole::ClickRole)] of the table
    model, which is not part of the file.  The dialog reads it as the raw
    instruction word in the Instruction column, as the address to show or to
    patch in the Origin and Destination columns, and in the symbol columns
    as the start address of the symbol, invalid when none was found (see
    [OnTableClicked], [OnTableContextMenu] and the help text). *)
Definition data_ClickRole (d : BranchWatchDialog) (index : QModelIndex)
  : option Z :=
  match nth_error (BranchWatch.GetSelection (m_branch_watch d)) (row index)
  with
  | None => None
  | Some value =>
      let k := collection_ptr value in
      match column index with
      | Instruction => Some (original_inst k)
      | Origin => Some (origin_addr k)
      | Destination => Some (destin_addr k)
      | OriginSymbol => origin_symbol_addr (symbol_row (m_system d) value)
      | DestinSymbol => destin_symbol_addr (symbol_row (m_system d) value)
      | Condition | RecentHits | TotalHits => None
      end
  end.

(** [QVariant::value<u32>()]: an invalid variant gives 0. *)
Definition value_u32 (v : option Z) : Z :=
  match v with Some x => x | None => 0 end.

Definition siblingAtColumn (c : Column) (index : QModelIndex) : QModelIndex :=
  {| row := row index; column := c |}.

(** The identities the indices of a list stand for. *)
Definition identities (d : BranchWatchDialog) (index_list : list QModelIndex)
  : list SelectionValue :=
  flat_map (fun index =>
              match nth_error (BranchWatch.GetSelection (m_branch_watch d))
                      (row index) with
              | Some value => [value]
              | None => []
              end) index_list.

Definition SetInspected (index : QModelIndex) (d : BranchWatchDialog)
  : BranchWatchDialog :=
  match nth_error (BranchWatch.GetSelection (m_branch_watch d)) (row index)
  with
  | Some value =>
      with_branch_watch (BranchWatch.SetInspected value (m_branch_watch d)) d
  | None => d
  end.

Definition OnTableDelete (index_list : list QModelIndex)
  (d : BranchWatchDialog) : BranchWatchDialog :=
  UpdateStatus
    (with_branch_watch
       (BranchWatch.Delete (identities d index_list) (m_branch_watch d)) d).

Definition BLR : Z := 0x4e800020.
Definition NOP : Z := 0x60000000.

(** The body of the loop of [OnTableSetBLR] and [OnTableSetNOP]. *)
Definition patch_and_inspect (value : Z) (d : BranchWatchDialog)
  (index : QModelIndex) : BranchWatchDialog :=
  SetInspected index
    (with_system
       (SetPatch (value_u32 (data_ClickRole d index)) value (m_system d)) d).

(** [m_code_widget->Update()] redraws the code view. *)
Definition OnTableSetBLR (index_list : list QModelIndex)
  (d : BranchWatchDialog) : BranchWatchDialog :=
  fold_left (patch_and_inspect 0x4e800020) index_list d.

Definition OnTableSetNOP (index_list : list QModelIndex)
  (d : BranchWatchDialog) : BranchWatchDialog :=
  fold_left (patch_and_inspect 0x60000000) index_list d.

(** What a menu action is connected to. *)
Inductive Slot :=
| TableDelete (index_list : list QModelIndex)
| TableSetNOP (index_list : list QModelIndex)
| TableSetBLR (index_list : list QModelIndex)
| TableCopyAddress (index_list : list QModelIndex).

Record QAction := {
  text : string;
  isEnabled : bool;
  triggered : option Slot
}.

(** [OnTableContextMenu]: [index] is the index under the pointer, if there
    is one, and [selectedRows] the rows selected in the view.  The result
    is the menu, action by action; no menu is shown at an invalid index. *)
Definition OnTableContextMenu (index : option QModelIndex)
  (selectedRows : list nat) (d : BranchWatchDialog) : list QAction :=
  match index with
  | None => []
  | Some index =>
      let index_list :=
        map (fun r => {| row := r; column := column index |}) selectedRows in
      let delete :=
        {| text := "&Delete"; isEnabled := true;
           triggered := Some (TableDelete index_list) |} in
      let copy :=
        {| text := "&Copy Address"; isEnabled := true;
           triggered := Some (TableCopyAddress index_list) |} in
      let initialized :=
        negb (Core.State_eqb (core_state (m_system d)) Core.Uninitialized) in
      match column index with
      | Origin =>
          [ delete;
            (if initialized
             then {| text := "Insert &NOP"; isEnabled := true;
                     triggered := Some (TableSetNOP index_list) |}
             else {| text := "Insert &NOP"; isEnabled := false;
                     triggered := None |});
            copy ]
      | Destination =>
          let enable_action :=
            initialized &&
            forallb (fun index =>
                       let sibling := siblingAtColumn Instruction index in
                       BranchSavesLR (value_u32 (data_ClickRole d sibling)))
              index_list in
          [ delete;
            (if enable_action
             then {| text := "Insert &BLR"; isEnabled := true;
                     triggered := Some (TableSetBLR index_list) |}
             else {| text := "Insert &BLR"; isEnabled := false;
                     triggered := None |});
            copy ]
      | OriginSymbol | DestinSymbol =>
          let enable_action :=
            initialized &&
            forallb (fun index =>
                       match data_ClickRole d index with
                       | Some _ => true
                       | None => false
                       end) index_list in
          [ delete;
            (if enable_action
             then {| text := "Insert &BLR at start"; isEnabled := true;
                     triggered := Some (TableSetBLR index_list) |}
             else {| text := "Insert &BLR at start"; isEnabled := false;
                     triggered := None |}) ]
      | Instruction | Condition | RecentHits | TotalHits => [ delete ]
      end
  end.

(** Running a slot; the clipboard is not part of the state. *)
Definition run_slot (s : Slot) (d : BranchWatchDialog) : BranchWatchDialog :=
  match s with
  | TableDelete index_list => OnTableDelete index_list d
  | TableSetNOP index_list => OnTableSetNOP index_list d
  | TableSetBLR index_list => OnTableSetBLR index_list d
  | TableCopyAddress _ => d
  end.

(** Choosing an action of a menu: a disabled action cannot be triggered,
    and one nothing is connected to does nothing. *)
Definition trigger (a : QAction) (d : BranchWatchDialog) : BranchWatchDialog :=
  if isEnabled a
  then match triggered a with
       | Some s => run_slot s d
       | None => d
       end
  else d.

(** *** The events the dialog handles *)

Inductive Event :=
| StartPause (checked : bool)
| ClearBranchWatch
| SaveBranchWatch
| SaveBranchWatchAs (filepath : string)
| LoadBranchWatch
| LoadBranchWatchFrom (filepath : string)
| ToggleAutoSave (checked : bool) (filepath : string)
| CodePathWasTaken
| CodePathNotTaken
| BranchWasOverwritten
| BranchNotOverwritten
| WipeRecentHits
| WipeInspection
| Timeout
| EmulationStateChanged (new_state : Core.State) (isVisible : bool)
| Toggled (member : BoolMember) (checked : bool)
| SymbolTextChanged (member : SymbolMember) (text : string)
| AddressTextChanged (member : AddressMember) (text : string)
| TableDeleteKeypress (selectedRows : list nat)
| TableContextMenu (index : option QModelIndex) (selectedRows : list nat)
    (chosen : nat)
| BranchHit (id : SelectionValue).

(** The slot of each signal.  The filter widgets are connected to a lambda
    that calls the proxy's slot and then [UpdateStatus]; a branch hit comes
    from the emulation thread and goes to the store alone. *)
Definition handle (d : BranchWatchDialog) (e : Event) : BranchWatchDialog :=
  match e with
  | StartPause checked => OnStartPause checked d
  | ClearBranchWatch => OnClearBranchWatch d
  | SaveBranchWatch => OnSave d
  | SaveBranchWatchAs filepath => OnSaveAs filepath d
  | LoadBranchWatch => OnLoad d
  | LoadBranchWatchFrom filepath => OnLoadFrom filepath d
  | ToggleAutoSave checked filepath => OnToggleAutoSave checked filepath d
  | CodePathWasTaken => OnCodePathWasTaken d
  | CodePathNotTaken => OnCodePathNotTaken d
  | BranchWasOverwritten => OnBranchWasOverwritten d
  | BranchNotOverwritten => OnBranchNotOverwritten d
  | WipeRecentHits => OnWipeRecentHits d
  | WipeInspection => OnWipeInspection d
  | Timeout => OnTimeout d
  | EmulationStateChanged new_state isVisible =>
      OnEmulationStateChanged new_state isVisible d
  | Toggled member checked =>
      UpdateStatus
        (with_table_proxy (OnToggled member checked (m_table_proxy d)) d)
  | SymbolTextChanged member text =>
      UpdateStatus
        (with_table_proxy (OnSymbolTextChanged member text (m_table_proxy d))
           d)
  | AddressTextChanged member text =>
      UpdateStatus
        (with_table_proxy (OnAddressTextChanged member text (m_table_proxy d))
           d)
  | TableDeleteKeypress selectedRows =>
      OnTableDelete
        (map (fun r => {| row := r; column := Instruction |}) selectedRows) d
  | TableContextMenu index selectedRows chosen =>
      match nth_error (OnTableContextMenu index selectedRows d) chosen with
      | Some a => trigger a d
      | None => d
      end
  | BranchHit id =>
      with_branch_watch (BranchWatch.RecordHit id (m_branch_watch d)) d
  end.

Definition run (d : BranchWatchDialog) (events : list Event)
  : BranchWatchDialog :=
  fold_left handle events d.

(** The dialog as its constructor leaves it: every check box of the filter
    is checked, which toggles its flag on. *)
Definition proxy_initial : BranchWatchProxyModel :=
  fold_left (fun p m => OnToggled m true p)
    [M_b; M_bl; M_bc; M_bcl; M_blr; M_blrl; M_bclr; M_bclrl;
     M_bctr; M_bctrl; M_bcctr; M_bcctrl; M_cond_true; M_cond_false]
    proxy_default.

Definition dialog_initial (sys : System) (bw : BranchWatch.t)
  : BranchWatchDialog :=
  UpdateStatus
    {| m_system := sys; m_branch_watch := bw; m_table_proxy := proxy_initial;
       m_act_autosave := false; m_autosave_filepath := None;
       m_btn_wipe_recent_hits := false;
       m_status_bar := None; warnings := [] |}.

(** The operations an event performs on the store. *)
Definition load_ops (filepath : string) (d : BranchWatchDialog)
  : list BranchWatch.Op :=
  if can_open filepath (m_system d)
  then match file_lookup filepath (files (m_system d)) with
       | Some (SnapshotFile snap) => [BranchWatch.OpLoad snap]
       | _ => []
       end
  else [].

Definition slot_ops (s : Slot) (d : BranchWatchDialog)
  : list BranchWatch.Op :=
  match s with
  | TableDelete index_list => [BranchWatch.OpDelete (identities d index_list)]
  | TableSetNOP index_list | TableSetBLR index_list =>
      map BranchWatch.OpSetInspected (identities d index_list)
  | TableCopyAddress _ => []
  end.

Definition store_ops (d : BranchWatchDialog) (e : Event)
  : list BranchWatch.Op :=
  match e with
  | StartPause checked =>
      [if checked then BranchWatch.OpStart else BranchWatch.OpPause]
  | ClearBranchWatch => [BranchWatch.OpClear]
  | LoadBranchWatch => load_ops (GetSnapshotDefaultFilepath d) d
  | LoadBranchWatchFrom filepath =>
      if QString.isEmpty filepath then [] else load_ops filepath d
  | CodePathWasTaken => [BranchWatch.OpCodePathWasTaken]
  | CodePathNotTaken => [BranchWatch.OpCodePathNotTaken]
  | BranchWasOverwritten =>
      if Core.State_eqb (core_state (m_system d)) Core.Uninitialized then []
      else [BranchWatch.OpBranchWasOverwritten (instructions (m_system d))]
  | BranchNotOverwritten =>
      if Core.State_eqb (core_state (m_system d)) Core.Uninitialized then []
      else [BranchWatch.OpBranchNotOverwritten (instructions (m_system d))]
  | WipeRecentHits => [BranchWatch.OpWipeRecentHits]
  | WipeInspection => [BranchWatch.OpWipeInspection]
  | TableDeleteKeypress selectedRows =>
      [BranchWatch.OpDelete
         (identities d
            (map (fun r => {| row := r; column := Instruction |})
               selectedRows))]
  | TableContextMenu index selectedRows chosen =>
      match nth_error (OnTableContextMenu index selectedRows d) chosen with
      | Some a =>
          if isEnabled a
          then match triggered a with
               | Some s => slot_ops s d
               | None => []
               end
          else []
      | None => []
      end
  | BranchHit id => [BranchWatch.OpRecordHit id]
  | SaveBranchWatch | SaveBranchWatchAs _ | ToggleAutoSave _ _ | Timeout
  | EmulationStateChanged _ _ | Toggled _ _ | SymbolTextChanged _ _
  | AddressTextChanged _ _ => []
  end.

(** ** Example states *)

Definition example_unresolved : SymbolListValue :=
  {| origin_name := None; destin_name := None;
     origin_symbol_addr := None; destin_symbol_addr := None |}.

Definition example_value : SelectionValue :=
  {| collection_ptr :=
       {| origin_addr := 0x80001000; destin_addr := 0x80002000;
          original_inst := 0x48001001 |};
     condition := true |}.

Definition example_filter : BranchWatchProxyModel :=
  OnSymbolTextChanged M_origin_symbol_name "report" proxy_initial.

Definition example_system (st : Core.State) : System :=
  {| core_state := st;
     instructions := fun _ => 0x48001001;
     patches := [];
     symbol_db := fun _ => None;
     files := [];
     unopenable := [];
     default_filepath := "GAMEID.txt" |}.

Definition example_rows : list (SelectionValue * SymbolListValue) :=
  [ (example_value, example_unresolved);
    (with_origin_addr 0x80000010 example_value, example_unresolved);
    (with_origin_addr 0x800000FF example_value, example_unresolved);
    (with_origin_addr 0x80000100 example_value, example_unresolved) ].

Definition example_range (lo hi : Z) : BranchWatchProxyModel :=
  set_address M_origin_max (Some hi)
    (set_address M_origin_min (Some lo) proxy_initial).

Definition example_store_blacklist : BranchWatch.t :=
  fold_left BranchWatch.apply
    [BranchWatch.OpStart; BranchWatch.OpRecordHit example_value]
    BranchWatch.empty.

Definition example_store_reduction : BranchWatch.t :=
  BranchWatch.apply example_store_blacklist BranchWatch.OpCodePathWasTaken.

(** Auto-save switched on, nothing recorded yet. *)
Definition example_autosave_empty : BranchWatchDialog :=
  handle (dialog_initial (example_system Core.Running) BranchWatch.empty)
    (ToggleAutoSave true EmptyString).

(** A blr does not save the link register: a row holding one keeps
    "Insert BLR" disabled. *)
Definition example_blr_row : SelectionValue :=
  {| collection_ptr :=
       {| origin_addr := 0x80003000; destin_addr := 0x80001004;
          original_inst := 0x4E800020 |};
     condition := true |}.

Definition example_dialog_two_rows : BranchWatchDialog :=
  run (dialog_initial (example_system Core.Running) BranchWatch.empty)
    [StartPause true; BranchHit example_value; BranchHit example_blr_row;
     CodePathWasTaken].

(** Two candidates recorded, still in the Blacklist phase. *)
Definition example_dialog_blacklist : BranchWatchDialog :=
  run (dialog_initial (example_system Core.Running) BranchWatch.empty)
    [StartPause true; BranchHit example_value; BranchHit example_blr_row].

(** ** The refusal of a save, as the spec words it: nothing is written and
    an error is reported. *)
Definition refused_with_error (save : BranchWatchDialog -> BranchWatchDialog)
  (d : BranchWatchDialog) : Prop :=
  files (m_system (save d)) = files (m_system d) /\
  exists w, warnings (save d) = (warnings d ++ [w])%list.

(** ** The phase an operation leaves, given the phase it finds: "Code Path
    Was Taken" leaves Reduction, a full clear Blacklist, a snapshot load the
    phase of the snapshot, and any other operation the phase it found. *)
Definition phase_step (ph : BranchWatch.Phase) (op : BranchWatch.Op)
  : BranchWatch.Phase :=
  match op with
  | BranchWatch.OpCodePathWasTaken => BranchWatch.Reduction
  | BranchWatch.OpClear => BranchWatch.Blacklist
  | BranchWatch.OpLoad snap => BranchWatch.snapshot_phase snap
  | _ => ph
  end.

Definition event_phase_step (ph : BranchWatch.Phase) (e : Event)
  : BranchWatch.Phase :=
  match e with
  | CodePathWasTaken => BranchWatch.Reduction
  | ClearBranchWatch => BranchWatch.Blacklist
  | _ => ph
  end.

Definition is_load (e : Event) : bool :=
  match e with
  | LoadBranchWatch | LoadBranchWatchFrom _ => true
  | _ => false
  end.

(** The operations that may clear an inspected flag. *)
Definition clears_inspection (op : BranchWatch.Op) : bool :=
  match op with
  | BranchWatch.OpWipeInspection | BranchWatch.OpLoad _ => true
  | _ => false
  end.

(** The candidate [id] is recorded and its inspected flag has value [v]. *)
Definition inspected_is (v : bool) (id : SelectionValue) (s : BranchWatch.t)
  : Prop :=
  exists r, BranchWatch.lookup id (BranchWatch.m_collection s) = Some r /\
            BranchWatch.inspected r = v.

(** A session: two branches are hit, the snapshot is saved, the first
    reduction is asked for, the snapshot is saved under another name, the
    first row is patched with a NOP. *)
Definition example_session : BranchWatchDialog :=
  run (dialog_initial (example_system Core.Running) BranchWatch.empty)
    [StartPause true; BranchHit example_value; BranchHit example_blr_row;
     SaveBranchWatch; CodePathWasTaken; SaveBranchWatchAs "reduction.txt";
     TableContextMenu (Some {| row := 0; column := Origin |}) [0%nat] 1].



(** The status line shows what [UpdateStatus] computes from the state. *)
Definition status_current (d : BranchWatchDialog) : Prop :=
  m_status_bar d = Some (status_message d).






(** ** Relations between states and proof automation *)

(** Every flag set in [c] is set in [c'], where the record is still there. *)
Definition keeps_inspected
  (c c' : list (SelectionValue * BranchWatch.CandidateRecord)) : Prop :=
  forall id r r',
    BranchWatch.lookup id c = Some r -> BranchWatch.inspected r = true ->
    BranchWatch.lookup id c' = Some r' -> BranchWatch.inspected r' = true.


(** Case analysis on the next bit of a positive number. *)
Ltac split_positive :=
  match goal with
  | p : positive |- _ => destruct p as [p|p|]; try reflexivity
  end.

(** ** The rest of the dialog *)

(** *** [QString::number(u32, 16)]: lower-case digits, no prefix, no
    leading zero, and "0" for zero.  The digits of a 32-bit value are its
    eight nibbles, most significant first. *)

Definition hexChar (digit : Z) : ascii :=
  if digit <? 10 then ascii_of_nat (Z.to_nat (48 + digit))
  else ascii_of_nat (Z.to_nat (87 + digit)).

Fixpoint nibbles (count : nat) (n : Z) : list Z :=
  match count with
  | O => []
  | S count' => (nibbles count' (n / 16) ++ [n mod 16])%list
  end.

Fixpoint dropLeadingZeros (l : list Z) : list Z :=
  match l with
  | [] => []
  | digit :: l' =>
      match l' with
      | [] => l
      | _ :: _ => if digit =? 0 then dropLeadingZeros l' else l
      end
  end.

Fixpoint hexString (l : list Z) : string :=
  match l with
  | [] => EmptyString
  | digit :: l' => String (hexChar digit) (hexString l')
  end.

Definition QString_number16 (n : Z) : string :=
  hexString (dropLeadingZeros (nibbles 8 n)).

(** The number a list of digits stands for, most significant first,
    continuing [acc]. *)
Definition hexValue (acc : Z) (l : list Z) : Z :=
  fold_left (fun a digit => 16 * a + digit) l acc.

(** Every character of [s] is a hexadecimal digit. *)
Fixpoint allHex (s : string) : bool :=
  match s with
  | EmptyString => true
  | String c s' =>
      match QString.hexDigit c with
      | Some _ => allHex s'
      | None => false
      end
  end.

Definition newline : string := String (ascii_of_nat 10) EmptyString.

(** [OnTableCopyAddress]: the text handed to the clipboard, or [None] when
    the index list is empty and the clipboard is left alone. *)
Definition OnTableCopyAddress (index_list : list QModelIndex)
  (d : BranchWatchDialog) : option string :=
  match index_list with
  | [] => None
  | index :: rest =>
      Some
        (fold_left
           (fun text index' =>
              (text ++ newline ++
               QString_number16 (value_u32 (data_ClickRole d index')))%string)
           rest
           (QString_number16 (value_u32 (data_ClickRole d index))))
  end.

(** [text.reserve(index_list.size() * 9 - 1)]. *)
Definition OnTableCopyAddress_reserved (index_list : list QModelIndex) : Z :=
  Z.of_nat (List.length index_list) * 9 - 1.

(** [OnTableClicked]: the address the code view is sent to, if any. *)
Definition OnTableClicked (index : QModelIndex) (d : BranchWatchDialog)
  : option Z :=
  let v := data_ClickRole d index in
  match column index with
  | OriginSymbol | DestinSymbol =>
      match v with
      | None => None
      | Some _ => Some (value_u32 v)
      end
  | Origin | Destination => Some (value_u32 v)
  | Instruction | Condition | RecentHits | TotalHits => None
  end.

(** *** The refresh timer.

    Of QTimer the dialog uses [start], [stop], [setInterval],
    [setSingleShot] and [isActive]; a timer that is single-shot stops when
    it fires.  [above_paused st] stands for [st > Core::State::Paused]: the
    order of the values of [Core::State] is declared in Core/Core.h. *)

Record QTimer := {
  isActive : bool;
  interval : Z;
  isSingleShot : bool
}.

Definition QTimer_start (msec : Z) (t : QTimer) : QTimer :=
  {| isActive := true; interval := msec; isSingleShot := isSingleShot t |}.

Definition QTimer_stop (t : QTimer) : QTimer :=
  {| isActive := false; interval := interval t;
     isSingleShot := isSingleShot t |}.

Definition QTimer_setInterval (msec : Z) (t : QTimer) : QTimer :=
  {| isActive := isActive t; interval := msec;
     isSingleShot := isSingleShot t |}.

Definition QTimer_setSingleShot (singleShot : bool) (t : QTimer) : QTimer :=
  {| isActive := isActive t; interval := interval t;
     isSingleShot := singleShot |}.

(** The timer fires: the state it is left in. *)
Definition QTimer_timeout (t : QTimer) : QTimer :=
  if isSingleShot t then QTimer_stop t else t.

Definition BRANCH_WATCH_TOOL_TIMER_DELAY_MS : Z := 100.
Definition BRANCH_WATCH_TOOL_TIMER_PAUSE_ONESHOT_MS : Z := 200.

Definition TimerCondition (above_paused : Core.State -> bool)
  (branch_watch : BranchWatch.t) (state : Core.State) : bool :=
  BranchWatch.GetRecordingActive branch_watch && above_paused state.

Definition hideEvent (m_timer : QTimer) : QTimer :=
  if isActive m_timer then QTimer_stop m_timer else m_timer.

Definition showEvent (above_paused : Core.State -> bool)
  (d : BranchWatchDialog) (m_timer : QTimer) : QTimer :=
  if TimerCondition above_paused (m_branch_watch d) (core_state (m_system d))
  then QTimer_start BRANCH_WATCH_TOOL_TIMER_DELAY_MS m_timer
  else m_timer.

(** What [OnStartPause] does to the timer; [d] is the dialog before it. *)
Definition OnStartPause_timer (above_paused : Core.State -> bool)
  (checked : bool) (d : BranchWatchDialog) (m_timer : QTimer) : QTimer :=
  if checked
  then
    let t := QTimer_setSingleShot false m_timer in
    if above_paused (core_state (m_system d))
    then QTimer_start BRANCH_WATCH_TOOL_TIMER_DELAY_MS t
    else t
  else
    let t :=
      if above_paused (core_state (m_system d))
      then QTimer_setInterval BRANCH_WATCH_TOOL_TIMER_PAUSE_ONESHOT_MS m_timer
      else m_timer in
    QTimer_setSingleShot true t.

(** What [OnEmulationStateChanged] does to the timer. *)
Definition OnEmulationStateChanged_timer (above_paused : Core.State -> bool)
  (new_state : Core.State) (isVisible : bool) (d : BranchWatchDialog)
  (m_timer : QTimer) : QTimer :=
  if negb isVisible then m_timer
  else if TimerCondition above_paused (m_branch_watch d) new_state
  then QTimer_start BRANCH_WATCH_TOOL_TIMER_DELAY_MS m_timer
  else if isActive m_timer then QTimer_stop m_timer
  else m_timer.

(** The order of [Core::State] with the values declared in the order
    Uninitialized, Paused, Running, Stopping, Starting. *)
Definition example_above_paused (st : Core.State) : bool :=
  match st with
  | Core.Uninitialized | Core.Paused => false
  | Core.Running | Core.Stopping | Core.Starting => true
  end.

(** *** Filters compared *)

(** The filter with the bound [member] removed. *)
Definition without_bound (member : AddressMember) (p : BranchWatchProxyModel)
  : BranchWatchProxyModel :=
  set_address member None p.

(** The address a bound is compared with. *)
Definition bounded_addr (member : AddressMember)
  (k : BranchWatchCollectionKey) : Z :=
  match member with
  | M_origin_min | M_origin_max => origin_addr k
  | M_destin_min | M_destin_max => destin_addr k
  end.

Definition with_condition (c : bool) (value : SelectionValue)
  : SelectionValue :=
  {| collection_ptr := collection_ptr value; condition := c |}.

(** The "Wipe Recent Hits" button is enabled exactly in the Reduction
    phase. *)
Definition wipe_button_tracks_phase (d : BranchWatchDialog) : Prop :=
  m_btn_wipe_recent_hits d =
  match BranchWatch.GetRecordingPhase (m_branch_watch d) with
  | BranchWatch.Reduction => true
  | BranchWatch.Blacklist => false
  end.






(** The buttons that reduce or clear the candidates. *)
Definition reduction_events : list Event :=
  [CodePathWasTaken; CodePathNotTaken; BranchWasOverwritten;
   BranchNotOverwritten].

(** The file the automatic save writes to. *)
Definition autosave_target (d : BranchWatchDialog) : string :=
  match m_autosave_filepath d with
  | Some filepath => filepath
  | None => GetSnapshotDefaultFilepath d
  end.



(** The events that change the filter. *)
Definition is_filter_change (e : Event) : bool :=
  match e with
  | Toggled _ _ | SymbolTextChanged _ _ | AddressTextChanged _ _ => true
  | _ => false
  end.

(** A store with a candidate, auto-save on a chosen file. *)
Definition example_autosave_on : BranchWatchDialog :=
  handle example_dialog_two_rows (ToggleAutoSave true "auto.txt").



(** A system that knows one symbol, at the origin of [example_value]. *)
Definition example_symbol_system : System :=
  {| core_state := Core.Running;
     instructions := fun _ => 0x48001001;
     patches := [];
     symbol_db := fun a => if a =? 0x80001000
                           then Some ("OSReport"%string, 0x80000FF0)
                           else None;
     files := [];
     unopenable := [];
     default_filepath := "GAMEID.txt" |}.

Definition example_symbol_dialog : BranchWatchDialog :=
  run (dialog_initial example_symbol_system BranchWatch.empty)
    [StartPause true; BranchHit example_value; BranchHit example_blr_row;
     CodePathWasTaken].

(** *** The dialog as a window

    The dialog, its timer and whether it is shown.  The timer is made by
    the constructor with [new QTimer]: stopped, repeating, interval 0. *)
Definition QTimer_new : QTimer :=
  {| isActive := false; interval := 0; isSingleShot := false |}.

Record Window := {
  w_dialog : BranchWatchDialog;
  w_timer : QTimer;
  w_visible : bool
}.

Inductive WindowEvent :=
| HideEvent
| ShowEvent
| TimerTimeout
| Signal (e : Event).

(** One event of the window.  The timer fires only while it is active, and
    [OnEmulationStateChanged] reads [isVisible()] from the window. *)
Definition window_step (above_paused : Core.State -> bool) (w : Window)
  (ev : WindowEvent) : Window :=
  match ev with
  | HideEvent =>
      {| w_dialog := w_dialog w; w_timer := hideEvent (w_timer w);
         w_visible := false |}
  | ShowEvent =>
      {| w_dialog := w_dialog w;
         w_timer := showEvent above_paused (w_dialog w) (w_timer w);
         w_visible := true |}
  | TimerTimeout =>
      if isActive (w_timer w)
      then {| w_dialog := handle (w_dialog w) Timeout;
              w_timer := QTimer_timeout (w_timer w);
              w_visible := w_visible w |}
      else w
  | Signal (StartPause checked) =>
      {| w_dialog := handle (w_dialog w) (StartPause checked);
         w_timer :=
           OnStartPause_timer above_paused checked (w_dialog w) (w_timer w);
         w_visible := w_visible w |}
  | Signal (EmulationStateChanged new_state _) =>
      {| w_dialog :=
           handle (w_dialog w) (EmulationStateChanged new_state (w_visible w));
         w_timer :=
           OnEmulationStateChanged_timer above_paused new_state (w_visible w)
             (w_dialog w) (w_timer w);
         w_visible := w_visible w |}
  | Signal e =>
      {| w_dialog := handle (w_dialog w) e; w_timer := w_timer w;
         w_visible := w_visible w |}
  end.

Definition window_run (above_paused : Core.State -> bool) (w : Window)
  (events : list WindowEvent) : Window :=
  fold_left (window_step above_paused) events w.

Definition window_initial (sys : System) (s : BranchWatch.t) : Window :=
  {| w_dialog := dialog_initial sys s; w_timer := QTimer_new;
     w_visible := false |}.

(** The "Start Branch Watch" button is pressed only while the dialog is
    shown: [visible] is whether it is shown before [events]. *)
Fixpoint started_while_shown (visible : bool) (events : list WindowEvent)
  : bool :=
  match events with
  | [] => true
  | HideEvent :: rest => started_while_shown false rest
  | ShowEvent :: rest => started_while_shown true rest
  | Signal (StartPause true) :: rest =>
      visible && started_while_shown visible rest
  | _ :: rest => started_while_shown visible rest
  end.

Definition timer_only_while_shown (w : Window) : Prop :=
  isActive (w_timer w) = true -> w_visible w = true.

(** The one event that can patch the memory of the game: the second action
    of a context menu. *)
Definition chooses_patch (e : Event) : bool :=
  match e with
  | TableContextMenu (Some _) _ 1 => true
  | _ => false
  end.

Definition patch_word (p : Z * Z) : Prop := snd p = NOP \/ snd p = BLR.

(** The automatic save is on and the core has become uninitialized. *)
Definition example_autosave_uninitialized : BranchWatchDialog :=
  handle example_autosave_on (EmulationStateChanged Core.Uninitialized true).

Definition example_timer : QTimer :=
  {| isActive := false; interval := 0; isSingleShot := false |}.

(* ================================================================== *)
(** * Part II. Properties                                              *)
(* ================================================================== *)

(** ** Strings *)

Lemma startsWith_spec (pre s : string) :
  QString.startsWith s pre = true <-> exists post, s = (pre ++ post)%string.
Proof.
  revert s. induction pre as [|a pre IH]; intros s.
  - split; [intros _; exists s; reflexivity | destruct s; reflexivity].
  - destruct s as [|c s']; simpl.
    + split; [discriminate | intros [post H]; discriminate].
    + rewrite andb_true_iff, Ascii.eqb_eq, IH. split.
      * intros [-> [post ->]]. exists post. reflexivity.
      * intros [post H]. injection H as -> ->. split; [reflexivity|].
        exists post. reflexivity.
Qed.

Lemma occurs_spec (sub s : string) :
  QString.occurs s sub = true <->
  exists pre post, s = (pre ++ sub ++ post)%string.
Proof.
  induction s as [|c s' IH].
  - change (QString.occurs EmptyString sub)
      with (QString.startsWith EmptyString sub || false).
    rewrite orb_false_r, startsWith_spec. split.
    + intros [post H]. exists EmptyString, post. exact H.
    + intros [pre [post H]]. destruct pre; [|discriminate].
      exists post. exact H.
  - change (QString.occurs (String c s') sub)
      with (QString.startsWith (String c s') sub || QString.occurs s' sub).
    rewrite orb_true_iff, startsWith_spec, IH. split.
    + intros [[post H] | [pre [post H]]].
      * exists EmptyString, post. exact H.
      * exists (String c pre), post. simpl. now rewrite H.
    + intros [pre [post H]]. destruct pre as [|c' pre].
      * left. exists post. exact H.
      * right. simpl in H. injection H as _ H. exists pre, post. exact H.
Qed.

Lemma contains_spec (name sub : string) :
  QString.contains name sub QString.CaseInsensitive = true <->
  contains_ignoring_case name sub.
Proof. unfold QString.contains, contains_ignoring_case. apply occurs_spec. Qed.

Lemma isEmpty_spec (s : string) :
  QString.isEmpty s = true <-> s = EmptyString.
Proof. destruct s; simpl; split; congruence. Qed.

(** ** Instruction fields *)

Lemma bitfield_range (pos width : Z) (hex : Z) :
  0 <= width -> 0 <= Gekko.bitfield pos width hex < 2 ^ width.
Proof.
  intros Hw. unfold Gekko.bitfield. rewrite Z.land_ones by exact Hw.
  apply Z.mod_pos_bound. apply Z.pow_pos_nonneg; lia.
Qed.

Lemma BO_range (inst : Z) : 0 <= Gekko.BO inst < 32.
Proof. apply (bitfield_range 21 5 inst). lia. Qed.

Lemma BranchSavesLR_bit0 (inst : Z) : BranchSavesLR inst = Z.testbit inst 0.
Proof.
  unfold BranchSavesLR, Gekko.LK, Gekko.bitfield.
  rewrite Z.shiftr_0_r, (Z.land_ones inst 1) by lia.
  rewrite Z.bit0_odd. change (2 ^ 1) with 2. rewrite Zmod_odd.
  destruct (Z.odd inst); reflexivity.
Qed.

Lemma small_cases (x : Z) :
  0 <= x < 32 -> In x (map Z.of_nat (seq 0 32)).
Proof.
  intros H. apply in_map_iff. exists (Z.to_nat x). split; [lia|].
  apply in_seq. lia.
Qed.

Lemma BO_pattern (bo : Z) :
  0 <= bo < 32 -> (Z.land bo 0x14 =? 0x14) = BO_unconditional bo.
Proof.
  intros H. apply small_cases in H. unfold BO_unconditional.
  cbv [seq map Z.of_nat Pos.of_succ_nat Pos.succ] in H.
  repeat (destruct H as [<- | H]; [reflexivity|]). destruct H.
Qed.

(** The table's [match] on literals, as a chain of comparisons. *)
Lemma classification_table_cases (opcd subop bo : Z) (lr_saved : bool) :
  classification_table opcd subop bo lr_saved =
  if opcd =? 18 then Some (if lr_saved then Kind.bl else Kind.b)
  else if opcd =? 16 then Some (if lr_saved then Kind.bcl else Kind.bc)
  else if opcd =? 19 then
    if subop =? 16 then
      if BO_unconditional bo
      then Some (if lr_saved then Kind.blrl else Kind.blr)
      else Some (if lr_saved then Kind.bclrl else Kind.bclr)
    else if subop =? 528 then
      if BO_unconditional bo
      then Some (if lr_saved then Kind.bctrl else Kind.bctr)
      else Some (if lr_saved then Kind.bcctrl else Kind.bcctr)
    else None
  else None.
Proof.
  destruct (Z.eqb_spec opcd 18) as [->|H18]; [reflexivity|].
  destruct (Z.eqb_spec opcd 16) as [->|H16]; [reflexivity|].
  destruct (Z.eqb_spec opcd 19) as [->|H19].
  - destruct (Z.eqb_spec subop 16) as [->|S16]; [reflexivity|].
    destruct (Z.eqb_spec subop 528) as [->|S528]; [reflexivity|].
    unfold classification_table.
    destruct subop as [|p|p]; try reflexivity.
    do 11 (try split_positive); contradiction.
  - unfold classification_table.
    destruct opcd as [|p|p]; try reflexivity.
    do 6 (try split_positive); contradiction.
Qed.

Lemma IsBranchTypeAllowed_by_kind (p : BranchWatchProxyModel) (inst : Z) :
  IsBranchTypeAllowed p inst =
  match branch_kind inst with
  | Some k => branch_kind_mask p k
  | None => false
  end.
Proof.
  unfold IsBranchTypeAllowed, branch_kind.
  rewrite classification_table_cases, BranchSavesLR_bit0.
  rewrite (BO_pattern _ (BO_range inst)).
  destruct (Gekko.OPCD inst =? 18); [destruct (Z.testbit inst 0); reflexivity|].
  destruct (Gekko.OPCD inst =? 16); [destruct (Z.testbit inst 0); reflexivity|].
  destruct (Gekko.OPCD inst =? 19); [|reflexivity].
  destruct (Gekko.SUBOP10 inst =? 16).
  { destruct (BO_unconditional _), (Z.testbit inst 0); reflexivity. }
  destruct (Gekko.SUBOP10 inst =? 528); [|reflexivity].
  destruct (BO_unconditional _), (Z.testbit inst 0); reflexivity.
Qed.

(** The assertion of [BranchSavesLR] holds exactly on the words the table
    classifies. *)
Lemma BranchSavesLR_asserted_iff_classified (inst : Z) :
  BranchSavesLR_asserted inst = true <-> branch_kind inst <> None.
Proof.
  unfold BranchSavesLR_asserted, branch_kind.
  rewrite classification_table_cases.
  destruct (Gekko.OPCD inst =? 18); [split; [discriminate | reflexivity]|].
  destruct (Gekko.OPCD inst =? 16); [split; [discriminate | reflexivity]|].
  destruct (Gekko.OPCD inst =? 19); [|split; [discriminate | congruence]].
  destruct (Gekko.SUBOP10 inst =? 16).
  { destruct (BO_unconditional _); split; try discriminate; reflexivity. }
  destruct (Gekko.SUBOP10 inst =? 528).
  { destruct (BO_unconditional _); split; try discriminate; reflexivity. }
  split; [discriminate | congruence].
Qed.

Lemma only_kind_mask (k k' : Kind.t) :
  branch_kind_mask (only_kind k) k' = true <-> k' = k.
Proof. destruct k, k'; simpl; split; congruence. Qed.

(** ** The filter, test by test *)

Lemma filterAcceptsRow_tests (p : BranchWatchProxyModel)
  (value : SelectionValue) (sym : SymbolListValue) :
  filterAcceptsRow p value sym =
  condition_mask p (condition value) &&
  IsBranchTypeAllowed p (original_inst (collection_ptr value)) &&
  (bound_test M_origin_min p (collection_ptr value) &&
   bound_test M_origin_max p (collection_ptr value)) &&
  (bound_test M_destin_min p (collection_ptr value) &&
   bound_test M_destin_max p (collection_ptr value)) &&
  symbol_test (m_origin_symbol_name p) (origin_name sym) &&
  symbol_test (m_destin_symbol_name p) (destin_name sym).
Proof.
  unfold filterAcceptsRow, condition_mask, bound_test, symbol_test.
  generalize (IsBranchTypeAllowed p (original_inst (collection_ptr value))).
  generalize (symbol_name_rejected (origin_name sym) (m_origin_symbol_name p)).
  generalize (symbol_name_rejected (destin_name sym) (m_destin_symbol_name p)).
  generalize (QString.isEmpty (m_origin_symbol_name p)).
  generalize (QString.isEmpty (m_destin_symbol_name p)).
  intros e2 e1 r2 r1 allowed.
  destruct (m_origin_min p) as [lo|], (m_origin_max p) as [hi|],
           (m_destin_min p) as [lo'|], (m_destin_max p) as [hi'|];
    repeat match goal with
           | |- context [?x <? ?y] => generalize (x <? y); intro
           | |- context [?x >? ?y] => generalize (x >? y); intro
           end;
    destruct (condition value), (m_cond_true p), (m_cond_false p), allowed;
    try reflexivity;
    repeat match goal with
           | c : bool |- _ => destruct c; try reflexivity
           end.
Qed.

Lemma range_tests (lo hi : option Z) (addr : Z) :
  (match lo with Some l => negb (addr <? l) | None => true end = true /\
   match hi with Some h => negb (addr >? h) | None => true end = true) <->
  within_range lo hi addr.
Proof.
  unfold within_range. split.
  - intros [Hlo Hhi]. split.
    + intros l ->. apply negb_true_iff in Hlo. lia.
    + intros h ->. apply negb_true_iff in Hhi. lia.
  - intros [Hlo Hhi]. split.
    + destruct lo as [l|]; [|reflexivity].
      specialize (Hlo l eq_refl). apply negb_true_iff. lia.
    + destruct hi as [h|]; [|reflexivity].
      specialize (Hhi h eq_refl). apply negb_true_iff. lia.
Qed.

Lemma symbol_test_spec (wanted : string) (resolved : option string) :
  symbol_test wanted resolved = true <->
  symbol_matches (if QString.isEmpty wanted then None else Some wanted)
    resolved.
Proof.
  unfold symbol_test, symbol_name_rejected, symbol_matches.
  destruct (QString.isEmpty wanted); cbn [negb andb]; [tauto|].
  destruct resolved as [name|]; cbn [negb andb].
  - rewrite negb_involutive, contains_spec. split.
    + intros H. exists name. auto.
    + intros [name' [E H]]. injection E as ->. exact H.
  - split; [discriminate | intros [name [E _]]; discriminate].
Qed.

Lemma kind_allowed_spec (p : BranchWatchProxyModel) (inst : Z) :
  IsBranchTypeAllowed p inst = true <->
  exists k, branch_kind inst = Some k /\ branch_kind_mask p k = true.
Proof.
  rewrite IsBranchTypeAllowed_by_kind. destruct (branch_kind inst) as [k|].
  - split; [intros H; exists k; auto | intros [k' [E H]]; congruence].
  - split; [discriminate | intros [k [E _]]; discriminate].
Qed.

Lemma filterAcceptsRow_spec (p : BranchWatchProxyModel)
  (value : SelectionValue) (sym : SymbolListValue) :
  filterAcceptsRow p value sym = true <-> passes_filter p value sym.
Proof.
  rewrite filterAcceptsRow_tests. unfold passes_filter.
  rewrite !andb_true_iff, kind_allowed_spec, !symbol_test_spec.
  unfold bound_test. rewrite !range_tests.
  unfold origin_symbol_substring, destin_symbol_substring. tauto.
Qed.

Lemma no_symbol_no_match (wanted sub : string) :
  (if QString.isEmpty wanted then None else Some wanted) = Some sub ->
  symbol_test wanted None = false.
Proof.
  unfold symbol_test. destruct (QString.isEmpty wanted); [discriminate|].
  reflexivity.
Qed.

(** C1. A record of the selection passes the filter exactly when its
    condition flag is in the condition mask, its branch kind is in the
    branch-kind mask, its origin and destination addresses respect the
    bounds that are set, and on each side no symbol substring is set or the
    resolved symbol name contains it, letter case ignored; a substring that
    is set on a side where no symbol resolves fails the record.  The rows
    the view shows are the selection entries that pass. *)
Theorem filterAcceptsRow_iff_passes_filter :
  forall (p : BranchWatchProxyModel) (value : SelectionValue)
         (sym : SymbolListValue),
    (filterAcceptsRow p value sym = true <-> passes_filter p value sym) /\
    (forall sub, origin_symbol_substring p = Some sub ->
                 origin_name sym = None ->
                 filterAcceptsRow p value sym = false) /\
    (forall sub, destin_symbol_substring p = Some sub ->
                 destin_name sym = None ->
                 filterAcceptsRow p value sym = false) /\
    (forall d, m_table_proxy d = p ->
       (In (value, sym) (visible_rows d) <->
        In (value, sym)
          (combine (BranchWatch.GetSelection (m_branch_watch d))
             (GetSymbolList d)) /\
        passes_filter p value sym)).
Proof.
  intros p value sym. split; [apply filterAcceptsRow_spec|].
  split; [|split].
  - intros sub Hsub Hname. rewrite filterAcceptsRow_tests, Hname.
    rewrite (no_symbol_no_match _ sub Hsub).
    rewrite andb_false_r. reflexivity.
  - intros sub Hsub Hname. rewrite filterAcceptsRow_tests, Hname.
    rewrite (no_symbol_no_match _ sub Hsub).
    rewrite andb_false_r. reflexivity.
  - intros d <-. unfold visible_rows. rewrite filter_In.
    simpl. rewrite filterAcceptsRow_spec. tauto.
Qed.

(** C2. The branch-type test decodes the primary opcode, for opcode 19 the
    sub-opcode and the BO bits, and the LK bit as [lr_saved], and answers
    with the check box of the kind the classification table gives; a word
    the table does not list is rejected whatever the boxes.  The filter
    with a single box checked accepts exactly the words of that kind.  The
    BLR word (opcode 19, sub-opcode 16, BO 10100, LK clear) is a blr, and
    with LK set a blrl. *)
Theorem IsBranchTypeAllowed_classification :
  (forall p inst,
     IsBranchTypeAllowed p inst =
     match classification_table (Gekko.OPCD inst) (Gekko.SUBOP10 inst)
             (Gekko.BO inst) (BranchSavesLR inst) with
     | Some k => branch_kind_mask p k
     | None => false
     end) /\
  (forall inst, BranchSavesLR inst = Z.testbit inst 0) /\
  (forall k inst,
     IsBranchTypeAllowed (only_kind k) inst = true <->
     branch_kind inst = Some k) /\
  (forall p inst,
     Gekko.OPCD inst <> 18 -> Gekko.OPCD inst <> 16 ->
     (Gekko.OPCD inst <> 19 \/
      (Gekko.SUBOP10 inst <> 16 /\ Gekko.SUBOP10 inst <> 528)) ->
     IsBranchTypeAllowed p inst = false) /\
  (forall inst,
     Gekko.OPCD inst = 19 -> Gekko.SUBOP10 inst = 16 ->
     Gekko.BO inst = 0x14 ->
     branch_kind inst =
     Some (if BranchSavesLR inst then Kind.blrl else Kind.blr)) /\
  branch_kind 0x4E800020 = Some Kind.blr /\
  branch_kind 0x4E800021 = Some Kind.blrl.
Proof.
  split; [|split; [|split; [|split; [|split; [|split]]]]].
  - intros p inst. rewrite BranchSavesLR_bit0.
    apply IsBranchTypeAllowed_by_kind.
  - apply BranchSavesLR_bit0.
  - intros k inst. rewrite kind_allowed_spec. split.
    + intros [k' [E H]]. apply only_kind_mask in H. congruence.
    + intros E. exists k. split; [exact E | now apply only_kind_mask].
  - intros p inst H18 H16 H19. unfold IsBranchTypeAllowed.
    destruct (Z.eqb_spec (Gekko.OPCD inst) 18); [contradiction|].
    destruct (Z.eqb_spec (Gekko.OPCD inst) 16); [contradiction|].
    destruct (Z.eqb_spec (Gekko.OPCD inst) 19); [|reflexivity].
    destruct H19 as [H19 | [S16 S528]]; [contradiction|].
    destruct (Z.eqb_spec (Gekko.SUBOP10 inst) 16); [contradiction|].
    destruct (Z.eqb_spec (Gekko.SUBOP10 inst) 528); [contradiction|].
    reflexivity.
  - intros inst Ho Hs Hb. unfold branch_kind.
    rewrite Ho, Hs, Hb, BranchSavesLR_bit0. reflexivity.
  - reflexivity.
  - reflexivity.
Qed.

Lemma IsBranchTypeAllowed_classification_witness :
  branch_kind 0x4E800021 =
  Some (if BranchSavesLR 0x4E800021 then Kind.blrl else Kind.blr) /\
  IsBranchTypeAllowed proxy_initial 0x60000000 = false.
Proof.
  split.
  - apply (proj1 (proj2 (proj2 (proj2 (proj2
             IsBranchTypeAllowed_classification)))) 0x4E800021);
      reflexivity.
  - apply (proj1 (proj2 (proj2 (proj2
             IsBranchTypeAllowed_classification))) proxy_initial 0x60000000).
    + vm_compute. discriminate.
    + vm_compute. discriminate.
    + left. vm_compute. discriminate.
Defined.

Lemma filterAcceptsRow_iff_passes_filter_witness :
  filterAcceptsRow example_filter example_value example_unresolved = false.
Proof.
  apply (proj1 (proj2 (filterAcceptsRow_iff_passes_filter
                         example_filter example_value example_unresolved))
           "report"%string); reflexivity.
Defined.

(** ** The address range *)

Lemma filter_none {A : Type} (f : A -> bool) (l : list A) :
  (forall x, In x l -> f x = false) -> filter f l = [].
Proof.
  induction l as [|x l IH]; intros H; simpl; [reflexivity|].
  rewrite (H x (or_introl eq_refl)). apply IH.
  intros y Hy. apply H. right. exact Hy.
Qed.

Lemma without_origin_range_tests (p : BranchWatchProxyModel)
  (value : SelectionValue) (sym : SymbolListValue) :
  filterAcceptsRow p value sym =
  bound_test M_origin_min p (collection_ptr value) &&
  bound_test M_origin_max p (collection_ptr value) &&
  filterAcceptsRow (without_origin_range p) value sym.
Proof.
  rewrite !filterAcceptsRow_tests.
  change (bound_test M_origin_min (without_origin_range p)
            (collection_ptr value)) with true.
  change (bound_test M_origin_max (without_origin_range p)
            (collection_ptr value)) with true.
  change (IsBranchTypeAllowed (without_origin_range p))
    with (IsBranchTypeAllowed p).
  change (bound_test M_destin_min (without_origin_range p))
    with (bound_test M_destin_min p).
  change (bound_test M_destin_max (without_origin_range p))
    with (bound_test M_destin_max p).
  change (condition_mask (without_origin_range p)) with (condition_mask p).
  change (m_origin_symbol_name (without_origin_range p))
    with (m_origin_symbol_name p).
  change (m_destin_symbol_name (without_origin_range p))
    with (m_destin_symbol_name p).
  cbn [andb].
  repeat match goal with
         | |- context [bound_test ?m p ?k] => generalize (bound_test m p k)
         end.
  generalize (condition_mask p (condition value)).
  generalize (IsBranchTypeAllowed p (original_inst (collection_ptr value))).
  intros a c o1 o2 d1 d2.
  destruct a, c, o1, o2, d1, d2; reflexivity.
Qed.

Lemma no_origin_range_any_origin (q : BranchWatchProxyModel) :
  m_origin_min q = None -> m_origin_max q = None ->
  forall value sym a,
    bound_test M_origin_min q (collection_ptr value) = true /\
    bound_test M_origin_max q (collection_ptr value) = true /\
    filterAcceptsRow q (with_origin_addr a value) sym =
    filterAcceptsRow q value sym.
Proof.
  intros Hmin Hmax value sym a.
  rewrite !filterAcceptsRow_tests. unfold bound_test.
  rewrite Hmin, Hmax. auto.
Qed.

Lemma initial_filter_with_origin_range (lo hi : Z) (value : SelectionValue)
  (sym : SymbolListValue) :
  filterAcceptsRow
    (set_address M_origin_max (Some hi)
       (set_address M_origin_min (Some lo) proxy_initial)) value sym = true <->
  lo <= origin_addr (collection_ptr value) <= hi /\
  branch_kind (original_inst (collection_ptr value)) <> None.
Proof.
  set (q := set_address M_origin_max (Some hi) _).
  assert (Fc : forall c, condition_mask q c = true)
    by (intros []; reflexivity).
  assert (Fk : forall k, branch_kind_mask q k = true)
    by (intros []; reflexivity).
  assert (Fomin : m_origin_min q = Some lo) by reflexivity.
  assert (Fomax : m_origin_max q = Some hi) by reflexivity.
  assert (Fdmin : m_destin_min q = None) by reflexivity.
  assert (Fdmax : m_destin_max q = None) by reflexivity.
  assert (Fos : origin_symbol_substring q = None) by reflexivity.
  assert (Fds : destin_symbol_substring q = None) by reflexivity.
  clearbody q.
  rewrite filterAcceptsRow_spec. unfold passes_filter, within_range.
  rewrite Fc, Fomin, Fomax, Fdmin, Fdmax, Fos, Fds.
  split.
  - intros (_ & [k [E _]] & [Hlo Hhi] & _).
    specialize (Hlo lo eq_refl). specialize (Hhi hi eq_refl).
    split; [lia | congruence].
  - intros [Hr Hk]. split; [reflexivity|]. split.
    + destruct (branch_kind _) as [k|]; [|congruence].
      exists k. split; [reflexivity | apply Fk].
    + split; [split; intros ? E; injection E as <-; lia|].
      split; [split; intros ? E; discriminate|].
      split; exact I.
Qed.

(** C5. With an origin range from [lo] to [hi] set, the rows the filter
    returns are those with [lo <= origin_addr <= hi], both bounds included,
    that pass the rest of the filter; with the rest of the filter as the
    dialog starts it (every box checked, no text) they are exactly the
    branches with the origin in the range.  An empty range returns no row,
    and without a range the origin address plays no part. *)
Theorem origin_range_inclusive :
  forall (p : BranchWatchProxyModel) (lo hi : Z)
         (rows : list (SelectionValue * SymbolListValue)),
    m_origin_min p = Some lo -> m_origin_max p = Some hi ->
    (forall r,
       In r (filter (fun r => filterAcceptsRow p (fst r) (snd r)) rows) <->
       In r rows /\
       lo <= origin_addr (collection_ptr (fst r)) <= hi /\
       filterAcceptsRow (without_origin_range p) (fst r) (snd r) = true) /\
    (hi < lo ->
     filter (fun r => filterAcceptsRow p (fst r) (snd r)) rows = []) /\
    (forall q, m_origin_min q = None -> m_origin_max q = None ->
       forall value sym a,
         bound_test M_origin_min q (collection_ptr value) = true /\
         bound_test M_origin_max q (collection_ptr value) = true /\
         filterAcceptsRow q (with_origin_addr a value) sym =
         filterAcceptsRow q value sym) /\
    (forall value sym,
       filterAcceptsRow
         (set_address M_origin_max (Some hi)
            (set_address M_origin_min (Some lo) proxy_initial))
         value sym = true <->
       lo <= origin_addr (collection_ptr value) <= hi /\
       branch_kind (original_inst (collection_ptr value)) <> None).
Proof.
  intros p lo hi rows Hmin Hmax.
  assert (Hrow : forall r,
             filterAcceptsRow p (fst r) (snd r) = true <->
             lo <= origin_addr (collection_ptr (fst r)) <= hi /\
             filterAcceptsRow (without_origin_range p) (fst r) (snd r) = true).
  { intros r. rewrite without_origin_range_tests at 1.
    unfold bound_test. rewrite Hmin, Hmax, !andb_true_iff, !negb_true_iff.
    rewrite Z.ltb_ge, Z.gtb_ltb, Z.ltb_ge. tauto. }
  split; [|split; [|split]].
  - intros r. rewrite filter_In, Hrow. tauto.
  - intros Hempty. apply filter_none.
    intros r _. destruct (filterAcceptsRow p (fst r) (snd r)) eqn:E;
      [|reflexivity].
    apply Hrow in E. lia.
  - apply no_origin_range_any_origin.
  - apply initial_filter_with_origin_range.
Qed.

Lemma origin_range_inclusive_witness :
  filter (fun r => filterAcceptsRow (example_range 0x800000FF 0x80000000)
                     (fst r) (snd r)) example_rows = [] /\
  filter (fun r => filterAcceptsRow (example_range 0x80000000 0x800000FF)
                     (fst r) (snd r)) example_rows =
  [ (with_origin_addr 0x80000010 example_value, example_unresolved);
    (with_origin_addr 0x800000FF example_value, example_unresolved) ].
Proof.
  split.
  - apply (proj1 (proj2 (origin_range_inclusive
                           (example_range 0x800000FF 0x80000000)
                           0x800000FF 0x80000000 example_rows
                           eq_refl eq_refl))).
    reflexivity.
  - reflexivity.
Defined.

(** ** The address fields *)

Lemma hexDigit_range (c : ascii) (d : Z) :
  QString.hexDigit c = Some d -> 0 <= d < 16.
Proof.
  unfold QString.hexDigit.
  destruct ((48 <=? QString.code c) && (QString.code c <=? 57)) eqn:E1.
  { intros H. injection H as <-. apply andb_true_iff in E1. lia. }
  destruct ((97 <=? QString.code c) && (QString.code c <=? 102)) eqn:E2.
  { intros H. injection H as <-. apply andb_true_iff in E2. lia. }
  destruct ((65 <=? QString.code c) && (QString.code c <=? 70)) eqn:E3.
  { intros H. injection H as <-. apply andb_true_iff in E3. lia. }
  discriminate.
Qed.

Lemma digits_nonneg (s : string) :
  forall acc v, 0 <= acc -> QString.digits acc s = Some v -> 0 <= v.
Proof.
  induction s as [|c s IH]; intros acc v Hacc; simpl.
  - intros H. injection H as <-. exact Hacc.
  - destruct (QString.hexDigit c) as [d|] eqn:E; [|discriminate].
    apply hexDigit_range in E. apply (IH (16 * acc + d)). lia.
Qed.

Lemma toUInt16_ok (text : string) (v : Z) :
  QString.toUInt16 text = (v, true) -> is_u32 v.
Proof.
  unfold QString.toUInt16, is_u32.
  destruct (QString.isEmpty _); [discriminate|].
  destruct (QString.digits 0 _) as [w|] eqn:E; [|discriminate].
  destruct (Z.leb_spec w 0xFFFFFFFF) as [Hle|Hgt]; [|discriminate].
  intros H. injection H as <-. apply digits_nonneg in E; lia.
Qed.

Lemma get_set_address (m m' : AddressMember) (v : option Z)
  (p : BranchWatchProxyModel) :
  get_address m' (set_address m v p) =
  if AddressMember_eqb m m' then v else get_address m' p.
Proof. destruct m, m'; reflexivity. Qed.

Lemma bound_test_unset (m : AddressMember) (p : BranchWatchProxyModel)
  (k : BranchWatchCollectionKey) :
  get_address m p = None -> bound_test m p k = true.
Proof. destruct m; simpl; intros ->; reflexivity. Qed.

(** C9. The text of a Min or Max field that parses as a hexadecimal 32-bit
    unsigned integer sets the bound to the value parsed; any other text, the
    empty one included, clears the bound, so that the test of this bound
    passes at every address.  The other bounds and the rest of the filter
    are left as they were, and no warning is raised. *)
Theorem OnAddressTextChanged_sets_or_clears :
  forall (member : AddressMember) (text : string) (p : BranchWatchProxyModel),
    let p' := OnAddressTextChanged member text p in
    (forall v, QString.toUInt16 text = (v, true) ->
               get_address member p' = Some v /\ is_u32 v) /\
    (snd (QString.toUInt16 text) = false ->
     get_address member p' = None /\
     forall k, bound_test member p' k = true) /\
    snd (QString.toUInt16 EmptyString) = false /\
    (forall m, m <> member -> get_address m p' = get_address m p) /\
    (forall m, get_bool m p' = get_bool m p) /\
    (forall m, get_symbol m p' = get_symbol m p) /\
    (forall d, warnings (handle d (AddressTextChanged member text)) =
               warnings d).
Proof.
  intros member text p p'. subst p'. unfold OnAddressTextChanged.
  destruct (QString.toUInt16 text) as [value ok] eqn:E.
  split; [|split; [|split; [|split; [|split; [|split]]]]].
  - intros v Hv. injection Hv as -> ->. split.
    + rewrite get_set_address. destruct member; reflexivity.
    + apply (toUInt16_ok text). exact E.
  - simpl. intros ->. split.
    + rewrite get_set_address. destruct member; reflexivity.
    + intros k. apply bound_test_unset.
      rewrite get_set_address. destruct member; reflexivity.
  - reflexivity.
  - intros m Hm. destruct ok; rewrite get_set_address;
      destruct member, m; try reflexivity; contradiction.
  - intros m. destruct ok, member, m; reflexivity.
  - intros m. destruct ok, member, m; reflexivity.
  - intros d. reflexivity.
Qed.

Lemma OnAddressTextChanged_sets_or_clears_witness :
  (get_address M_origin_min
     (OnAddressTextChanged M_origin_min "80000000" proxy_initial)
   = Some 0x80000000 /\ is_u32 0x80000000) /\
  get_address M_origin_min
    (OnAddressTextChanged M_origin_min "8000zz"
       (OnAddressTextChanged M_origin_min "80000000" proxy_initial)) = None.
Proof.
  split.
  - apply (proj1 (OnAddressTextChanged_sets_or_clears
                    M_origin_min "80000000" proxy_initial)).
    reflexivity.
  - apply (proj1 (proj2 (OnAddressTextChanged_sets_or_clears
                    M_origin_min "8000zz"
                    (OnAddressTextChanged M_origin_min "80000000"
                       proxy_initial)))).
    reflexivity.
Defined.

(** ** Refusals *)

(** C4. While the core is uninitialized, "Branch Was Overwritten" and
    "Branch Not Overwritten" are refused: the warning "Core is
    uninitialized." is shown and nothing else changes, neither the store
    (selection, hit counts, phase, blacklist) nor the files, the memory or
    the status line. *)
Theorem overwritten_checks_refused_when_uninitialized :
  forall d : BranchWatchDialog,
    core_state (m_system d) = Core.Uninitialized ->
    forall d',
      d' = OnBranchWasOverwritten d \/ d' = OnBranchNotOverwritten d ->
      d' = warning CoreIsUninitialized d /\
      warnings d' = (warnings d ++ [CoreIsUninitialized])%list /\
      m_branch_watch d' = m_branch_watch d /\
      m_system d' = m_system d /\
      m_status_bar d' = m_status_bar d.
Proof.
  intros d Hcore d' Hd'.
  assert (E : d' = warning CoreIsUninitialized d).
  { destruct Hd' as [-> | ->];
      unfold OnBranchWasOverwritten, OnBranchNotOverwritten;
      rewrite Hcore; reflexivity. }
  subst d'. repeat split.
Qed.

Lemma overwritten_checks_refused_when_uninitialized_witness :
  let d := dialog_initial (example_system Core.Uninitialized)
             example_store_reduction in
  m_branch_watch (OnBranchWasOverwritten d) = example_store_reduction /\
  warnings (OnBranchWasOverwritten d) = [CoreIsUninitialized].
Proof.
  intros d.
  destruct (overwritten_checks_refused_when_uninitialized d eq_refl
              (OnBranchWasOverwritten d) (or_introl eq_refl))
    as (_ & Hw & Hs & _).
  split; [exact Hs | exact Hw].
Defined.

Lemma CanSave_spec (s : BranchWatch.t) :
  BranchWatch.CanSave s = true <-> BranchWatch.m_collection s <> [].
Proof.
  unfold BranchWatch.CanSave. destruct (BranchWatch.m_collection s).
  - split; [discriminate | congruence].
  - split; [discriminate | reflexivity].
Qed.

Lemma Save_when_cannot (d : BranchWatchDialog) :
  BranchWatch.CanSave (m_branch_watch d) = false ->
  OnSave d = warning NothingToSave d /\
  (forall filepath, OnSaveAs filepath d = warning NothingToSave d) /\
  AutoSave d = d.
Proof.
  intros H. unfold OnSave, OnSaveAs, AutoSave. rewrite H.
  cbn [negb]. rewrite orb_true_r. auto.
Qed.

(** C6, as the code has it.  [CanSave] is true exactly when the store holds
    a recorded candidate, whatever the phase.  Save, Save As and the
    automatic save write a snapshot only when [CanSave] is true.  When it
    is false, Save and Save As are refused with the warning "There is
    nothing to save!", and the automatic save is skipped silently. *)
Theorem saves_gated_by_CanSave :
  forall d : BranchWatchDialog,
    (BranchWatch.CanSave (m_branch_watch d) = true <->
     BranchWatch.m_collection (m_branch_watch d) <> []) /\
    (forall s',
       BranchWatch.m_collection s' =
       BranchWatch.m_collection (m_branch_watch d) ->
       BranchWatch.CanSave s' = BranchWatch.CanSave (m_branch_watch d)) /\
    (BranchWatch.CanSave (m_branch_watch d) = false ->
     OnSave d = warning NothingToSave d /\
     (forall filepath, OnSaveAs filepath d = warning NothingToSave d) /\
     AutoSave d = d) /\
    (forall d',
       d' = OnSave d \/ (exists filepath, d' = OnSaveAs filepath d) \/
       d' = AutoSave d ->
       files (m_system d') <> files (m_system d) ->
       BranchWatch.CanSave (m_branch_watch d) = true).
Proof.
  intros d. split; [apply CanSave_spec|]. split; [|split].
  - intros s' E. unfold BranchWatch.CanSave. rewrite E. reflexivity.
  - apply Save_when_cannot.
  - intros d' Hd' Hfiles.
    destruct (BranchWatch.CanSave (m_branch_watch d)) eqn:E; [reflexivity|].
    destruct (Save_when_cannot d E) as (H1 & H2 & H3).
    exfalso. apply Hfiles.
    destruct Hd' as [-> | [[filepath ->] | ->]];
      rewrite ?H1, ?H2, ?H3; reflexivity.
Qed.

Lemma saves_gated_by_CanSave_witness :
  OnSave example_autosave_empty =
  warning NothingToSave example_autosave_empty /\
  AutoSave example_autosave_empty = example_autosave_empty.
Proof.
  destruct (proj1 (proj2 (proj2 (saves_gated_by_CanSave
                                   example_autosave_empty))) eq_refl)
    as (H1 & _ & H3).
  split; [exact H1 | exact H3].
Defined.

(** C6, as the spec words it, fails for the automatic save: with auto-save
    on and nothing recorded, [AutoSave] writes nothing and reports nothing. *)
Lemma AutoSave_refuses_silently :
  m_act_autosave example_autosave_empty = true /\
  BranchWatch.CanSave (m_branch_watch example_autosave_empty) = false /\
  warnings (AutoSave example_autosave_empty) =
  warnings example_autosave_empty /\
  ~ refused_with_error AutoSave example_autosave_empty.
Proof.
  split; [reflexivity|]. split; [reflexivity|]. split; [reflexivity|].
  intros [_ [w H]]. discriminate H.
Qed.

(** ** The context menu *)

Lemma OnTableDelete_system (index_list : list QModelIndex)
  (d : BranchWatchDialog) :
  m_system (OnTableDelete index_list d) = m_system d.
Proof. reflexivity. Qed.

Lemma forallb_map_rows (f : QModelIndex -> bool) (c : Column)
  (rows : list nat) :
  forallb f (map (fun r => {| row := r; column := c |}) rows) =
  forallb (fun r => f {| row := r; column := c |}) rows.
Proof.
  induction rows as [|r rows IH]; simpl; [reflexivity|].
  rewrite IH. reflexivity.
Qed.

Lemma Destination_menu (r : nat) (selectedRows : list nat)
  (d : BranchWatchDialog) :
  let index_list :=
    map (fun r' => {| row := r'; column := Destination |}) selectedRows in
  let enable_action :=
    negb (Core.State_eqb (core_state (m_system d)) Core.Uninitialized) &&
    forallb (fun r' =>
               BranchSavesLR
                 (value_u32 (data_ClickRole d
                               {| row := r'; column := Instruction |})))
      selectedRows in
  OnTableContextMenu (Some {| row := r; column := Destination |})
    selectedRows d =
  [ {| text := "&Delete"; isEnabled := true;
       triggered := Some (TableDelete index_list) |};
    {| text := "Insert &BLR"; isEnabled := enable_action;
       triggered := if enable_action then Some (TableSetBLR index_list)
                    else None |};
    {| text := "&Copy Address"; isEnabled := true;
       triggered := Some (TableCopyAddress index_list) |} ].
Proof.
  intros index_list enable_action.
  unfold OnTableContextMenu. cbn [column].
  rewrite (forallb_map_rows
             (fun index =>
                BranchSavesLR
                  (value_u32 (data_ClickRole d
                                (siblingAtColumn Instruction index))))).
  unfold siblingAtColumn. cbn [row].
  fold index_list. fold enable_action.
  destruct enable_action; reflexivity.
Qed.

Lemma State_eqb_spec (x y : Core.State) :
  Core.State_eqb x y = true <-> x = y.
Proof. destruct x, y; simpl; split; congruence. Qed.

(** C10. In the menu of the Destination column "Insert BLR" is always
    present, and it is enabled exactly when the core is not uninitialized
    and the branch instruction of every selected row has its LK bit set.
    Otherwise it is disabled and connected to nothing, so that whatever is
    chosen in the menu no patch is set. *)
Theorem Insert_BLR_enabled_iff_all_save_LR :
  forall (r : nat) (selectedRows : list nat) (d : BranchWatchDialog),
    let index := {| row := r; column := Destination |} in
    let index_list :=
      map (fun r' => {| row := r'; column := Destination |}) selectedRows in
    let inst r' :=
      value_u32 (data_ClickRole d {| row := r'; column := Instruction |}) in
    exists a,
      nth_error (OnTableContextMenu (Some index) selectedRows d) 1 = Some a /\
      text a = "Insert &BLR"%string /\
      (isEnabled a = true <->
       core_state (m_system d) <> Core.Uninitialized /\
       forall r', In r' selectedRows -> Z.testbit (inst r') 0 = true) /\
      (isEnabled a = true -> triggered a = Some (TableSetBLR index_list)) /\
      (isEnabled a = false ->
       trigger a d = d /\
       forall chosen,
         patches (m_system
                    (handle d (TableContextMenu (Some index) selectedRows
                                 chosen))) = patches (m_system d)) /\
      (forall r' value,
         nth_error (BranchWatch.GetSelection (m_branch_watch d)) r'
         = Some value ->
         inst r' = original_inst (collection_ptr value)).
Proof.
  intros r selectedRows d index index_list inst.
  pose proof (Destination_menu r selectedRows d) as Hmenu.
  cbv zeta in Hmenu. fold index index_list in Hmenu.
  set (enable_action := negb _ && forallb _ _) in Hmenu.
  eexists. split; [rewrite Hmenu; reflexivity|].
  cbn [text isEnabled triggered].
  split; [reflexivity|]. split; [|split; [|split]].
  - unfold enable_action.
    rewrite andb_true_iff, negb_true_iff, forallb_forall.
    rewrite <- not_true_iff_false, State_eqb_spec.
    split; intros [H1 H2]; (split; [exact H1|]); intros r' Hr';
      specialize (H2 r' Hr'); fold (inst r') in *;
      rewrite BranchSavesLR_bit0 in *; exact H2.
  - intros ->. reflexivity.
  - intros E. split.
    + unfold trigger. cbn [isEnabled]. rewrite E. reflexivity.
    + intros chosen. cbn [handle]. fold index. rewrite Hmenu, E.
      destruct chosen as [|[|[|n]]]; try reflexivity.
      destruct n; reflexivity.
  - intros r' value Hv. unfold inst, data_ClickRole. cbn [row column].
    rewrite Hv. reflexivity.
Qed.

Lemma Insert_BLR_enabled_iff_all_save_LR_witness :
  (exists a,
     nth_error (OnTableContextMenu (Some {| row := 0; column := Destination |})
                  [0%nat] example_dialog_two_rows) 1 = Some a /\
     isEnabled a = true) /\
  (exists a,
     nth_error (OnTableContextMenu (Some {| row := 0; column := Destination |})
                  [0%nat; 1%nat] example_dialog_two_rows) 1 = Some a /\
     isEnabled a = false).
Proof.
  split.
  - destruct (Insert_BLR_enabled_iff_all_save_LR 0 [0%nat]
                example_dialog_two_rows) as (a & Hn & _ & Hen & _).
    exists a. split; [exact Hn|]. apply Hen. split; [discriminate|].
    intros r' [<- | []]. reflexivity.
  - destruct (Insert_BLR_enabled_iff_all_save_LR 0 [0%nat; 1%nat]
                example_dialog_two_rows) as (a & Hn & _ & Hen & _).
    exists a. split; [exact Hn|].
    destruct (isEnabled a); [|reflexivity].
    destruct (proj1 Hen eq_refl) as [_ H].
    specialize (H 1%nat (or_intror (or_introl eq_refl))).
    vm_compute in H. discriminate H.
Defined.

(** ** The store behind the handlers *)

Lemma SelectionValue_eqb_eq (x y : SelectionValue) :
  SelectionValue_eqb x y = true -> x = y.
Proof.
  destruct x as [[o t i] c], y as [[o' t' i'] c'].
  unfold SelectionValue_eqb, BranchWatchCollectionKey_eqb. simpl.
  rewrite !andb_true_iff, !Z.eqb_eq. intros [[[-> ->] ->] H].
  apply eqb_prop in H. subst. reflexivity.
Qed.

Lemma lookup_map (h : SelectionValue -> BranchWatch.CandidateRecord ->
                      BranchWatch.CandidateRecord)
  (c : list (SelectionValue * BranchWatch.CandidateRecord))
  (id : SelectionValue) :
  BranchWatch.lookup id (map (fun e => (fst e, h (fst e) (snd e))) c) =
  option_map (h id) (BranchWatch.lookup id c).
Proof.
  induction c as [|[i r] c IH]; simpl; [reflexivity|].
  destruct (SelectionValue_eqb id i) eqn:E; [|exact IH].
  apply SelectionValue_eqb_eq in E. subst. reflexivity.
Qed.

Lemma lookup_destroy (gone : list SelectionValue)
  (c : list (SelectionValue * BranchWatch.CandidateRecord))
  (id : SelectionValue) :
  BranchWatch.lookup id (BranchWatch.destroy gone c) =
  if BranchWatch.mem id gone then None else BranchWatch.lookup id c.
Proof.
  induction c as [|[i r] c IH]; simpl.
  - destruct (BranchWatch.mem id gone); reflexivity.
  - destruct (BranchWatch.mem i gone) eqn:Ei; simpl.
    + rewrite IH. destruct (SelectionValue_eqb id i) eqn:E; [|reflexivity].
      apply SelectionValue_eqb_eq in E. subst. rewrite Ei. reflexivity.
    + rewrite IH. destruct (SelectionValue_eqb id i) eqn:E; [|reflexivity].
      apply SelectionValue_eqb_eq in E. subst. rewrite Ei. reflexivity.
Qed.

Lemma lookup_app (c c' : list (SelectionValue * BranchWatch.CandidateRecord))
  (id : SelectionValue) :
  BranchWatch.lookup id (c ++ c')%list =
  match BranchWatch.lookup id c with
  | Some r => Some r
  | None => BranchWatch.lookup id c'
  end.
Proof.
  induction c as [|[i r] c IH]; simpl; [reflexivity|].
  destruct (SelectionValue_eqb id i); [reflexivity | exact IH].
Qed.

Lemma apply_phase (s : BranchWatch.t) (op : BranchWatch.Op) :
  BranchWatch.m_recording_phase (BranchWatch.apply s op) =
  phase_step (BranchWatch.m_recording_phase s) op.
Proof.
  destruct op; cbn [BranchWatch.apply phase_step];
    unfold BranchWatch.RecordHit, BranchWatch.Pause, BranchWatch.SetBlacklisted,
      BranchWatch.CodePathWasTaken, BranchWatch.ApplyTakenReduction,
      BranchWatch.ApplyNotTakenReduction,
      BranchWatch.ApplyOverwrittenReduction, BranchWatch.ApplyNotOverwrittenReduction,
      BranchWatch.TransitionToReduction, BranchWatch.reduce;
    try reflexivity;
    try (destruct (BranchWatch.m_recording_active s); try reflexivity);
    try (destruct (BranchWatch.lookup id _); reflexivity);
    destruct (BranchWatch.m_recording_phase s) eqn:E;
    cbn [BranchWatch.m_recording_phase BranchWatch.with_collection];
    rewrite ?E; reflexivity.
Qed.

Lemma fold_phase (ops : list BranchWatch.Op) (s : BranchWatch.t) :
  BranchWatch.m_recording_phase (fold_left BranchWatch.apply ops s) =
  fold_left phase_step ops (BranchWatch.m_recording_phase s).
Proof.
  revert s. induction ops as [|op ops IH]; intros s; simpl; [reflexivity|].
  rewrite IH, apply_phase. reflexivity.
Qed.

(** What the helpers of the dialog leave of the store. *)
Lemma UpdateStatus_store (d : BranchWatchDialog) :
  m_branch_watch (UpdateStatus d) = m_branch_watch d.
Proof. reflexivity. Qed.

Lemma Update_store (d : BranchWatchDialog) :
  m_branch_watch (Update d) = m_branch_watch d.
Proof. unfold Update. destruct (BranchWatch.GetRecordingPhase _); reflexivity. Qed.

Lemma Save_store (filepath : string) (d : BranchWatchDialog) :
  m_branch_watch (Save filepath d) = m_branch_watch d.
Proof. unfold Save. destruct (negb _); reflexivity. Qed.

Lemma AutoSave_store (d : BranchWatchDialog) :
  m_branch_watch (AutoSave d) = m_branch_watch d.
Proof. unfold AutoSave. destruct (_ || _); [reflexivity | apply Save_store]. Qed.

Lemma Load_store (filepath : string) (d : BranchWatchDialog) :
  m_branch_watch (Load filepath d) =
  fold_left BranchWatch.apply (load_ops filepath d) (m_branch_watch d).
Proof.
  unfold Load, load_ops. destruct (can_open filepath (m_system d));
    [|reflexivity].
  destruct (file_lookup filepath _) as [[snap|]|]; reflexivity.
Qed.

Lemma identities_cons (d : BranchWatchDialog) (index : QModelIndex)
  (index_list : list QModelIndex) :
  identities d (index :: index_list) =
  (match nth_error (BranchWatch.GetSelection (m_branch_watch d)) (row index)
   with Some value => [value] | None => [] end ++ identities d index_list)%list.
Proof. reflexivity. Qed.

Lemma identities_same_selection (d d' : BranchWatchDialog)
  (index_list : list QModelIndex) :
  BranchWatch.GetSelection (m_branch_watch d') =
  BranchWatch.GetSelection (m_branch_watch d) ->
  identities d' index_list = identities d index_list.
Proof. intros E. unfold identities. rewrite E. reflexivity. Qed.

Lemma patch_and_inspect_store (v : Z) (d : BranchWatchDialog)
  (index : QModelIndex) :
  m_branch_watch (patch_and_inspect v d index) =
  fold_left BranchWatch.apply
    (map BranchWatch.OpSetInspected (identities d [index])) (m_branch_watch d).
Proof.
  unfold patch_and_inspect, SetInspected, identities. cbn [flat_map].
  cbn [m_branch_watch with_system].
  destruct (nth_error _ (row index)); reflexivity.
Qed.

Lemma patch_and_inspect_selection (v : Z) (d : BranchWatchDialog)
  (index : QModelIndex) :
  BranchWatch.GetSelection (m_branch_watch (patch_and_inspect v d index)) =
  BranchWatch.GetSelection (m_branch_watch d).
Proof.
  unfold patch_and_inspect, SetInspected. cbn [m_branch_watch with_system].
  destruct (nth_error _ (row index)); reflexivity.
Qed.

Lemma patch_loop_store (v : Z) (index_list : list QModelIndex) :
  forall d,
    m_branch_watch (fold_left (patch_and_inspect v) index_list d) =
    fold_left BranchWatch.apply
      (map BranchWatch.OpSetInspected (identities d index_list))
      (m_branch_watch d).
Proof.
  induction index_list as [|index l IH]; intros d; [reflexivity|].
  cbn [fold_left]. rewrite IH, identities_cons, map_app, fold_left_app.
  rewrite (identities_same_selection d _ l
             (patch_and_inspect_selection v d index)).
  rewrite patch_and_inspect_store. unfold identities at 2. cbn [flat_map].
  rewrite app_nil_r. reflexivity.
Qed.

Lemma run_slot_store (sl : Slot) (d : BranchWatchDialog) :
  m_branch_watch (run_slot sl d) =
  fold_left BranchWatch.apply (slot_ops sl d) (m_branch_watch d).
Proof.
  destruct sl; cbn [run_slot slot_ops]; try reflexivity;
    apply patch_loop_store.
Qed.

(** The store after an event is the store before it with the operations
    of the event applied. *)
Lemma handle_store (d : BranchWatchDialog) (e : Event) :
  m_branch_watch (handle d e) =
  fold_left BranchWatch.apply (store_ops d e) (m_branch_watch d).
Proof.
  destruct e; cbn [handle store_ops].
  - unfold OnStartPause. destruct checked; rewrite Update_store; reflexivity.
  - unfold OnClearBranchWatch.
    rewrite UpdateStatus_store. cbn [m_branch_watch setEnabled_wipe_recent_hits].
    rewrite AutoSave_store. reflexivity.
  - unfold OnSave. destruct (negb _); [reflexivity | apply Save_store].
  - unfold OnSaveAs. destruct (negb _); [reflexivity|].
    destruct (QString.isEmpty filepath); [reflexivity | apply Save_store].
  - apply Load_store.
  - unfold OnLoadFrom. destruct (QString.isEmpty filepath);
      [reflexivity | apply Load_store].
  - unfold OnToggleAutoSave. destruct (negb checked); [reflexivity|].
    destruct (QString.isEmpty filepath); reflexivity.
  - unfold OnCodePathWasTaken.
    rewrite UpdateStatus_store. cbn [m_branch_watch setEnabled_wipe_recent_hits].
    rewrite AutoSave_store. reflexivity.
  - unfold OnCodePathNotTaken.
    rewrite UpdateStatus_store, AutoSave_store. reflexivity.
  - unfold OnBranchWasOverwritten. destruct (Core.State_eqb _ _);
      [reflexivity|].
    rewrite UpdateStatus_store, AutoSave_store. reflexivity.
  - unfold OnBranchNotOverwritten. destruct (Core.State_eqb _ _);
      [reflexivity|].
    rewrite UpdateStatus_store, AutoSave_store. reflexivity.
  - reflexivity.
  - reflexivity.
  - apply Update_store.
  - unfold OnEmulationStateChanged. destruct (negb isVisible);
      [reflexivity | apply Update_store].
  - reflexivity.
  - reflexivity.
  - reflexivity.
  - reflexivity.
  - destruct (nth_error _ chosen) as [a|]; [|reflexivity].
    unfold trigger. destruct (isEnabled a); [|reflexivity].
    destruct (triggered a) as [sl|]; [apply run_slot_store | reflexivity].
  - reflexivity.
Qed.

Lemma store_ops_phase (d : BranchWatchDialog) (e : Event) :
  is_load e = false ->
  fold_left phase_step (store_ops d e)
    (BranchWatch.m_recording_phase (m_branch_watch d)) =
  event_phase_step (BranchWatch.m_recording_phase (m_branch_watch d)) e.
Proof.
  intros Hload. destruct e; try discriminate Hload; cbn [store_ops];
    try reflexivity.
  - destruct checked; reflexivity.
  - destruct (Core.State_eqb _ _); reflexivity.
  - destruct (Core.State_eqb _ _); reflexivity.
  - destruct (nth_error _ chosen) as [a|]; [|reflexivity].
    destruct (isEnabled a); [|reflexivity].
    destruct (triggered a) as [[l|l|l|l]|]; try reflexivity;
      cbn [slot_ops]; induction (identities d l); auto.
Qed.

Lemma handle_phase (d : BranchWatchDialog) (e : Event) :
  is_load e = false ->
  BranchWatch.m_recording_phase (m_branch_watch (handle d e)) =
  event_phase_step (BranchWatch.m_recording_phase (m_branch_watch d)) e.
Proof.
  intros Hload. rewrite handle_store, fold_phase.
  apply store_ops_phase. exact Hload.
Qed.

(** C3, as the code has it.  The phase after an operation is Reduction
    after "Code Path Was Taken", Blacklist after a full clear, the phase of
    the snapshot after a snapshot load, and otherwise the phase before it;
    so over any sequence of events without a load the phase moves from
    Blacklist to Reduction at the first "Code Path Was Taken" and returns to
    Blacklist only at "Clear Branch Watch". *)
Theorem phase_follows_taken_clear_and_load :
  (forall s op,
     BranchWatch.m_recording_phase (BranchWatch.apply s op) =
     phase_step (BranchWatch.m_recording_phase s) op) /\
  (forall d e,
     BranchWatch.m_recording_phase (m_branch_watch (handle d e)) =
     fold_left phase_step (store_ops d e)
       (BranchWatch.m_recording_phase (m_branch_watch d))) /\
  (forall d events,
     forallb (fun e => negb (is_load e)) events = true ->
     BranchWatch.m_recording_phase (m_branch_watch (run d events)) =
     fold_left event_phase_step events
       (BranchWatch.m_recording_phase (m_branch_watch d))) /\
  (forall d e,
     BranchWatch.m_recording_phase (m_branch_watch d) = BranchWatch.Blacklist ->
     BranchWatch.m_recording_phase (m_branch_watch (handle d e))
     = BranchWatch.Reduction ->
     e = CodePathWasTaken \/ is_load e = true) /\
  (forall d e,
     BranchWatch.m_recording_phase (m_branch_watch d) = BranchWatch.Reduction ->
     BranchWatch.m_recording_phase (m_branch_watch (handle d e))
     = BranchWatch.Blacklist ->
     e = ClearBranchWatch \/ is_load e = true).
Proof.
  split; [exact apply_phase|]. split; [|split; [|split]].
  - intros d e. rewrite handle_store. apply fold_phase.
  - intros d events. revert d.
    induction events as [|e events IH]; intros d Hl; [reflexivity|].
    cbn [forallb] in Hl. apply andb_true_iff in Hl. destruct Hl as [He Hl].
    apply negb_true_iff in He.
    unfold run in *. cbn [fold_left]. rewrite (IH _ Hl), (handle_phase d e He).
    reflexivity.
  - intros d e Hb Hr. destruct (is_load e) eqn:Hl; [right; reflexivity|].
    left. rewrite (handle_phase d e Hl), Hb in Hr.
    destruct e; try discriminate Hr; try discriminate Hl. reflexivity.
  - intros d e Hr Hb. destruct (is_load e) eqn:Hl; [right; reflexivity|].
    left. rewrite (handle_phase d e Hl), Hr in Hb.
    destruct e; try discriminate Hb; try discriminate Hl. reflexivity.
Qed.

Lemma phase_follows_taken_clear_and_load_witness :
  BranchWatch.m_recording_phase (m_branch_watch example_session) =
  BranchWatch.Reduction.
Proof.
  exact (proj1 (proj2 (proj2 phase_follows_taken_clear_and_load))
           (dialog_initial (example_system Core.Running) BranchWatch.empty)
           [StartPause true; BranchHit example_value;
            BranchHit example_blr_row; SaveBranchWatch; CodePathWasTaken;
            SaveBranchWatchAs "reduction.txt";
            TableContextMenu (Some {| row := 0; column := Origin |})
              [0%nat] 1]
           eq_refl).
Defined.

(** C3, as the spec words it, fails at a snapshot load: the session is in
    the Reduction phase, its default snapshot was saved in the Blacklist
    phase, and "Load Branch Watch" returns the phase to Blacklist though no
    clear is asked for. *)
Lemma Load_returns_phase_to_Blacklist :
  BranchWatch.m_recording_phase (m_branch_watch example_session) =
  BranchWatch.Reduction /\
  BranchWatch.m_recording_phase
    (m_branch_watch (handle example_session LoadBranchWatch)) =
  BranchWatch.Blacklist /\
  LoadBranchWatch <> ClearBranchWatch.
Proof. split; [reflexivity|]. split; [reflexivity | discriminate]. Qed.

(** ** The inspected flag *)

Lemma keeps_inspected_refl c : keeps_inspected c c.
Proof. intros id r r' H Hi H'. congruence. Qed.

Lemma keeps_inspected_map
  (h : SelectionValue -> BranchWatch.CandidateRecord ->
       BranchWatch.CandidateRecord) c :
  (forall i r, BranchWatch.inspected r = true ->
               BranchWatch.inspected (h i r) = true) ->
  keeps_inspected c (map (fun e => (fst e, h (fst e) (snd e))) c).
Proof.
  intros Hh id r r' H Hi H'. rewrite lookup_map, H in H'.
  injection H' as <-. apply Hh. exact Hi.
Qed.

Lemma keeps_inspected_update (id0 : SelectionValue)
  (f : BranchWatch.CandidateRecord -> BranchWatch.CandidateRecord) c :
  (forall r, BranchWatch.inspected r = true ->
             BranchWatch.inspected (f r) = true) ->
  keeps_inspected c (BranchWatch.update id0 f c).
Proof.
  intros Hf.
  apply (keeps_inspected_map
           (fun i r => if SelectionValue_eqb id0 i then f r else r)).
  intros i r Hi. destruct (SelectionValue_eqb id0 i); auto.
Qed.

Lemma keeps_inspected_update_all
  (f : BranchWatch.CandidateRecord -> BranchWatch.CandidateRecord) c :
  (forall r, BranchWatch.inspected r = true ->
             BranchWatch.inspected (f r) = true) ->
  keeps_inspected c (BranchWatch.update_all f c).
Proof.
  intros Hf. apply (keeps_inspected_map (fun _ r => f r)).
  intros _ r. apply Hf.
Qed.

Lemma keeps_inspected_destroy (gone : list SelectionValue) c :
  keeps_inspected c (BranchWatch.destroy gone c).
Proof.
  intros id r r' H Hi H'. rewrite lookup_destroy in H'.
  destruct (BranchWatch.mem id gone); congruence.
Qed.

Lemma keeps_inspected_app c c' : keeps_inspected c (c ++ c')%list.
Proof.
  intros id r r' H Hi H'. rewrite lookup_app, H in H'. congruence.
Qed.

Lemma reduce_keeps_inspected test (s : BranchWatch.t) :
  keeps_inspected (BranchWatch.m_collection s)
    (BranchWatch.m_collection (BranchWatch.reduce test s)).
Proof.
  unfold BranchWatch.reduce. destruct (BranchWatch.m_recording_phase s).
  - cbn [BranchWatch.m_collection BranchWatch.with_collection].
    apply (keeps_inspected_map
             (fun i r => if test i r then r
                         else BranchWatch.set_blacklisted true r)).
    intros i r Hi. destruct (test i r); auto.
  - apply keeps_inspected_destroy.
Qed.

Lemma apply_keeps_inspected (s : BranchWatch.t) (op : BranchWatch.Op) :
  clears_inspection op = false ->
  keeps_inspected (BranchWatch.m_collection s)
    (BranchWatch.m_collection (BranchWatch.apply s op)).
Proof.
  destruct op; intros Hop; try discriminate Hop; cbn [BranchWatch.apply].
  - unfold BranchWatch.RecordHit.
    destruct (BranchWatch.m_recording_active s);
      try apply keeps_inspected_refl.
    destruct (BranchWatch.lookup id _).
    + apply keeps_inspected_update. auto.
    + apply keeps_inspected_app.
  - apply keeps_inspected_refl.
  - unfold BranchWatch.Pause. destruct (BranchWatch.m_recording_active s);
      apply keeps_inspected_refl.
  - unfold BranchWatch.SetBlacklisted.
    destruct (BranchWatch.m_recording_phase s);
      [apply keeps_inspected_update; auto | apply keeps_inspected_refl].
  - unfold BranchWatch.SetBlacklisted.
    destruct (BranchWatch.m_recording_phase s);
      [apply keeps_inspected_update; auto | apply keeps_inspected_refl].
  - unfold BranchWatch.CodePathWasTaken.
    destruct (BranchWatch.m_recording_phase s) eqn:E.
    + unfold BranchWatch.TransitionToReduction. rewrite E.
      apply keeps_inspected_refl.
    + apply reduce_keeps_inspected.
  - apply reduce_keeps_inspected.
  - apply reduce_keeps_inspected.
  - apply reduce_keeps_inspected.
  - apply keeps_inspected_update_all. auto.
  - intros id r r' _ _ H'. discriminate H'.
  - apply keeps_inspected_destroy.
  - apply keeps_inspected_update. auto.
Qed.

Lemma SetInspected_list_keeps (ids : list SelectionValue) :
  forall s id,
    inspected_is true id s ->
    inspected_is true id
      (fold_left BranchWatch.apply (map BranchWatch.OpSetInspected ids) s).
Proof.
  induction ids as [|i ids IH]; intros s id H; [exact H|].
  cbn [map fold_left]. apply IH. destruct H as [r [Hl Hi]].
  unfold inspected_is, BranchWatch.apply, BranchWatch.SetInspected.
  cbn [BranchWatch.m_collection BranchWatch.with_collection].
  unfold BranchWatch.update.
  rewrite (lookup_map (fun j r0 => if SelectionValue_eqb i j
                                   then BranchWatch.set_inspected true r0
                                   else r0)), Hl.
  eexists. split; [reflexivity|].
  destruct (SelectionValue_eqb i id); [reflexivity | exact Hi].
Qed.

Lemma SetInspected_list_sets (ids : list SelectionValue) :
  forall s id,
    In id ids ->
    BranchWatch.lookup id (BranchWatch.m_collection s) <> None ->
    inspected_is true id
      (fold_left BranchWatch.apply (map BranchWatch.OpSetInspected ids) s).
Proof.
  induction ids as [|i ids IH]; intros s id Hin Hl; [destruct Hin|].
  cbn [map fold_left].
  assert (Hnow : forall j,
             BranchWatch.lookup j
               (BranchWatch.m_collection
                  (BranchWatch.apply s (BranchWatch.OpSetInspected i))) =
             option_map (fun r0 => if SelectionValue_eqb i j
                                   then BranchWatch.set_inspected true r0
                                   else r0)
               (BranchWatch.lookup j (BranchWatch.m_collection s))).
  { intros j. exact (lookup_map (fun j r0 => if SelectionValue_eqb i j
                                   then BranchWatch.set_inspected true r0
                                   else r0) _ j). }
  destruct Hin as [-> | Hin].
  - apply SetInspected_list_keeps. unfold inspected_is. rewrite Hnow.
    destruct (BranchWatch.lookup id _) as [r|]; [|congruence].
    eexists. split; [reflexivity|].
    destruct (SelectionValue_eqb id id) eqn:E; [reflexivity|].
    exfalso. destruct id as [[o t w] c].
    unfold SelectionValue_eqb, BranchWatchCollectionKey_eqb in E.
    cbn in E. rewrite !Z.eqb_refl, eqb_reflx in E. discriminate E.
  - apply IH; [exact Hin|]. rewrite Hnow.
    destruct (BranchWatch.lookup id _); [discriminate | congruence].
Qed.

Lemma store_ops_keep_inspected (d : BranchWatchDialog) (e : Event)
  (id : SelectionValue) :
  e <> WipeInspection -> is_load e = false ->
  inspected_is true id (m_branch_watch d) ->
  ~ inspected_is false id (m_branch_watch (handle d e)).
Proof.
  intros Hw Hl [r [Hr Hi]] [r' [Hr' Hi']].
  rewrite handle_store in Hr'.
  assert (single : forall op,
             clears_inspection op = false ->
             BranchWatch.lookup id
               (BranchWatch.m_collection
                  (fold_left BranchWatch.apply [op] (m_branch_watch d)))
             = Some r' -> False).
  { intros op Hop H. cbn [fold_left] in H.
    pose proof (apply_keeps_inspected (m_branch_watch d) op Hop id r r'
                  Hr Hi H). congruence. }
  assert (none : BranchWatch.lookup id
                   (BranchWatch.m_collection
                      (fold_left BranchWatch.apply [] (m_branch_watch d)))
                 = Some r' -> False).
  { cbn [fold_left]. congruence. }
  destruct e; try discriminate Hl; try contradiction; cbn [store_ops] in Hr';
    try (exact (none Hr'));
    try (eapply single; [|exact Hr']; reflexivity).
  - destruct checked; (eapply single; [|exact Hr']; reflexivity).
  - destruct (Core.State_eqb _ _);
      [exact (none Hr') | eapply single; [|exact Hr']; reflexivity].
  - destruct (Core.State_eqb _ _);
      [exact (none Hr') | eapply single; [|exact Hr']; reflexivity].
  - destruct (nth_error _ chosen) as [a|]; [|exact (none Hr')].
    destruct (isEnabled a); [|exact (none Hr')].
    destruct (triggered a) as [[l|l|l|l]|]; cbn [slot_ops] in Hr';
      try (exact (none Hr'));
      try (eapply single; [|exact Hr']; reflexivity);
      destruct (SetInspected_list_keeps (identities d l) (m_branch_watch d) id
                  (ex_intro _ r (conj Hr Hi))) as [r2 [H2 Hi2]];
      congruence.
Qed.

(** ** Patches *)

Lemma data_ClickRole_same (d d' : BranchWatchDialog) (index : QModelIndex) :
  BranchWatch.GetSelection (m_branch_watch d') =
  BranchWatch.GetSelection (m_branch_watch d) ->
  symbol_db (m_system d') = symbol_db (m_system d) ->
  data_ClickRole d' index = data_ClickRole d index.
Proof.
  intros Hs Hdb. unfold data_ClickRole, symbol_row. rewrite Hs, Hdb.
  reflexivity.
Qed.

Lemma patch_and_inspect_system (v : Z) (d : BranchWatchDialog)
  (index : QModelIndex) :
  m_system (patch_and_inspect v d index) =
  SetPatch (value_u32 (data_ClickRole d index)) v (m_system d).
Proof.
  unfold patch_and_inspect, SetInspected. cbn [m_branch_watch with_system].
  destruct (nth_error _ (row index)); reflexivity.
Qed.

Lemma patch_loop_patches (v : Z) (index_list : list QModelIndex) :
  forall d,
    patches (m_system (fold_left (patch_and_inspect v) index_list d)) =
    (patches (m_system d) ++
     map (fun index => (value_u32 (data_ClickRole d index), v)) index_list)
    %list.
Proof.
  induction index_list as [|index l IH]; intros d; cbn [fold_left map].
  - rewrite app_nil_r. reflexivity.
  - rewrite IH, patch_and_inspect_system. cbn [patches SetPatch].
    rewrite <- app_assoc. cbn [app]. f_equal. f_equal.
    apply map_ext. intros index'.
    rewrite (data_ClickRole_same d (patch_and_inspect v d index) index');
      [reflexivity | apply patch_and_inspect_selection |].
    rewrite patch_and_inspect_system. reflexivity.
Qed.

Lemma Save_patches (filepath : string) (d : BranchWatchDialog) :
  patches (m_system (Save filepath d)) = patches (m_system d).
Proof. unfold Save. destruct (negb _); reflexivity. Qed.

Lemma AutoSave_patches (d : BranchWatchDialog) :
  patches (m_system (AutoSave d)) = patches (m_system d).
Proof.
  unfold AutoSave. destruct (_ || _); [reflexivity | apply Save_patches].
Qed.

Lemma Update_system (d : BranchWatchDialog) : m_system (Update d) = m_system d.
Proof. unfold Update. destruct (BranchWatch.GetRecordingPhase _); reflexivity. Qed.

Lemma Load_system (filepath : string) (d : BranchWatchDialog) :
  m_system (Load filepath d) = m_system d.
Proof.
  unfold Load. destruct (if can_open _ _ then _ else _) as [[snap|]|];
    reflexivity.
Qed.

Lemma uninitialized_menu_sets_no_patch (index : option QModelIndex)
  (selectedRows : list nat) (chosen : nat) (d : BranchWatchDialog) :
  core_state (m_system d) = Core.Uninitialized ->
  patches (m_system
             (handle d (TableContextMenu index selectedRows chosen))) =
  patches (m_system d).
Proof.
  intros Hcore. cbn [handle]. unfold OnTableContextMenu.
  destruct index as [index|]; [|destruct chosen; reflexivity].
  rewrite Hcore. cbn [Core.State_eqb negb andb].
  destruct (column index);
    destruct chosen as [|[|[|n]]]; cbn [nth_error]; try reflexivity;
    destruct n; reflexivity.
Qed.

Lemma uninitialized_no_patch (d : BranchWatchDialog) (e : Event) :
  core_state (m_system d) = Core.Uninitialized ->
  patches (m_system (handle d e)) = patches (m_system d).
Proof.
  intros Hcore.
  destruct e; try apply uninitialized_menu_sets_no_patch; try exact Hcore;
    cbn [handle]; try reflexivity.
  - unfold OnStartPause. destruct checked; rewrite Update_system; reflexivity.
  - unfold OnClearBranchWatch. cbn [m_system UpdateStatus showMessage
                                      setEnabled_wipe_recent_hits].
    rewrite AutoSave_patches. reflexivity.
  - unfold OnSave. destruct (negb _); [reflexivity | apply Save_patches].
  - unfold OnSaveAs. destruct (negb _); [reflexivity|].
    destruct (QString.isEmpty filepath); [reflexivity | apply Save_patches].
  - unfold OnLoad. rewrite Load_system. reflexivity.
  - unfold OnLoadFrom. destruct (QString.isEmpty filepath);
      [reflexivity | rewrite Load_system; reflexivity].
  - unfold OnToggleAutoSave. destruct (negb checked); [reflexivity|].
    destruct (QString.isEmpty filepath); reflexivity.
  - unfold OnCodePathWasTaken. cbn [m_system UpdateStatus showMessage
                                      setEnabled_wipe_recent_hits].
    rewrite AutoSave_patches. reflexivity.
  - unfold OnCodePathNotTaken. cbn [m_system UpdateStatus showMessage].
    rewrite AutoSave_patches. reflexivity.
  - unfold OnBranchWasOverwritten. rewrite Hcore. reflexivity.
  - unfold OnBranchNotOverwritten. rewrite Hcore. reflexivity.
  - unfold OnTimeout. rewrite Update_system. reflexivity.
  - unfold OnEmulationStateChanged. destruct (negb isVisible);
      [reflexivity | rewrite Update_system; reflexivity].
Qed.

(** C7, as the code has it.  "Insert NOP" and "Insert BLR" call [SetPatch]
    once per selected index, in order, with the address of the index and
    the word 0x60000000 (NOP) or 0x4e800020 (BLR), and leave the inspected
    flag of every patched candidate set; neither is connected while the
    core is uninitialized, when no event sets a patch.  A flag that is set
    is cleared by "Wipe Inspection Data" or by a snapshot load, which
    replaces the records by those of the snapshot, and by nothing else. *)
Theorem patches_inspect_and_wipe_or_load_clears :
  (forall index_list d,
     patches (m_system (OnTableSetNOP index_list d)) =
     (patches (m_system d) ++
      map (fun index => (value_u32 (data_ClickRole d index), 0x60000000))
        index_list)%list /\
     patches (m_system (OnTableSetBLR index_list d)) =
     (patches (m_system d) ++
      map (fun index => (value_u32 (data_ClickRole d index), 0x4e800020))
        index_list)%list) /\
  (forall d r value,
     nth_error (BranchWatch.GetSelection (m_branch_watch d)) r = Some value ->
     value_u32 (data_ClickRole d {| row := r; column := Origin |}) =
     origin_addr (collection_ptr value) /\
     value_u32 (data_ClickRole d {| row := r; column := Destination |}) =
     destin_addr (collection_ptr value)) /\
  (forall index_list d id,
     In id (identities d index_list) ->
     BranchWatch.lookup id (BranchWatch.m_collection (m_branch_watch d))
     <> None ->
     inspected_is true id (m_branch_watch (OnTableSetNOP index_list d)) /\
     inspected_is true id (m_branch_watch (OnTableSetBLR index_list d))) /\
  (forall d e,
     core_state (m_system d) = Core.Uninitialized ->
     patches (m_system (handle d e)) = patches (m_system d)) /\
  (forall s op id,
     inspected_is true id s ->
     inspected_is false id (BranchWatch.apply s op) ->
     clears_inspection op = true) /\
  (forall d e id,
     inspected_is true id (m_branch_watch d) ->
     inspected_is false id (m_branch_watch (handle d e)) ->
     e = WipeInspection \/ is_load e = true) /\
  (forall d id,
     BranchWatch.lookup id (BranchWatch.m_collection (m_branch_watch d))
     <> None ->
     inspected_is false id (m_branch_watch (OnWipeInspection d))).
Proof.
  split; [|split; [|split; [|split; [|split; [|split]]]]].
  - intros index_list d. split; apply patch_loop_patches.
  - intros d r value Hv. unfold data_ClickRole. cbn [row column].
    rewrite Hv. split; reflexivity.
  - intros index_list d id Hin Hl.
    unfold OnTableSetNOP, OnTableSetBLR. rewrite !patch_loop_store.
    split; apply SetInspected_list_sets; assumption.
  - exact uninitialized_no_patch.
  - intros s op id [r [Hr Hi]] [r' [Hr' Hi']].
    destruct (clears_inspection op) eqn:E; [reflexivity|].
    pose proof (apply_keeps_inspected s op E id r r' Hr Hi Hr'). congruence.
  - intros d e id Ht Hf.
    destruct (is_load e) eqn:Hl; [right; reflexivity|]. left.
    destruct e; try reflexivity;
      exfalso; (eapply store_ops_keep_inspected;
                [| exact Hl | exact Ht | exact Hf]); discriminate.
  - intros d id Hl. unfold inspected_is, OnWipeInspection.
    cbn [m_branch_watch with_branch_watch BranchWatch.WipeInspectionData
         BranchWatch.m_collection BranchWatch.with_collection].
    unfold BranchWatch.update_all.
    rewrite (lookup_map (fun _ r => BranchWatch.set_inspected false r)).
    destruct (BranchWatch.lookup id _) as [r|]; [|congruence].
    eexists. split; reflexivity.
Qed.

Lemma patches_inspect_and_wipe_or_load_clears_witness :
  inspected_is true example_value
    (m_branch_watch
       (OnTableSetNOP [{| row := 0; column := Origin |}]
          example_dialog_two_rows)) /\
  patches (m_system
             (handle (dialog_initial (example_system Core.Uninitialized)
                        example_store_reduction)
                (TableContextMenu (Some {| row := 0; column := Origin |})
                   [0%nat] 1))) = [].
Proof.
  split.
  - apply (proj1 (proj2 (proj2 patches_inspect_and_wipe_or_load_clears))
             [{| row := 0; column := Origin |}] example_dialog_two_rows
             example_value).
    + left. reflexivity.
    + discriminate.
  - apply (proj1 (proj2 (proj2 (proj2
                    patches_inspect_and_wipe_or_load_clears)))
             (dialog_initial (example_system Core.Uninitialized)
                example_store_reduction)).
    reflexivity.
Defined.

(** C7, as the spec words it, fails at a snapshot load: the first candidate
    of the session was patched with a NOP and is inspected; the snapshot
    saved before the patch has the flag clear, and loading it clears the
    flag though no wipe is asked for. *)
Lemma Load_clears_inspected :
  patches (m_system example_session) = [(0x80001000, 0x60000000)] /\
  inspected_is true example_value (m_branch_watch example_session) /\
  inspected_is false example_value
    (m_branch_watch
       (handle example_session (LoadBranchWatchFrom "reduction.txt"))) /\
  LoadBranchWatchFrom "reduction.txt" <> WipeInspection.
Proof.
  split; [reflexivity|]. split; [|split; [|discriminate]].
  - eexists. split; reflexivity.
  - eexists. split; reflexivity.
Qed.

(** ** The status line *)

























(** ** The example scenario of the spec (section 8), on the store *)

Example scenario_hits_and_not_taken :
  let hits3 :=
    fold_left BranchWatch.apply
      [BranchWatch.OpStart; BranchWatch.OpRecordHit example_value;
       BranchWatch.OpRecordHit example_value;
       BranchWatch.OpRecordHit example_value] BranchWatch.empty in
  let wiped := BranchWatch.apply hits3 BranchWatch.OpWipeRecentHits in
  let hit4 := BranchWatch.apply wiped (BranchWatch.OpRecordHit example_value) in
  let reduction := BranchWatch.TransitionToReduction hit4 in
  let not_taken := BranchWatch.ApplyNotTakenReduction reduction in
  option_map (fun r => (BranchWatch.total_hits r, BranchWatch.recent_hits r))
    (BranchWatch.lookup example_value (BranchWatch.m_collection hits3))
  = Some (3, 3) /\
  option_map (fun r => (BranchWatch.total_hits r, BranchWatch.recent_hits r))
    (BranchWatch.lookup example_value (BranchWatch.m_collection wiped))
  = Some (3, 0) /\
  option_map (fun r => (BranchWatch.total_hits r, BranchWatch.recent_hits r))
    (BranchWatch.lookup example_value (BranchWatch.m_collection hit4))
  = Some (4, 1) /\
  BranchWatch.m_selection reduction = [example_value] /\
  BranchWatch.m_selection not_taken = [].
Proof. repeat split. Qed.

(* ================================================================== *)
(** * Part III. Further properties of the dialog                       *)
(* ================================================================== *)

(** ** The context menu, column by column *)

Lemma Origin_menu (r : nat) (selectedRows : list nat) (d : BranchWatchDialog) :
  let index_list :=
    map (fun r' => {| row := r'; column := Origin |}) selectedRows in
  let initialized :=
    negb (Core.State_eqb (core_state (m_system d)) Core.Uninitialized) in
  OnTableContextMenu (Some {| row := r; column := Origin |}) selectedRows d =
  [ {| text := "&Delete"; isEnabled := true;
       triggered := Some (TableDelete index_list) |};
    {| text := "Insert &NOP"; isEnabled := initialized;
       triggered := if initialized then Some (TableSetNOP index_list)
                    else None |};
    {| text := "&Copy Address"; isEnabled := true;
       triggered := Some (TableCopyAddress index_list) |} ].
Proof.
  intros index_list initialized.
  unfold OnTableContextMenu. cbn [column].
  fold index_list. fold initialized.
  destruct initialized; reflexivity.
Qed.

Lemma Symbol_menu (r : nat) (c : Column) (selectedRows : list nat)
  (d : BranchWatchDialog) :
  c = OriginSymbol \/ c = DestinSymbol ->
  let index_list := map (fun r' => {| row := r'; column := c |}) selectedRows in
  let enable_action :=
    negb (Core.State_eqb (core_state (m_system d)) Core.Uninitialized) &&
    forallb (fun r' => match data_ClickRole d {| row := r'; column := c |} with
                       | Some _ => true
                       | None => false
                       end) selectedRows in
  OnTableContextMenu (Some {| row := r; column := c |}) selectedRows d =
  [ {| text := "&Delete"; isEnabled := true;
       triggered := Some (TableDelete index_list) |};
    {| text := "Insert &BLR at start"; isEnabled := enable_action;
       triggered := if enable_action then Some (TableSetBLR index_list)
                    else None |} ].
Proof.
  intros Hc index_list enable_action.
  unfold OnTableContextMenu. cbn [column].
  pose proof (forallb_map_rows
                (fun index => match data_ClickRole d index with
                              | Some _ => true
                              | None => false
                              end) c selectedRows) as Hf.
  fold index_list in Hf.
  destruct Hc as [-> | ->]; fold index_list; rewrite Hf;
    fold enable_action; destruct enable_action; reflexivity.
Qed.

Lemma map_rows_values (f : QModelIndex -> Z * Z) (c : Column)
  (rows : list nat) :
  map f (map (fun r => {| row := r; column := c |}) rows) =
  map (fun r => f {| row := r; column := c |}) rows.
Proof. apply map_map. Qed.

(** In the menu of the Origin column "Insert NOP" stands between "Delete"
    and "Copy Address"; it is enabled exactly when the core is not
    uninitialized, and then it sets the NOP word at the origin address of
    every selected row, in order; otherwise nothing is connected to it. *)
Theorem Insert_NOP_enabled_iff_initialized :
  forall (r : nat) (selectedRows : list nat) (d : BranchWatchDialog),
    let index_list :=
      map (fun r' => {| row := r'; column := Origin |}) selectedRows in
    exists a,
      OnTableContextMenu (Some {| row := r; column := Origin |})
        selectedRows d =
      [ {| text := "&Delete"; isEnabled := true;
           triggered := Some (TableDelete index_list) |};
        a;
        {| text := "&Copy Address"; isEnabled := true;
           triggered := Some (TableCopyAddress index_list) |} ] /\
      text a = "Insert &NOP"%string /\
      (isEnabled a = true <-> core_state (m_system d) <> Core.Uninitialized) /\
      (isEnabled a = true ->
       trigger a d = OnTableSetNOP index_list d /\
       patches (m_system (trigger a d)) =
       (patches (m_system d) ++
        map (fun r' =>
               (value_u32 (data_ClickRole d {| row := r'; column := Origin |}),
                0x60000000)) selectedRows)%list) /\
      (isEnabled a = false -> triggered a = None /\ trigger a d = d).
Proof.
  intros r selectedRows d index_list.
  pose proof (Origin_menu r selectedRows d) as Hmenu.
  cbv zeta in Hmenu. fold index_list in Hmenu.
  set (initialized := negb _) in Hmenu.
  eexists. split; [exact Hmenu|].
  cbn [text isEnabled triggered].
  split; [reflexivity|]. split; [|split].
  - unfold initialized. rewrite negb_true_iff, <- not_true_iff_false.
    rewrite State_eqb_spec. tauto.
  - intros E. unfold trigger. cbn [isEnabled triggered]. rewrite E.
    cbn [run_slot]. split; [reflexivity|].
    unfold OnTableSetNOP. rewrite patch_loop_patches.
    unfold index_list. rewrite map_rows_values. reflexivity.
  - intros E. unfold trigger. cbn [isEnabled triggered]. rewrite E. auto.
Qed.

Lemma Insert_NOP_enabled_iff_initialized_witness :
  patches
    (m_system
       (handle example_dialog_two_rows
          (TableContextMenu (Some {| row := 0; column := Origin |})
             [1%nat; 0%nat] 1))) =
  [(0x80003000, 0x60000000); (0x80001000, 0x60000000)].
Proof.
  destruct (Insert_NOP_enabled_iff_initialized 0 [1%nat; 0%nat]
              example_dialog_two_rows) as (a & Hmenu & _ & Hen & Hon & _).
  cbn [handle]. rewrite Hmenu. cbn [nth_error].
  rewrite (proj2 (Hon (proj2 Hen ltac:(discriminate)))). reflexivity.
Defined.

(** In the menu of a symbol column "Insert BLR at start" follows "Delete",
    and nothing else does; it is enabled exactly when the core is not
    uninitialized and a symbol was found for every selected row, and then
    it sets the BLR word at the start of each of these symbols; otherwise
    nothing is connected to it and no choice in the menu sets a patch. *)
Theorem Insert_BLR_at_start_enabled_iff_symbols_found :
  forall (r : nat) (c : Column) (selectedRows : list nat)
         (d : BranchWatchDialog),
    c = OriginSymbol \/ c = DestinSymbol ->
    let index_list :=
      map (fun r' => {| row := r'; column := c |}) selectedRows in
    exists a,
      OnTableContextMenu (Some {| row := r; column := c |}) selectedRows d =
      [ {| text := "&Delete"; isEnabled := true;
           triggered := Some (TableDelete index_list) |}; a ] /\
      text a = "Insert &BLR at start"%string /\
      (isEnabled a = true <->
       core_state (m_system d) <> Core.Uninitialized /\
       forall r', In r' selectedRows ->
                  data_ClickRole d {| row := r'; column := c |} <> None) /\
      (isEnabled a = true ->
       patches (m_system (trigger a d)) =
       (patches (m_system d) ++
        map (fun r' =>
               (value_u32 (data_ClickRole d {| row := r'; column := c |}),
                0x4e800020)) selectedRows)%list) /\
      (isEnabled a = false ->
       forall chosen,
         patches (m_system
                    (handle d (TableContextMenu
                                 (Some {| row := r; column := c |})
                                 selectedRows chosen))) =
         patches (m_system d)).
Proof.
  intros r c selectedRows d Hc index_list.
  pose proof (Symbol_menu r c selectedRows d Hc) as Hmenu.
  cbv zeta in Hmenu. fold index_list in Hmenu.
  set (enable_action := negb _ && forallb _ _) in Hmenu.
  eexists. split; [exact Hmenu|].
  cbn [text isEnabled triggered].
  split; [reflexivity|]. split; [|split].
  - unfold enable_action.
    rewrite andb_true_iff, negb_true_iff, forallb_forall.
    rewrite <- not_true_iff_false, State_eqb_spec.
    split; intros [H1 H2]; (split; [exact H1|]); intros r' Hr';
      specialize (H2 r' Hr');
      destruct (data_ClickRole d {| row := r'; column := c |});
      congruence.
  - intros E. unfold trigger. cbn [isEnabled triggered]. rewrite E.
    cbn [run_slot]. unfold OnTableSetBLR. rewrite patch_loop_patches.
    unfold index_list. rewrite map_rows_values. reflexivity.
  - intros E chosen. cbn [handle]. rewrite Hmenu, E.
    destruct chosen as [|[|n]]; try reflexivity.
    destruct n; reflexivity.
Qed.

Lemma Insert_BLR_at_start_enabled_iff_symbols_found_witness :
  patches
    (m_system
       (handle example_symbol_dialog
          (TableContextMenu (Some {| row := 0; column := OriginSymbol |})
             [0%nat] 1))) = [(0x80000FF0, 0x4e800020)] /\
  patches
    (m_system
       (handle example_symbol_dialog
          (TableContextMenu (Some {| row := 0; column := OriginSymbol |})
             [0%nat; 1%nat] 1))) = [].
Proof.
  split.
  - destruct (Insert_BLR_at_start_enabled_iff_symbols_found 0 OriginSymbol
                [0%nat] example_symbol_dialog (or_introl eq_refl))
      as (a & Hmenu & _ & Hen & Hon & _).
    cbn [handle]. rewrite Hmenu. cbn [nth_error]. rewrite Hon; [reflexivity|].
    apply Hen. split; [discriminate|].
    intros r' [<- | []]. discriminate.
  - destruct (Insert_BLR_at_start_enabled_iff_symbols_found 0 OriginSymbol
                [0%nat; 1%nat] example_symbol_dialog (or_introl eq_refl))
      as (a & _ & _ & Hen & _ & Hoff).
    apply Hoff. destruct (isEnabled a); [|reflexivity].
    destruct (proj1 Hen eq_refl) as [_ H].
    exfalso. apply (H 1%nat); [right; left; reflexivity | reflexivity].
Defined.

Lemma identities_of_rows (d : BranchWatchDialog) (c : Column)
  (rows : list nat) :
  identities d (map (fun r => {| row := r; column := c |}) rows) =
  flat_map (fun r =>
              match nth_error (BranchWatch.GetSelection (m_branch_watch d)) r
              with Some value => [value] | None => [] end) rows.
Proof.
  unfold identities. induction rows as [|r rows IH]; [reflexivity|].
  cbn [map flat_map row]. rewrite IH. reflexivity.
Qed.

Lemma OnTableDelete_any_column (d : BranchWatchDialog) (c c' : Column)
  (rows : list nat) :
  OnTableDelete (map (fun r => {| row := r; column := c |}) rows) d =
  OnTableDelete (map (fun r => {| row := r; column := c' |}) rows) d.
Proof. unfold OnTableDelete. rewrite !identities_of_rows. reflexivity. Qed.

Lemma menu_head (index : QModelIndex) (selectedRows : list nat)
  (d : BranchWatchDialog) :
  exists rest,
    OnTableContextMenu (Some index) selectedRows d =
    {| text := "&Delete"; isEnabled := true;
       triggered :=
         Some (TableDelete
                 (map (fun r => {| row := r; column := column index |})
                    selectedRows)) |} :: rest /\
    (List.length rest <= 2)%nat /\
    forall a, In a rest -> (isEnabled a = true <-> triggered a <> None).
Proof.
  unfold OnTableContextMenu.
  destruct (column index); eexists; (split; [reflexivity|]);
    (split; [cbn [List.length]; lia|]); intros a Ha; cbn [In] in Ha;
    repeat match goal with
           | H : _ \/ _ |- _ => destruct H as [H | H]
           | H : False |- _ => destruct H
           | H : (if ?c then _ else _) = a |- _ => destruct c
           | H : _ = a |- _ => subst a; cbn [isEnabled triggered]
           end;
    split; congruence.
Qed.

(** Every context menu starts with "Delete", enabled and connected to the
    deletion of the selected rows, followed by at most two more actions; an
    action is enabled exactly when something is connected to it.  The
    columns Instruction, Condition, Recent Hits and Total Hits offer
    "Delete" alone.  At an invalid index no menu is built, and nothing
    happens.  "Delete" has the effect of the Delete key, whatever the
    column clicked. *)
Theorem context_menu_starts_with_Delete :
  (forall selectedRows d chosen,
     OnTableContextMenu None selectedRows d = [] /\
     handle d (TableContextMenu None selectedRows chosen) = d) /\
  (forall index selectedRows d,
     exists rest,
       OnTableContextMenu (Some index) selectedRows d =
       {| text := "&Delete"; isEnabled := true;
          triggered :=
            Some (TableDelete
                    (map (fun r => {| row := r; column := column index |})
                       selectedRows)) |} :: rest /\
       (List.length rest <= 2)%nat /\
       forall a, In a rest -> (isEnabled a = true <-> triggered a <> None)) /\
  (forall index selectedRows d,
     column index = Instruction \/ column index = Condition \/
     column index = RecentHits \/ column index = TotalHits ->
     List.length (OnTableContextMenu (Some index) selectedRows d) = 1%nat) /\
  (forall index selectedRows d,
     handle d (TableContextMenu (Some index) selectedRows 0) =
     handle d (TableDeleteKeypress selectedRows)).
Proof.
  split; [|split; [|split]].
  - intros selectedRows d chosen. split; [reflexivity|].
    cbn [handle OnTableContextMenu]. destruct chosen; reflexivity.
  - exact menu_head.
  - intros index selectedRows d Hc. unfold OnTableContextMenu.
    destruct Hc as [-> | [-> | [-> | ->]]]; reflexivity.
  - intros index selectedRows d. cbn [handle].
    destruct (menu_head index selectedRows d) as (rest & -> & _).
    cbn [nth_error]. unfold trigger. cbn [isEnabled triggered run_slot].
    apply OnTableDelete_any_column.
Qed.

Lemma context_menu_starts_with_Delete_witness :
  List.length
    (OnTableContextMenu (Some {| row := 0; column := TotalHits |}) [0%nat]
       example_dialog_two_rows) = 1%nat.
Proof.
  apply (proj1 (proj2 (proj2 context_menu_starts_with_Delete))).
  right. right. right. reflexivity.
Defined.

(** ** The filter: boxes, bounds and frame *)

Lemma passes_filter_weaker (p q : BranchWatchProxyModel)
  (value : SelectionValue) (sym : SymbolListValue) :
  (forall c, condition_mask p c = true -> condition_mask q c = true) ->
  (forall k, branch_kind_mask p k = true -> branch_kind_mask q k = true) ->
  (forall m, get_address m q = get_address m p) ->
  (forall m, get_symbol m q = get_symbol m p) ->
  passes_filter p value sym -> passes_filter q value sym.
Proof.
  intros Hc Hk Ha Hs (P1 & (k & E & P2) & P3 & P4 & P5 & P6).
  pose proof (Ha M_origin_min) as A1. pose proof (Ha M_origin_max) as A2.
  pose proof (Ha M_destin_min) as A3. pose proof (Ha M_destin_max) as A4.
  pose proof (Hs M_origin_symbol_name) as S1.
  pose proof (Hs M_destin_symbol_name) as S2.
  cbn [get_address get_symbol] in *.
  unfold passes_filter, origin_symbol_substring, destin_symbol_substring in *.
  rewrite A1, A2, A3, A4, S1, S2.
  exact (conj (Hc _ P1)
           (conj (ex_intro _ k (conj E (Hk _ P2)))
              (conj P3 (conj P4 (conj P5 P6))))).
Qed.

Lemma filterAcceptsRow_weaker (p q : BranchWatchProxyModel) :
  (forall c, condition_mask p c = true -> condition_mask q c = true) ->
  (forall k, branch_kind_mask p k = true -> branch_kind_mask q k = true) ->
  (forall m, get_address m q = get_address m p) ->
  (forall m, get_symbol m q = get_symbol m p) ->
  forall value sym,
    filterAcceptsRow p value sym = true -> filterAcceptsRow q value sym = true.
Proof.
  intros Hc Hk Ha Hs value sym. rewrite !filterAcceptsRow_spec.
  apply passes_filter_weaker; assumption.
Qed.

Lemma uncheck_weaker (m : BoolMember) (p : BranchWatchProxyModel) :
  forall value sym,
    filterAcceptsRow (OnToggled m false p) value sym = true ->
    filterAcceptsRow p value sym = true.
Proof.
  apply filterAcceptsRow_weaker.
  - intros c. destruct m, c; cbn; congruence.
  - intros k. destruct m, k; cbn; congruence.
  - intros m'. destruct m, m'; reflexivity.
  - intros m'. destruct m, m'; reflexivity.
Qed.

Lemma check_weaker (m : BoolMember) (p : BranchWatchProxyModel) :
  forall value sym,
    filterAcceptsRow p value sym = true ->
    filterAcceptsRow (OnToggled m true p) value sym = true.
Proof.
  apply filterAcceptsRow_weaker.
  - intros c. destruct m, c; cbn; congruence.
  - intros k. destruct m, k; cbn; congruence.
  - intros m'. destruct m, m'; reflexivity.
  - intros m'. destruct m, m'; reflexivity.
Qed.

Lemma filter_length_weaker {A : Type} (f g : A -> bool) (l : list A) :
  (forall x, f x = true -> g x = true) ->
  (List.length (filter f l) <= List.length (filter g l))%nat.
Proof.
  intros H. induction l as [|x l IH]; [apply Nat.le_refl|].
  cbn [filter]. destruct (f x) eqn:E.
  - rewrite (H x E). cbn [List.length]. lia.
  - destruct (g x); cbn [List.length]; lia.
Qed.

Lemma rowCount_weaker (d : BranchWatchDialog) (q : BranchWatchProxyModel) :
  (forall value sym,
     filterAcceptsRow q value sym = true ->
     filterAcceptsRow (m_table_proxy d) value sym = true) ->
  rowCount (UpdateStatus (with_table_proxy q d)) <= rowCount d.
Proof.
  intros H. unfold rowCount, visible_rows. apply Nat2Z.inj_le.
  apply filter_length_weaker. intros row. apply H.
Qed.

Lemma rowCount_stronger (d : BranchWatchDialog) (q : BranchWatchProxyModel) :
  (forall value sym,
     filterAcceptsRow (m_table_proxy d) value sym = true ->
     filterAcceptsRow q value sym = true) ->
  rowCount d <= rowCount (UpdateStatus (with_table_proxy q d)).
Proof.
  intros H. unfold rowCount, visible_rows. apply Nat2Z.inj_le.
  apply filter_length_weaker. intros row. apply H.
Qed.

(** Unchecking a box of the filter (a branch type or a condition) never
    brings a row into view, and checking one never hides a row: the rows
    accepted with the box unchecked are accepted with the filter as it was,
    and those are accepted with the box checked; so the row count of the
    view can only fall when a box is unchecked and only rise when one is
    checked. *)
Theorem unchecking_a_box_only_hides_rows :
  forall (m : BoolMember) (d : BranchWatchDialog),
    (forall value sym,
       filterAcceptsRow (OnToggled m false (m_table_proxy d)) value sym = true
       -> filterAcceptsRow (m_table_proxy d) value sym = true) /\
    (forall value sym,
       filterAcceptsRow (m_table_proxy d) value sym = true ->
       filterAcceptsRow (OnToggled m true (m_table_proxy d)) value sym = true)
    /\
    rowCount (handle d (Toggled m false)) <= rowCount d /\
    rowCount d <= rowCount (handle d (Toggled m true)).
Proof.
  intros m d. split; [apply uncheck_weaker|]. split; [apply check_weaker|].
  split.
  - apply rowCount_weaker, uncheck_weaker.
  - apply rowCount_stronger, check_weaker.
Qed.

Lemma unchecking_a_box_only_hides_rows_witness :
  filterAcceptsRow proxy_initial example_value example_unresolved = true /\
  rowCount (handle example_dialog_two_rows (Toggled M_bl false)) <= 2.
Proof.
  split.
  - apply (proj1 (unchecking_a_box_only_hides_rows M_b
                    (dialog_initial (example_system Core.Running)
                       BranchWatch.empty))).
    reflexivity.
  - apply (proj1 (proj2 (proj2 (unchecking_a_box_only_hides_rows M_bl
                                  example_dialog_two_rows)))).
Defined.

Lemma set_address_other_tests (m : AddressMember) (v : option Z)
  (p : BranchWatchProxyModel) :
  (forall c, condition_mask (set_address m v p) c = condition_mask p c) /\
  (forall inst, IsBranchTypeAllowed (set_address m v p) inst =
                IsBranchTypeAllowed p inst) /\
  m_origin_symbol_name (set_address m v p) = m_origin_symbol_name p /\
  m_destin_symbol_name (set_address m v p) = m_destin_symbol_name p /\
  (forall m' k, m' <> m ->
                bound_test m' (set_address m v p) k = bound_test m' p k).
Proof.
  repeat split; try reflexivity.
  intros m' k Hm. destruct m, m'; try reflexivity; contradiction.
Qed.

Lemma bound_test_cleared (m : AddressMember) (p : BranchWatchProxyModel)
  (k : BranchWatchCollectionKey) :
  bound_test m (set_address m None p) k = true.
Proof. destruct m; reflexivity. Qed.

Lemma single_bound_factor (m : AddressMember) (p : BranchWatchProxyModel)
  (value : SelectionValue) (sym : SymbolListValue) :
  filterAcceptsRow p value sym =
  bound_test m p (collection_ptr value) &&
  filterAcceptsRow (without_bound m p) value sym.
Proof.
  unfold without_bound. rewrite !filterAcceptsRow_tests.
  destruct (set_address_other_tests m None p) as (Hc & Hk & -> & -> & Hb).
  rewrite Hc, Hk.
  assert (Ht := bound_test_cleared m p (collection_ptr value)).
  destruct m;
    rewrite Ht, !Hb by discriminate;
    repeat match goal with
           | |- context [bound_test ?m' p ?k] =>
               generalize (bound_test m' p k); intro
           end;
    generalize (condition_mask p (condition value));
    generalize (IsBranchTypeAllowed p (original_inst (collection_ptr value)));
    generalize (symbol_test (m_origin_symbol_name p) (origin_name sym));
    generalize (symbol_test (m_destin_symbol_name p) (destin_name sym));
    intros;
    repeat match goal with c : bool |- _ => destruct c end; reflexivity.
Qed.

Lemma bound_test_meaning (m : AddressMember) (p : BranchWatchProxyModel)
  (k : BranchWatchCollectionKey) (bound : Z) :
  get_address m p = Some bound ->
  (bound_test m p k = true <->
   match m with
   | M_origin_min | M_destin_min => bound <= bounded_addr m k
   | M_origin_max | M_destin_max => bounded_addr m k <= bound
   end).
Proof.
  destruct m; cbn [get_address bound_test bounded_addr]; intros ->;
    rewrite negb_true_iff; [rewrite Z.ltb_ge | rewrite Z.gtb_ltb, Z.ltb_ge
                           | rewrite Z.ltb_ge | rewrite Z.gtb_ltb, Z.ltb_ge];
    reflexivity.
Qed.

(** Each of the four bounds (Origin Min, Origin Max, Destination Min,
    Destination Max) acts on its own: a row is accepted exactly when it
    respects the bound and is accepted by the filter without it.  A Min
    bound asks for [bound <= address], a Max bound for [address <= bound],
    both inclusive, on the origin or the destination address; so a lone Min
    or Max is a half-line, and a Min above the Max of the same side accepts
    no row. *)
Theorem each_bound_acts_alone :
  forall (m : AddressMember) (p : BranchWatchProxyModel)
         (value : SelectionValue) (sym : SymbolListValue) (bound : Z),
    get_address m p = Some bound ->
    (filterAcceptsRow p value sym = true <->
     match m with
     | M_origin_min | M_destin_min =>
         bound <= bounded_addr m (collection_ptr value)
     | M_origin_max | M_destin_max =>
         bounded_addr m (collection_ptr value) <= bound
     end /\
     filterAcceptsRow (without_bound m p) value sym = true) /\
    (forall lo hi,
       (m_destin_min p = Some lo /\ m_destin_max p = Some hi \/
        m_origin_min p = Some lo /\ m_origin_max p = Some hi) ->
       hi < lo -> filterAcceptsRow p value sym = false).
Proof.
  intros m p value sym bound Hb. split.
  - rewrite (single_bound_factor m), andb_true_iff.
    rewrite (bound_test_meaning m p _ bound Hb). reflexivity.
  - intros lo hi Hr Hempty.
    destruct (filterAcceptsRow p value sym) eqn:E; [|reflexivity].
    exfalso. destruct Hr as [[Hlo Hhi] | [Hlo Hhi]].
    + pose proof E as E'.
      rewrite (single_bound_factor M_destin_min), andb_true_iff in E.
      rewrite (single_bound_factor M_destin_max), andb_true_iff in E'.
      rewrite (bound_test_meaning M_destin_min p _ lo Hlo) in E.
      rewrite (bound_test_meaning M_destin_max p _ hi Hhi) in E'.
      cbn [bounded_addr] in *. lia.
    + pose proof E as E'.
      rewrite (single_bound_factor M_origin_min), andb_true_iff in E.
      rewrite (single_bound_factor M_origin_max), andb_true_iff in E'.
      rewrite (bound_test_meaning M_origin_min p _ lo Hlo) in E.
      rewrite (bound_test_meaning M_origin_max p _ hi Hhi) in E'.
      cbn [bounded_addr] in *. lia.
Qed.

Lemma each_bound_acts_alone_witness :
  filterAcceptsRow
    (OnAddressTextChanged M_destin_min "80002001" proxy_initial)
    example_value example_unresolved = false /\
  filterAcceptsRow
    (OnAddressTextChanged M_destin_min "80002000" proxy_initial)
    example_value example_unresolved = true.
Proof.
  split.
  - destruct (filterAcceptsRow _ example_value example_unresolved) eqn:E;
      [|reflexivity].
    apply (proj1 (each_bound_acts_alone M_destin_min
                    (OnAddressTextChanged M_destin_min "80002001"
                       proxy_initial)
                    example_value example_unresolved 0x80002001 eq_refl))
      in E.
    destruct E as [E _]. cbn in E. lia.
  - apply (proj1 (each_bound_acts_alone M_destin_min
                    (OnAddressTextChanged M_destin_min "80002000"
                       proxy_initial)
                    example_value example_unresolved 0x80002000 eq_refl)).
    split; [cbn; lia | reflexivity].
Defined.

(** The two condition boxes: with both unchecked no row is accepted; with
    both checked the condition of a row plays no part; with one of them
    checked the rows accepted are rows of that condition, and they are the
    rows of that condition accepted when both are checked. *)
Theorem condition_boxes :
  forall (p : BranchWatchProxyModel) (value : SelectionValue)
         (sym : SymbolListValue),
    (m_cond_true p = false -> m_cond_false p = false ->
     filterAcceptsRow p value sym = false) /\
    (m_cond_true p = true -> m_cond_false p = true ->
     forall c, filterAcceptsRow p (with_condition c value) sym =
               filterAcceptsRow p value sym) /\
    (forall c,
       filterAcceptsRow
         (OnToggled M_cond_true c (OnToggled M_cond_false (negb c) p))
         value sym =
       Bool.eqb (condition value) c &&
       filterAcceptsRow
         (OnToggled M_cond_true true (OnToggled M_cond_false true p))
         value sym).
Proof.
  intros p value sym. split; [|split].
  - intros Ht Hf. rewrite filterAcceptsRow_tests. unfold condition_mask.
    rewrite Ht, Hf. destruct (condition value); reflexivity.
  - intros Ht Hf c. rewrite !filterAcceptsRow_tests. unfold condition_mask.
    cbn [condition collection_ptr with_condition]. rewrite Ht, Hf.
    destruct c, (condition value); reflexivity.
  - intros c. rewrite !filterAcceptsRow_tests.
    change (IsBranchTypeAllowed
              (OnToggled M_cond_true c (OnToggled M_cond_false (negb c) p)))
      with (IsBranchTypeAllowed p).
    change (IsBranchTypeAllowed
              (OnToggled M_cond_true true (OnToggled M_cond_false true p)))
      with (IsBranchTypeAllowed p).
    unfold condition_mask, bound_test.
    cbn [OnToggled set_bool BoolMember_eqb m_cond_true m_cond_false
         m_origin_min m_origin_max m_destin_min m_destin_max
         m_origin_symbol_name m_destin_symbol_name].
    destruct c, (condition value); reflexivity.
Qed.

Lemma condition_boxes_witness :
  filterAcceptsRow
    (OnToggled M_cond_true false (OnToggled M_cond_false false proxy_initial))
    example_value example_unresolved = false.
Proof.
  apply (proj1 (condition_boxes
                  (OnToggled M_cond_true false
                     (OnToggled M_cond_false false proxy_initial))
                  example_value example_unresolved)); reflexivity.
Defined.

(** As the constructor leaves the filter (every box checked, no bound, no
    symbol text) a row is accepted exactly when its instruction word is one
    of the branch forms of the classification; before the boxes are checked
    nothing is accepted. *)
Theorem initial_filter_accepts_the_branches :
  (forall m, get_bool m proxy_initial = true) /\
  (forall m, get_address m proxy_initial = None) /\
  (forall m, get_symbol m proxy_initial = EmptyString) /\
  (forall value sym,
     filterAcceptsRow proxy_initial value sym = true <->
     branch_kind (original_inst (collection_ptr value)) <> None) /\
  (forall value sym, filterAcceptsRow proxy_default value sym = false).
Proof.
  split; [intros []; reflexivity|]. split; [intros []; reflexivity|].
  split; [intros []; reflexivity|]. split.
  - intros value sym. rewrite filterAcceptsRow_tests.
    rewrite IsBranchTypeAllowed_by_kind.
    assert (Fk : forall k, branch_kind_mask proxy_initial k = true)
      by (intros []; reflexivity).
    assert (Fc : forall c, condition_mask proxy_initial c = true)
      by (intros []; reflexivity).
    rewrite Fc.
    change (bound_test M_origin_min proxy_initial (collection_ptr value))
      with true.
    change (bound_test M_origin_max proxy_initial (collection_ptr value))
      with true.
    change (bound_test M_destin_min proxy_initial (collection_ptr value))
      with true.
    change (bound_test M_destin_max proxy_initial (collection_ptr value))
      with true.
    change (symbol_test (m_origin_symbol_name proxy_initial) (origin_name sym))
      with true.
    change (symbol_test (m_destin_symbol_name proxy_initial) (destin_name sym))
      with true.
    cbn [andb]. rewrite !andb_true_r.
    destruct (branch_kind _) as [k|]; [rewrite Fk|]; split; congruence.
  - intros value sym. rewrite filterAcceptsRow_tests.
    unfold condition_mask. cbn [m_cond_true m_cond_false proxy_default].
    destruct (condition value); reflexivity.
Qed.

Lemma initial_filter_accepts_the_branches_witness :
  filterAcceptsRow proxy_initial example_value example_unresolved = true.
Proof.
  apply (proj1 (proj2 (proj2 (proj2 initial_filter_accepts_the_branches)))).
  discriminate.
Defined.

Lemma set_bool_back (m : BoolMember) (v : bool) (p : BranchWatchProxyModel) :
  set_bool m (get_bool m p) (set_bool m v p) = p.
Proof. destruct p, m; reflexivity. Qed.

Lemma set_symbol_back (m : SymbolMember) (v : string)
  (p : BranchWatchProxyModel) :
  set_symbol m (get_symbol m p) (set_symbol m v p) = p.
Proof. destruct p, m; reflexivity. Qed.

Lemma with_table_proxy_back (d : BranchWatchDialog)
  (q : BranchWatchProxyModel) :
  visible_rows (UpdateStatus (with_table_proxy (m_table_proxy d)
                                (UpdateStatus (with_table_proxy q d)))) =
  visible_rows d.
Proof. reflexivity. Qed.

(** A change of the filter (a box, a symbol text, an address text) touches
    nothing but the filter and the status line: the store, the memory, the
    files and the warnings are as before, and the status line is recomputed.
    Setting a box or a symbol text back to what it was brings back exactly
    the rows shown before.  The reductions, the clear and the wipes act on
    the store whatever the filter is: rows the filter hides are reduced
    like the others. *)
Theorem filter_changes_lose_no_candidate :
  (forall d e,
     is_filter_change e = true ->
     m_branch_watch (handle d e) = m_branch_watch d /\
     m_system (handle d e) = m_system d /\
     warnings (handle d e) = warnings d /\
     status_current (handle d e)) /\
  (forall d m v,
     visible_rows
       (handle (handle d (Toggled m v))
          (Toggled m (get_bool m (m_table_proxy d)))) = visible_rows d) /\
  (forall d m v,
     visible_rows
       (handle (handle d (SymbolTextChanged m v))
          (SymbolTextChanged m (get_symbol m (m_table_proxy d)))) =
     visible_rows d) /\
  (forall d q e,
     In e (ClearBranchWatch :: WipeRecentHits :: WipeInspection
             :: reduction_events) ->
     m_branch_watch (handle (with_table_proxy q d) e) =
     m_branch_watch (handle d e)).
Proof.
  split; [|split; [|split]].
  - intros d e He. destruct e; try discriminate He; cbn [handle];
      repeat split.
  - intros d m v. cbn [handle]. unfold OnToggled.
    cbn [m_table_proxy UpdateStatus showMessage with_table_proxy].
    rewrite set_bool_back. reflexivity.
  - intros d m v. cbn [handle]. unfold OnSymbolTextChanged.
    cbn [m_table_proxy UpdateStatus showMessage with_table_proxy].
    rewrite set_symbol_back. reflexivity.
  - intros d q e He. rewrite !handle_store.
    cbn [In reduction_events] in He.
    repeat (destruct He as [<- | He]; [reflexivity|]). destruct He.
Qed.

Lemma filter_changes_lose_no_candidate_witness :
  m_branch_watch
    (handle example_dialog_two_rows (AddressTextChanged M_origin_max "9"))
  = m_branch_watch example_dialog_two_rows /\
  rowCount
    (handle example_dialog_two_rows (AddressTextChanged M_origin_max "9"))
  = 0.
Proof.
  split; [|reflexivity].
  apply (proj1 filter_changes_lose_no_candidate). reflexivity.
Defined.

(** ** Snapshots: save, load and the automatic save *)










Lemma Save_written (filepath : string) (d : BranchWatchDialog) :
  can_open filepath (m_system d) = true ->
  Save filepath d =
  with_system
    (file_write filepath
       (SnapshotFile (BranchWatch.Encode (m_branch_watch d))) (m_system d)) d.
Proof. intros H. unfold Save. rewrite H. reflexivity. Qed.









Lemma AutoSave_on (d : BranchWatchDialog) :
  m_act_autosave d = true ->
  BranchWatch.CanSave (m_branch_watch d) = true ->
  AutoSave d = Save (autosave_target d) d.
Proof. intros Ha Hc. unfold AutoSave. rewrite Ha, Hc. reflexivity. Qed.

Lemma step_then_AutoSave (d d1 : BranchWatchDialog) :
  m_act_autosave d1 = true ->
  autosave_target d1 = autosave_target d ->
  m_system d1 = m_system d ->
  warnings d1 = warnings d ->
  can_open (autosave_target d) (m_system d) = true ->
  BranchWatch.CanSave (m_branch_watch d1) = true ->
  file_lookup (autosave_target d) (files (m_system (AutoSave d1))) =
  Some (SnapshotFile (BranchWatch.Encode (m_branch_watch d1))) /\
  warnings (AutoSave d1) = warnings d.
Proof.
  intros Ha Ht Hs Hw Ho Hc. rewrite (AutoSave_on d1 Ha Hc), Ht.
  rewrite Save_written by (rewrite Hs; exact Ho).
  cbn [m_system with_system files file_write file_lookup warnings].
  rewrite String.eqb_refl. auto.
Qed.

(** With the automatic save on, each of the four reductions that is not
    refused -- the two code-path reductions never are, the two overwritten
    checks are when the core is uninitialized -- and that leaves something
    to save writes the store as it is after the reduction, provided the
    file can be opened, to the file chosen when the automatic save was
    switched on or else to the default file, and shows no warning.  "Clear
    Branch Watch" never writes: it leaves nothing to save.  With no file
    chosen the automatic save is the "Save Branch Watch" action, and
    cancelling the file dialog when switching it on leaves no file
    chosen. *)
Theorem AutoSave_writes_the_store_after_the_step :
  forall d : BranchWatchDialog,
    (m_act_autosave d = true ->
     can_open (autosave_target d) (m_system d) = true ->
     forall e,
       In e reduction_events ->
       (e = BranchWasOverwritten \/ e = BranchNotOverwritten ->
        core_state (m_system d) <> Core.Uninitialized) ->
       BranchWatch.CanSave (m_branch_watch (handle d e)) = true ->
       file_lookup (autosave_target d) (files (m_system (handle d e))) =
       Some (SnapshotFile (BranchWatch.Encode (m_branch_watch (handle d e))))
       /\ warnings (handle d e) = warnings d) /\
    (files (m_system (handle d ClearBranchWatch)) = files (m_system d) /\
     warnings (handle d ClearBranchWatch) = warnings d) /\
    (m_act_autosave d = true -> m_autosave_filepath d = None ->
     BranchWatch.CanSave (m_branch_watch d) = true ->
     AutoSave d = OnSave d) /\
    (m_act_autosave (handle d (ToggleAutoSave true EmptyString)) = true /\
     m_autosave_filepath (handle d (ToggleAutoSave true EmptyString)) = None /\
     forall filepath,
       m_autosave_filepath (handle d (ToggleAutoSave false filepath)) =
       m_autosave_filepath d).
Proof.
  intros d. split; [|split; [|split]].
  - intros Ha Ho e He Hcore Hc.
    assert (Hinit :
      e = BranchWasOverwritten \/ e = BranchNotOverwritten ->
      Core.State_eqb (core_state (m_system d)) Core.Uninitialized = false).
    { intros H. apply not_true_iff_false. rewrite State_eqb_spec.
      exact (Hcore H). }
    cbn [In reduction_events] in He.
    destruct He as [<- | [<- | [<- | [<- | []]]]]; cbn [handle] in *.
    + unfold OnCodePathWasTaken in *.
      rewrite UpdateStatus_store in *.
      cbn [m_branch_watch setEnabled_wipe_recent_hits] in *.
      rewrite AutoSave_store in *.
      cbn [m_system warnings files UpdateStatus showMessage
           setEnabled_wipe_recent_hits].
      apply step_then_AutoSave; auto.
    + unfold OnCodePathNotTaken in *.
      rewrite UpdateStatus_store, AutoSave_store in *.
      cbn [m_system warnings files UpdateStatus showMessage].
      apply step_then_AutoSave; auto.
    + unfold OnBranchWasOverwritten in *.
      rewrite (Hinit (or_introl eq_refl)) in *.
      rewrite UpdateStatus_store, AutoSave_store in *.
      cbn [m_system warnings files UpdateStatus showMessage].
      apply step_then_AutoSave; auto.
    + unfold OnBranchNotOverwritten in *.
      rewrite (Hinit (or_intror eq_refl)) in *.
      rewrite UpdateStatus_store, AutoSave_store in *.
      cbn [m_system warnings files UpdateStatus showMessage].
      apply step_then_AutoSave; auto.
  - cbn [handle]. unfold OnClearBranchWatch, AutoSave.
    cbn [m_branch_watch with_branch_watch BranchWatch.CanSave
         BranchWatch.ClearAll BranchWatch.m_collection negb].
    rewrite orb_true_r. split; reflexivity.
  - intros Ha Hp Hc. rewrite (AutoSave_on d Ha Hc).
    unfold OnSave, autosave_target. rewrite Hc, Hp. reflexivity.
  - cbn [handle]. unfold OnToggleAutoSave. cbn [negb QString.isEmpty].
    repeat split.
Qed.

Lemma AutoSave_writes_the_store_after_the_step_witness :
  file_lookup "auto.txt"
    (files (m_system (handle example_autosave_uninitialized
                        CodePathWasTaken))) =
  Some (SnapshotFile
          (BranchWatch.Encode
             (m_branch_watch
                (handle example_autosave_uninitialized CodePathWasTaken)))).
Proof.
  apply (proj1 (AutoSave_writes_the_store_after_the_step
                  example_autosave_uninitialized)
           eq_refl eq_refl CodePathWasTaken ltac:(left; reflexivity)).
  - intros [H | H]; discriminate H.
  - reflexivity.
Defined.




(** ** The "Wipe Recent Hits" button *)

Lemma Update_button (d : BranchWatchDialog) :
  m_btn_wipe_recent_hits (Update d) = m_btn_wipe_recent_hits d.
Proof. unfold Update. destruct (BranchWatch.GetRecordingPhase _); reflexivity. Qed.

Lemma Save_button (filepath : string) (d : BranchWatchDialog) :
  m_btn_wipe_recent_hits (Save filepath d) = m_btn_wipe_recent_hits d.
Proof. unfold Save. destruct (negb _); reflexivity. Qed.

Lemma AutoSave_button (d : BranchWatchDialog) :
  m_btn_wipe_recent_hits (AutoSave d) = m_btn_wipe_recent_hits d.
Proof. unfold AutoSave. destruct (_ || _); [reflexivity | apply Save_button]. Qed.

Lemma patch_loop_button (v : Z) (index_list : list QModelIndex) :
  forall d,
    m_btn_wipe_recent_hits (fold_left (patch_and_inspect v) index_list d) =
    m_btn_wipe_recent_hits d.
Proof.
  induction index_list as [|index l IH]; intros d; cbn [fold_left];
    [reflexivity|].
  rewrite IH. unfold patch_and_inspect, SetInspected.
  cbn [m_branch_watch with_system].
  destruct (nth_error _ (row index)); reflexivity.
Qed.

Lemma handle_button (d : BranchWatchDialog) (e : Event) :
  is_load e = false ->
  m_btn_wipe_recent_hits (handle d e) =
  match e with
  | ClearBranchWatch => false
  | CodePathWasTaken => true
  | _ => m_btn_wipe_recent_hits d
  end.
Proof.
  intros Hl. destruct e; try discriminate Hl; cbn [handle]; try reflexivity.
  - unfold OnStartPause. destruct checked; rewrite Update_button; reflexivity.
  - unfold OnSave. destruct (negb _); [reflexivity | apply Save_button].
  - unfold OnSaveAs. destruct (negb _); [reflexivity|].
    destruct (QString.isEmpty filepath); [reflexivity | apply Save_button].
  - unfold OnToggleAutoSave. destruct (negb checked); [reflexivity|].
    destruct (QString.isEmpty filepath); reflexivity.
  - unfold OnCodePathNotTaken.
    cbn [m_btn_wipe_recent_hits UpdateStatus showMessage].
    rewrite AutoSave_button. reflexivity.
  - unfold OnBranchWasOverwritten. destruct (Core.State_eqb _ _);
      [reflexivity|].
    cbn [m_btn_wipe_recent_hits UpdateStatus showMessage].
    rewrite AutoSave_button. reflexivity.
  - unfold OnBranchNotOverwritten. destruct (Core.State_eqb _ _);
      [reflexivity|].
    cbn [m_btn_wipe_recent_hits UpdateStatus showMessage].
    rewrite AutoSave_button. reflexivity.
  - apply Update_button.
  - unfold OnEmulationStateChanged. destruct (negb isVisible);
      [reflexivity | rewrite Update_button; reflexivity].
  - destruct (nth_error _ chosen) as [a|]; [|reflexivity].
    unfold trigger. destruct (isEnabled a); [|reflexivity].
    destruct (triggered a) as [[l|l|l|l]|]; cbn [run_slot];
      try reflexivity; apply patch_loop_button.
Qed.

Lemma Load_tracks (filepath : string) (d : BranchWatchDialog) :
  wipe_button_tracks_phase d -> wipe_button_tracks_phase (Load filepath d).
Proof.
  intros H. unfold Load.
  destruct (if can_open _ _ then _ else _) as [[snap|]|]; try exact H.
  - unfold wipe_button_tracks_phase. reflexivity.
  - unfold wipe_button_tracks_phase. reflexivity.
Qed.

Lemma handle_tracks (d : BranchWatchDialog) (e : Event) :
  wipe_button_tracks_phase d -> wipe_button_tracks_phase (handle d e).
Proof.
  intros H. destruct (is_load e) eqn:Hl.
  - destruct e; try discriminate Hl; cbn [handle].
    + apply Load_tracks. exact H.
    + unfold OnLoadFrom. destruct (QString.isEmpty filepath);
        [exact H | apply Load_tracks; exact H].
  - unfold wipe_button_tracks_phase in *.
    unfold BranchWatch.GetRecordingPhase in *.
    rewrite (handle_button d e Hl), (handle_phase d e Hl).
    destruct e; try exact H; reflexivity.
Qed.

(** "Wipe Recent Hits" is enabled exactly in the Reduction phase: the
    dialog starts that way on an empty store, every event keeps it so (the
    clear disables the button, the first "Code Path Was Taken" enables it, a
    load sets it from the phase loaded, and nothing else changes the phase
    or the button), and the clear and "Code Path Was Taken" make it so
    whatever the state before. *)
Theorem Wipe_Recent_Hits_enabled_iff_Reduction :
  (forall sys, wipe_button_tracks_phase (dialog_initial sys BranchWatch.empty))
  /\
  (forall d e,
     wipe_button_tracks_phase d -> wipe_button_tracks_phase (handle d e)) /\
  (forall d events,
     wipe_button_tracks_phase d -> wipe_button_tracks_phase (run d events)) /\
  (forall d,
     wipe_button_tracks_phase (handle d ClearBranchWatch) /\
     wipe_button_tracks_phase (handle d CodePathWasTaken)).
Proof.
  split; [reflexivity|]. split; [exact handle_tracks|]. split.
  - intros d events. revert d.
    induction events as [|e events IH]; intros d H; [exact H|].
    unfold run in *. cbn [fold_left]. apply IH, handle_tracks, H.
  - intros d. unfold wipe_button_tracks_phase, BranchWatch.GetRecordingPhase.
    rewrite !handle_button, !handle_phase by reflexivity. split; reflexivity.
Qed.

Lemma Wipe_Recent_Hits_enabled_iff_Reduction_witness :
  wipe_button_tracks_phase (handle example_dialog_blacklist LoadBranchWatch) /\
  wipe_button_tracks_phase
    (handle example_dialog_blacklist CodePathWasTaken).
Proof.
  assert (H : wipe_button_tracks_phase example_dialog_blacklist)
    by (vm_compute; reflexivity).
  split;
    exact (proj1 (proj2 Wipe_Recent_Hits_enabled_iff_Reduction) _ _ H).
Defined.

(** ** Addresses as text: copied, typed and parsed *)

Lemma string_length_append (s t : string) :
  String.length (s ++ t) = (String.length s + String.length t)%nat.
Proof. induction s as [|c s IH]; simpl; [reflexivity | now rewrite IH]. Qed.

Lemma hexDigit_hexChar (digit : Z) :
  0 <= digit < 16 -> QString.hexDigit (hexChar digit) = Some digit.
Proof.
  intros H.
  assert (C : digit = 0 \/ digit = 1 \/ digit = 2 \/ digit = 3 \/ digit = 4 \/
              digit = 5 \/ digit = 6 \/ digit = 7 \/ digit = 8 \/ digit = 9 \/
              digit = 10 \/ digit = 11 \/ digit = 12 \/ digit = 13 \/
              digit = 14 \/ digit = 15) by lia.
  repeat (destruct C as [-> | C]; [reflexivity|]). subst. reflexivity.
Qed.

Lemma nibbles_range (count : nat) :
  forall n, Forall (fun digit => 0 <= digit < 16) (nibbles count n).
Proof.
  induction count as [|count IH]; intros n; cbn [nibbles]; [constructor|].
  apply Forall_app. split; [apply IH|].
  constructor; [|constructor]. apply Z.mod_pos_bound. lia.
Qed.

Lemma nibbles_length (count : nat) :
  forall n, List.length (nibbles count n) = count.
Proof.
  induction count as [|count IH]; intros n; cbn [nibbles]; [reflexivity|].
  rewrite length_app, IH. cbn [List.length]. lia.
Qed.

Lemma hexValue_nibbles (count : nat) :
  forall n, hexValue 0 (nibbles count n) = n mod 16 ^ Z.of_nat count.
Proof.
  induction count as [|count IH]; intros n.
  - cbn. symmetry. apply Z.mod_1_r.
  - cbn [nibbles]. unfold hexValue in *. rewrite fold_left_app.
    cbn [fold_left]. rewrite IH, Nat2Z.inj_succ, Z.pow_succ_r by lia.
    rewrite (Z.rem_mul_r n 16 (16 ^ Z.of_nat count)) by lia. lia.
Qed.

Lemma dropLeadingZeros_cons (digit : Z) (l : list Z) :
  dropLeadingZeros (digit :: l) =
  match l with
  | [] => [digit]
  | _ :: _ => if digit =? 0 then dropLeadingZeros l else digit :: l
  end.
Proof. destruct l; reflexivity. Qed.

Lemma dropLeadingZeros_facts (l : list Z) :
  l <> [] ->
  dropLeadingZeros l <> [] /\
  (List.length (dropLeadingZeros l) <= List.length l)%nat /\
  hexValue 0 (dropLeadingZeros l) = hexValue 0 l /\
  (Forall (fun digit => 0 <= digit < 16) l ->
   Forall (fun digit => 0 <= digit < 16) (dropLeadingZeros l)).
Proof.
  induction l as [|digit l IH]; intros Hne; [contradiction|].
  rewrite dropLeadingZeros_cons. destruct l as [|digit' l'].
  - repeat split; try discriminate; auto.
  - destruct (Z.eqb_spec digit 0) as [-> | Hd].
    + destruct IH as (I1 & I2 & I3 & I4); [discriminate|].
      repeat split; auto.
      * cbn [List.length] in *. lia.
      * intros HF. apply I4. inversion HF. assumption.
    + repeat split; try discriminate; auto.
Qed.

Lemma digits_hexString (l : list Z) :
  Forall (fun digit => 0 <= digit < 16) l ->
  forall acc, QString.digits acc (hexString l) = Some (hexValue acc l).
Proof.
  induction 1 as [|digit l Hd _ IH]; intros acc; [reflexivity|].
  cbn [hexString QString.digits]. rewrite (hexDigit_hexChar digit Hd).
  apply IH.
Qed.

Lemma allHex_hexString (l : list Z) :
  Forall (fun digit => 0 <= digit < 16) l -> allHex (hexString l) = true.
Proof.
  induction 1 as [|digit l Hd _ IH]; [reflexivity|].
  cbn [hexString allHex]. rewrite (hexDigit_hexChar digit Hd). exact IH.
Qed.

Lemma hexString_length (l : list Z) :
  String.length (hexString l) = List.length l.
Proof. induction l as [|digit l IH]; simpl; [reflexivity | now rewrite IH]. Qed.

Lemma hex_is_not_space (c : ascii) :
  QString.hexDigit c <> None -> QString.isSpace c = false.
Proof.
  destruct c as [[] [] [] [] [] [] [] []]; vm_compute; congruence.
Qed.

Lemma skipSpace_hex (s : string) :
  allHex s = true -> QString.skipSpace s = s.
Proof.
  destruct s as [|c s]; [reflexivity|]. cbn [allHex QString.skipSpace].
  destruct (QString.hexDigit c) eqn:E; [|discriminate].
  intros _. rewrite hex_is_not_space; [reflexivity | congruence].
Qed.

Lemma rev_append_rev_append (s acc : string) :
  QString.rev_append (QString.rev_append s acc) EmptyString =
  QString.rev_append acc s.
Proof.
  revert acc. induction s as [|c s IH]; intros acc; [reflexivity|].
  cbn [QString.rev_append]. rewrite IH. reflexivity.
Qed.

Lemma allHex_rev_append (s acc : string) :
  allHex s = true -> allHex acc = true ->
  allHex (QString.rev_append s acc) = true.
Proof.
  revert acc. induction s as [|c s IH]; intros acc Hs Ha; [exact Ha|].
  cbn [QString.rev_append]. cbn [allHex] in Hs.
  destruct (QString.hexDigit c) eqn:E; [|discriminate].
  apply IH; [exact Hs|]. cbn [allHex]. rewrite E. exact Ha.
Qed.

Lemma trimmed_hex (s : string) : allHex s = true -> QString.trimmed s = s.
Proof.
  intros H. unfold QString.trimmed, QString.reversed.
  rewrite (skipSpace_hex s H).
  rewrite skipSpace_hex by (apply allHex_rev_append; [exact H | reflexivity]).
  apply rev_append_rev_append.
Qed.

Lemma skipPlus_hex (s : string) : allHex s = true -> QString.skipPlus s = s.
Proof.
  destruct s as [|c s]; [reflexivity|]. cbn [allHex].
  destruct c as [[] [] [] [] [] [] [] []]; try reflexivity.
  vm_compute. discriminate.
Qed.

Lemma skipHexPrefix_hex (s : string) :
  allHex s = true -> QString.skipHexPrefix s = s.
Proof.
  destruct s as [|c1 [|c2 s]].
  - reflexivity.
  - intros _. destruct c1 as [[] [] [] [] [] [] [] []]; reflexivity.
  - intros H.
    destruct c1 as [[] [] [] [] [] [] [] []]; try reflexivity;
      destruct c2 as [[] [] [] [] [] [] [] []]; try reflexivity;
      vm_compute in H; discriminate H.
Qed.

Lemma hex_body (s : string) :
  allHex s = true ->
  QString.skipHexPrefix (QString.skipPlus (QString.trimmed s)) = s.
Proof.
  intros H. rewrite (trimmed_hex s H), (skipPlus_hex s H).
  apply skipHexPrefix_hex. exact H.
Qed.

Lemma digits_bounds (s : string) :
  allHex s = true ->
  forall acc, 0 <= acc ->
    exists v, QString.digits acc s = Some v /\
              acc * 16 ^ Z.of_nat (String.length s) <= v
              < (acc + 1) * 16 ^ Z.of_nat (String.length s).
Proof.
  induction s as [|c s IH]; intros H acc Hacc.
  - exists acc. split; [reflexivity|]. cbn. lia.
  - cbn [allHex] in H. cbn [QString.digits String.length].
    destruct (QString.hexDigit c) as [digit|] eqn:E; [|discriminate].
    pose proof (hexDigit_range c digit E) as Hd.
    destruct (IH H (16 * acc + digit)) as (v & Hv & Hb); [lia|].
    exists v. split; [exact Hv|].
    rewrite Nat2Z.inj_succ, Z.pow_succ_r by lia.
    assert (0 < 16 ^ Z.of_nat (String.length s))
      by (apply Z.pow_pos_nonneg; lia).
    nia.
Qed.

Lemma number16_facts (n : Z) :
  allHex (QString_number16 n) = true /\
  (1 <= String.length (QString_number16 n) <= 8)%nat /\
  QString.digits 0 (QString_number16 n) = Some (wrap32 n).
Proof.
  unfold QString_number16.
  assert (Hne : nibbles 8 n <> []).
  { intros E. apply (f_equal (@List.length Z)) in E.
    rewrite nibbles_length in E. discriminate E. }
  destruct (dropLeadingZeros_facts (nibbles 8 n) Hne) as (D1 & D2 & D3 & D4).
  specialize (D4 (nibbles_range 8 n)). rewrite nibbles_length in D2.
  split; [apply allHex_hexString; exact D4|]. split.
  - rewrite hexString_length. split; [|exact D2].
    destruct (dropLeadingZeros (nibbles 8 n)); [contradiction|].
    cbn [List.length]. lia.
  - rewrite (digits_hexString _ D4), D3, hexValue_nibbles. reflexivity.
Qed.

Lemma toUInt16_number16 (n : Z) :
  QString.toUInt16 (QString_number16 n) = (wrap32 n, true).
Proof.
  destruct (number16_facts n) as (Hh & [Hl _] & Hd).
  unfold QString.toUInt16. rewrite (hex_body _ Hh), Hd.
  destruct (QString_number16 n); [cbn in Hl; lia|]. cbn [QString.isEmpty].
  assert (0 <= wrap32 n < 2 ^ 32) by (apply Z.mod_pos_bound; lia).
  destruct (Z.leb_spec (wrap32 n) 0xFFFFFFFF); [reflexivity | lia].
Qed.

Lemma toUInt16_hex (text : string) :
  allHex text = true ->
  (1 <= String.length text <= 8)%nat ->
  exists v, QString.toUInt16 text = (v, true) /\
            0 <= v < 16 ^ Z.of_nat (String.length text).
Proof.
  intros Hh [Hl Hu]. unfold QString.toUInt16. rewrite (hex_body _ Hh).
  destruct (digits_bounds text Hh 0 (Z.le_refl 0)) as (v & Hv & Hb).
  rewrite Hv. exists v.
  destruct text as [|c rest]; [cbn in Hl; lia|]. cbn [QString.isEmpty].
  assert (16 ^ Z.of_nat (String.length (String c rest)) <= 16 ^ 8)
    by (apply Z.pow_le_mono_r; lia).
  destruct (Z.leb_spec v 0xFFFFFFFF); [split; [reflexivity | lia] | lia].
Qed.

Lemma copy_loop_length (d : BranchWatchDialog) (rest : list QModelIndex) :
  forall start : string,
    let result :=
      fold_left
        (fun t index' =>
           (t ++ newline ++
            QString_number16 (value_u32 (data_ClickRole d index')))%string)
        rest start in
    (String.length start + 2 * List.length rest <= String.length result
     <= String.length start + 9 * List.length rest)%nat.
Proof.
  induction rest as [|index rest IH]; intros start; cbn [fold_left].
  - cbn [List.length]. lia.
  - cbv zeta in IH.
    specialize (IH (start ++ newline ++
                    QString_number16 (value_u32 (data_ClickRole d index)))
                %string).
    rewrite !string_length_append in IH.
    destruct (number16_facts (value_u32 (data_ClickRole d index)))
      as (_ & Hl & _).
    change (String.length newline) with 1%nat in IH.
    cbn [List.length]. lia.
Qed.

(** "Copy Address" leaves the clipboard alone when no row is selected;
    otherwise the text is the address of the first index in lower-case
    hexadecimal, and each further index adds a line break and its address,
    so that no line break ends the text.  The text holds between 2n - 1 and
    9n - 1 characters for n indices: the capacity reserved, 9n - 1, is
    never exceeded. *)
Theorem OnTableCopyAddress_text :
  (forall d, OnTableCopyAddress [] d = None) /\
  (forall index d,
     OnTableCopyAddress [index] d =
     Some (QString_number16 (value_u32 (data_ClickRole d index)))) /\
  (forall index_list index d,
     index_list <> [] ->
     OnTableCopyAddress (index_list ++ [index]) d =
     option_map
       (fun t =>
          (t ++ newline ++
           QString_number16 (value_u32 (data_ClickRole d index)))%string)
       (OnTableCopyAddress index_list d)) /\
  (forall index_list d,
     index_list <> [] ->
     exists t,
       OnTableCopyAddress index_list d = Some t /\
       2 * Z.of_nat (List.length index_list) - 1
       <= Z.of_nat (String.length t)
       <= OnTableCopyAddress_reserved index_list).
Proof.
  split; [reflexivity|]. split; [reflexivity|]. split.
  - intros [|first rest] index d Hne; [contradiction|].
    cbn [app OnTableCopyAddress option_map]. rewrite fold_left_app.
    reflexivity.
  - intros [|first rest] d Hne; [contradiction|].
    eexists. split; [reflexivity|].
    pose proof (copy_loop_length d rest
                  (QString_number16 (value_u32 (data_ClickRole d first))))
      as Hl.
    cbv zeta in Hl.
    destruct (number16_facts (value_u32 (data_ClickRole d first)))
      as (_ & Hf & _).
    unfold OnTableCopyAddress_reserved. cbn [List.length]. lia.
Qed.

Lemma OnTableCopyAddress_text_witness :
  OnTableCopyAddress
    ([{| row := 0; column := Origin |}] ++
     [{| row := 1; column := Destination |}]) example_dialog_two_rows =
  Some ("80001000" ++ newline ++ "80001004")%string.
Proof.
  rewrite (proj1 (proj2 (proj2 OnTableCopyAddress_text))
             [{| row := 0; column := Origin |}]
             {| row := 1; column := Destination |} example_dialog_two_rows)
    by discriminate.
  reflexivity.
Defined.

Lemma without_origin_range_after_paste (a b : option Z)
  (p : BranchWatchProxyModel) :
  without_origin_range
    (set_address M_origin_max b (set_address M_origin_min a p)) =
  without_origin_range p.
Proof. destruct p. reflexivity. Qed.

Lemma OnAddressTextChanged_parsed (member : AddressMember) (t : string)
  (v : Z) (p : BranchWatchProxyModel) :
  QString.toUInt16 t = (v, true) ->
  OnAddressTextChanged member t p = set_address member (Some v) p.
Proof. intros H. unfold OnAddressTextChanged. rewrite H. reflexivity. Qed.

(** An address copied from the table parses back when pasted into a Min or
    Max field: the text of a single index sets the bound to the address
    copied.  Pasted into both Origin Min and Origin Max, the origin address
    of a row restricts the view to the rows of exactly this origin. *)
Theorem copied_address_parses_back :
  forall (d : BranchWatchDialog) (index : QModelIndex)
         (p : BranchWatchProxyModel),
    is_u32 (value_u32 (data_ClickRole d index)) ->
    exists t,
      OnTableCopyAddress [index] d = Some t /\
      QString.toUInt16 t = (value_u32 (data_ClickRole d index), true) /\
      (forall member,
         get_address member (OnAddressTextChanged member t p) =
         Some (value_u32 (data_ClickRole d index))) /\
      (forall value sym,
         filterAcceptsRow
           (OnAddressTextChanged M_origin_max t
              (OnAddressTextChanged M_origin_min t p)) value sym = true <->
         origin_addr (collection_ptr value) =
         value_u32 (data_ClickRole d index) /\
         filterAcceptsRow (without_origin_range p) value sym = true).
Proof.
  intros d index p Hu.
  set (a := value_u32 (data_ClickRole d index)) in *.
  exists (QString_number16 a).
  assert (Hparse : QString.toUInt16 (QString_number16 a) = (a, true)).
  { rewrite toUInt16_number16. unfold wrap32, is_u32 in *.
    rewrite Z.mod_small by exact Hu. reflexivity. }
  split; [reflexivity|]. split; [exact Hparse|]. split.
  - intros member. rewrite (OnAddressTextChanged_parsed _ _ a _ Hparse).
    rewrite get_set_address. destruct member; reflexivity.
  - intros value sym.
    rewrite !(OnAddressTextChanged_parsed _ _ a _ Hparse).
    rewrite without_origin_range_tests, without_origin_range_after_paste.
    unfold bound_test.
    cbn [m_origin_min m_origin_max set_address AddressMember_eqb].
    rewrite !andb_true_iff, !negb_true_iff, Z.ltb_ge, Z.gtb_ltb, Z.ltb_ge.
    split; [intros [[H1 H2] H3] | intros [H1 H3]]; split; auto; lia.
Qed.

Lemma copied_address_parses_back_witness :
  get_address M_destin_max
    (OnAddressTextChanged M_destin_max "80001000" proxy_initial) =
  Some 0x80001000.
Proof.
  destruct (copied_address_parses_back example_dialog_two_rows
              {| row := 0; column := Origin |} proxy_initial)
    as (t & Ht & _ & Hm & _).
  - vm_compute. split; [discriminate | reflexivity].
  - injection Ht as <-. exact (Hm M_destin_max).
Defined.

(** The Min and Max fields take at most eight characters: every text of one
    to eight hexadecimal digits is accepted and sets the bound to the
    number it writes, which is below 16 to the number of digits; no such
    text can overflow the 32 bits. *)
Theorem eight_hex_digits_always_parse :
  forall (member : AddressMember) (t : string) (p : BranchWatchProxyModel),
    allHex t = true ->
    (1 <= String.length t <= 8)%nat ->
    exists v,
      QString.toUInt16 t = (v, true) /\
      get_address member (OnAddressTextChanged member t p) = Some v /\
      0 <= v < 16 ^ Z.of_nat (String.length t) /\ is_u32 v.
Proof.
  intros member t p Hh Hl.
  destruct (toUInt16_hex t Hh Hl) as (v & Hv & Hb).
  exists v. split; [exact Hv|]. split.
  - rewrite (OnAddressTextChanged_parsed _ _ v _ Hv), get_set_address.
    destruct member; reflexivity.
  - split; [exact Hb|]. unfold is_u32.
    assert (16 ^ Z.of_nat (String.length t) <= 16 ^ 8)
      by (apply Z.pow_le_mono_r; lia).
    change (2 ^ 32) with (16 ^ 8). lia.
Qed.

Lemma eight_hex_digits_always_parse_witness :
  get_address M_origin_max
    (OnAddressTextChanged M_origin_max "FFFFffff" proxy_initial) =
  Some 0xFFFFFFFF.
Proof.
  destruct (eight_hex_digits_always_parse M_origin_max "FFFFffff"
              proxy_initial eq_refl) as (v & Hv & Hg & _).
  - cbn. lia.
  - rewrite Hg. vm_compute in Hv. injection Hv as <-. reflexivity.
Defined.

(** A click, "Copy Address" and the patches agree on the address of a cell:
    where a click sends the code view to an address, "Copy Address" copies
    this address and "Insert NOP" or "Insert BLR" would patch it.  A click
    does nothing in the columns Instruction, Condition, Recent Hits and
    Total Hits, and nothing in a symbol column when no symbol was found; in
    the Origin and Destination columns it always shows an address. *)
Theorem click_copy_and_patch_agree :
  forall (d : BranchWatchDialog) (index : QModelIndex),
    (forall a,
       OnTableClicked index d = Some a ->
       a = value_u32 (data_ClickRole d index) /\
       OnTableCopyAddress [index] d = Some (QString_number16 a) /\
       patches (m_system (OnTableSetBLR [index] d)) =
       (patches (m_system d) ++ [(a, 0x4e800020)])%list /\
       patches (m_system (OnTableSetNOP [index] d)) =
       (patches (m_system d) ++ [(a, 0x60000000)])%list) /\
    (OnTableClicked index d = None <->
     column index = Instruction \/ column index = Condition \/
     column index = RecentHits \/ column index = TotalHits \/
     ((column index = OriginSymbol \/ column index = DestinSymbol) /\
      data_ClickRole d index = None)).
Proof.
  intros d index. split.
  - intros a Ha.
    assert (E : a = value_u32 (data_ClickRole d index)).
    { unfold OnTableClicked in Ha.
      destruct (column index); try discriminate Ha;
        try (injection Ha as <-; reflexivity);
        destruct (data_ClickRole d index); try discriminate Ha;
        injection Ha as <-; reflexivity. }
    subst a. split; [reflexivity|]. split; [reflexivity|].
    unfold OnTableSetBLR, OnTableSetNOP. rewrite !patch_loop_patches.
    split; reflexivity.
  - unfold OnTableClicked.
    destruct (column index) eqn:Ec;
      try (split; [intros _; tauto | reflexivity]);
      try (split; [discriminate |
                   intros [H | [H | [H | [H | [[H | H] _]]]]];
                   discriminate H]).
    + destruct (data_ClickRole d index).
      * split; [discriminate|].
        intros [H | [H | [H | [H | [_ H]]]]]; discriminate H.
      * split; [intros _; right; right; right; right; auto | reflexivity].
    + destruct (data_ClickRole d index).
      * split; [discriminate|].
        intros [H | [H | [H | [H | [_ H]]]]]; discriminate H.
      * split; [intros _; right; right; right; right; auto | reflexivity].
Qed.

Lemma click_copy_and_patch_agree_witness :
  OnTableCopyAddress [{| row := 1; column := Destination |}]
    example_dialog_two_rows = Some (QString_number16 0x80001004).
Proof.
  apply (proj1 (click_copy_and_patch_agree example_dialog_two_rows
                  {| row := 1; column := Destination |}) 0x80001004).
  reflexivity.
Defined.

(** ** The refresh timer *)

(** Hiding the dialog stops the timer.  Showing it again, or a change of
    the emulation state while it is shown, leaves the timer running exactly
    when recording is active and the core is above Paused -- at the refresh
    interval, 100 ms -- whatever the timer did before; a change of the
    emulation state while the dialog is hidden does not touch the timer. *)
Theorem timer_runs_iff_TimerCondition :
  forall (above_paused : Core.State -> bool) (d : BranchWatchDialog)
         (t : QTimer) (new_state : Core.State),
    isActive (hideEvent t) = false /\
    isActive (showEvent above_paused d (hideEvent t)) =
    TimerCondition above_paused (m_branch_watch d) (core_state (m_system d)) /\
    isActive (OnEmulationStateChanged_timer above_paused new_state true d t) =
    TimerCondition above_paused (m_branch_watch d) new_state /\
    OnEmulationStateChanged_timer above_paused new_state false d t = t /\
    (TimerCondition above_paused (m_branch_watch d) new_state = true ->
     interval (OnEmulationStateChanged_timer above_paused new_state true d t)
     = BRANCH_WATCH_TOOL_TIMER_DELAY_MS /\
     interval (showEvent above_paused
                 (handle d (EmulationStateChanged new_state false))
                 (hideEvent t))
     = BRANCH_WATCH_TOOL_TIMER_DELAY_MS).
Proof.
  intros above_paused d t new_state.
  assert (Hh : isActive (hideEvent t) = false).
  { unfold hideEvent. destruct (isActive t) eqn:E; [reflexivity | exact E]. }
  split; [exact Hh|]. split; [|split; [|split]].
  - unfold showEvent.
    destruct (TimerCondition above_paused (m_branch_watch d)
                (core_state (m_system d))); [reflexivity | exact Hh].
  - unfold OnEmulationStateChanged_timer. cbn [negb].
    destruct (TimerCondition above_paused (m_branch_watch d) new_state);
      [reflexivity|].
    destruct (isActive t) eqn:E; [reflexivity | exact E].
  - reflexivity.
  - intros Hc. split.
    + unfold OnEmulationStateChanged_timer. cbn [negb]. rewrite Hc.
      reflexivity.
    + unfold showEvent.
      change (m_branch_watch (handle d (EmulationStateChanged new_state false)))
        with (m_branch_watch d).
      change (core_state
                (m_system (handle d (EmulationStateChanged new_state false))))
        with new_state.
      rewrite Hc. reflexivity.
Qed.

Lemma timer_runs_iff_TimerCondition_witness :
  interval
    (OnEmulationStateChanged_timer example_above_paused Core.Running true
       example_dialog_two_rows example_timer) = 100.
Proof.
  apply (proj2 (proj2 (proj2 (proj2
           (timer_runs_iff_TimerCondition example_above_paused
              example_dialog_two_rows example_timer Core.Running))))).
  reflexivity.
Defined.

(** Pausing Branch Watch schedules at most one more refresh: the timer
    becomes single-shot, so it is stopped once it has fired, and while the
    core is above Paused the last refresh comes after 200 ms.  Starting
    Branch Watch makes the timer repeating again: with the core above
    Paused it runs at 100 ms and goes on running when it fires, also right
    after a pause; otherwise it is left running or stopped as it was. *)
Theorem Pause_schedules_one_last_refresh :
  forall (above_paused : Core.State -> bool) (d : BranchWatchDialog)
         (t : QTimer),
    let paused := OnStartPause_timer above_paused false d t in
    let started := OnStartPause_timer above_paused true d t in
    let restarted :=
      OnStartPause_timer above_paused true (handle d (StartPause false))
        paused in
    isActive (QTimer_timeout paused) = false /\
    isActive paused = isActive t /\
    QTimer_timeout started = started /\
    isActive started = above_paused (core_state (m_system d)) || isActive t /\
    (above_paused (core_state (m_system d)) = true ->
     interval paused = BRANCH_WATCH_TOOL_TIMER_PAUSE_ONESHOT_MS /\
     started =
     {| isActive := true; interval := BRANCH_WATCH_TOOL_TIMER_DELAY_MS;
        isSingleShot := false |} /\
     restarted = started).
Proof.
  intros above_paused d t paused started restarted.
  assert (Hs : core_state (m_system (handle d (StartPause false))) =
               core_state (m_system d)).
  { cbn [handle]. unfold OnStartPause, Update.
    destruct (BranchWatch.GetRecordingPhase _); reflexivity. }
  subst paused started restarted.
  unfold OnStartPause_timer. rewrite Hs.
  destruct (above_paused (core_state (m_system d))), t as [a i s];
    unfold QTimer_timeout; cbn; repeat split; try discriminate;
    destruct a; reflexivity.
Qed.

Lemma Pause_schedules_one_last_refresh_witness :
  interval
    (OnStartPause_timer example_above_paused false example_dialog_two_rows
       example_timer) = 200.
Proof.
  apply (proj2 (proj2 (proj2 (proj2
           (Pause_schedules_one_last_refresh example_above_paused
              example_dialog_two_rows example_timer))))).
  reflexivity.
Defined.

Lemma window_step_visible (above_paused : Core.State -> bool) (w : Window)
  (ev : WindowEvent) :
  w_visible (window_step above_paused w ev) =
  match ev with
  | HideEvent => false
  | ShowEvent => true
  | _ => w_visible w
  end.
Proof.
  destruct ev as [| | |e]; cbn [window_step w_visible]; try reflexivity.
  - destruct (isActive (w_timer w)); reflexivity.
  - destruct e; reflexivity.
Qed.

Lemma window_step_timer (above_paused : Core.State -> bool) (w : Window)
  (ev : WindowEvent) :
  timer_only_while_shown w ->
  (ev = Signal (StartPause true) -> w_visible w = true) ->
  timer_only_while_shown (window_step above_paused w ev).
Proof.
  unfold timer_only_while_shown. intros Hw Hev.
  destruct ev as [| | |e]; cbn [window_step w_visible w_timer].
  - unfold hideEvent. destruct (isActive (w_timer w)) eqn:E; cbn; congruence.
  - reflexivity.
  - destruct (isActive (w_timer w)) eqn:E; cbn [w_timer w_visible];
      [intros _; exact (Hw eq_refl) | rewrite E; discriminate].
  - destruct e; cbn [w_timer w_visible]; try exact Hw.
    + destruct checked.
      * intros _. exact (Hev eq_refl).
      * unfold OnStartPause_timer.
        destruct (above_paused _); cbn; exact Hw.
    + unfold OnEmulationStateChanged_timer.
      destruct (w_visible w); cbn [negb]; [reflexivity | exact Hw].
Qed.

(** The timer never runs while the dialog is hidden.  Through every
    sequence of show and hide events, timer ticks and signals in which the
    "Start Branch Watch" button is pressed only while the dialog is shown,
    a running timer means a visible dialog: hiding stops the timer, and a
    change of the emulation state does not start it behind a hidden
    dialog. *)
Theorem timer_stopped_while_hidden :
  forall (above_paused : Core.State -> bool) (events : list WindowEvent)
         (w : Window),
    timer_only_while_shown w ->
    started_while_shown (w_visible w) events = true ->
    timer_only_while_shown (window_run above_paused w events).
Proof.
  intros above_paused events. unfold window_run.
  induction events as [|ev rest IH]; intros w Hw Hs; [exact Hw|].
  cbn [fold_left]. apply IH.
  - apply window_step_timer; [exact Hw|].
    intros ->. cbn [started_while_shown] in Hs.
    apply andb_true_iff in Hs. tauto.
  - rewrite window_step_visible.
    destruct ev as [| | |e]; cbn [started_while_shown] in Hs;
      try exact Hs.
    destruct e; try exact Hs.
    destruct checked; [|exact Hs].
    apply andb_true_iff in Hs. tauto.
Qed.

Lemma timer_stopped_while_hidden_witness :
  timer_only_while_shown
    (window_run example_above_paused
       (window_initial (example_system Core.Running) BranchWatch.empty)
       [ShowEvent; Signal (StartPause true); Signal (BranchHit example_value);
        TimerTimeout; HideEvent;
        Signal (EmulationStateChanged Core.Paused true);
        Signal (EmulationStateChanged Core.Running true)]).
Proof.
  apply timer_stopped_while_hidden.
  - intros H. discriminate H.
  - reflexivity.
Defined.

(** ** Memory patches *)

Lemma patch_loop_words (v : Z) (index_list : list QModelIndex)
  (d : BranchWatchDialog) :
  v = NOP \/ v = BLR ->
  exists added,
    patches (m_system (fold_left (patch_and_inspect v) index_list d)) =
    (patches (m_system d) ++ added)%list /\
    Forall patch_word added /\
    List.length added = List.length index_list.
Proof.
  intros Hv. eexists. split; [apply patch_loop_patches|]. split.
  - apply Forall_forall. intros p Hp. apply in_map_iff in Hp.
    destruct Hp as (index & <- & _). exact Hv.
  - apply length_map.
Qed.

Lemma trigger_patches (a : QAction) (d : BranchWatchDialog) :
  exists added,
    patches (m_system (trigger a d)) = (patches (m_system d) ++ added)%list /\
    Forall patch_word added /\
    (added <> [] ->
     isEnabled a = true /\
     exists index_list,
       triggered a = Some (TableSetNOP index_list) \/
       triggered a = Some (TableSetBLR index_list)).
Proof.
  unfold trigger.
  assert (Hnone :
    exists added : list (Z * Z),
      patches (m_system d) = (patches (m_system d) ++ added)%list /\
      Forall patch_word added /\
      (added <> [] ->
       isEnabled a = true /\
       exists index_list,
         triggered a = Some (TableSetNOP index_list) \/
         triggered a = Some (TableSetBLR index_list))).
  { exists []. rewrite app_nil_r. split; [reflexivity|].
    split; [constructor | intros H; contradiction H; reflexivity]. }
  destruct (isEnabled a); [|exact Hnone].
  destruct (triggered a) as [[l|l|l|l]|]; cbn [run_slot]; try exact Hnone.
  - destruct (patch_loop_words NOP l d (or_introl eq_refl))
      as (added & H1 & H2 & _).
    exists added. split; [exact H1|]. split; [exact H2|].
    intros _. split; [reflexivity|]. exists l. left. reflexivity.
  - destruct (patch_loop_words BLR l d (or_intror eq_refl))
      as (added & H1 & H2 & _).
    exists added. split; [exact H1|]. split; [exact H2|].
    intros _. split; [reflexivity|]. exists l. right. reflexivity.
Qed.

Lemma handle_patches (d : BranchWatchDialog) (e : Event) :
  exists added,
    patches (m_system (handle d e)) = (patches (m_system d) ++ added)%list /\
    Forall patch_word added /\
    (added <> [] ->
     chooses_patch e = true /\
     core_state (m_system d) <> Core.Uninitialized).
Proof.
  assert (Hsame :
    patches (m_system (handle d e)) = patches (m_system d) ->
    exists added,
      patches (m_system (handle d e)) = (patches (m_system d) ++ added)%list /\
      Forall patch_word added /\
      (added <> [] ->
       chooses_patch e = true /\
       core_state (m_system d) <> Core.Uninitialized)).
  { intros ->. exists []. rewrite app_nil_r. split; [reflexivity|].
    split; [constructor | intros H; contradiction H; reflexivity]. }
  destruct (Core.State_eqb (core_state (m_system d)) Core.Uninitialized)
    eqn:Hcore.
  { apply Hsame, uninitialized_no_patch, State_eqb_spec, Hcore. }
  assert (Hinit : core_state (m_system d) <> Core.Uninitialized).
  { intros H. apply State_eqb_spec in H. congruence. }
  destruct e; try (apply Hsame; cbn [handle]; reflexivity).
  - apply Hsame. cbn [handle]. unfold OnStartPause.
    destruct checked; rewrite Update_system; reflexivity.
  - apply Hsame. cbn [handle]. unfold OnClearBranchWatch.
    cbn [m_system UpdateStatus showMessage setEnabled_wipe_recent_hits].
    rewrite AutoSave_patches. reflexivity.
  - apply Hsame. cbn [handle]. unfold OnSave.
    destruct (negb _); [reflexivity | apply Save_patches].
  - apply Hsame. cbn [handle]. unfold OnSaveAs.
    destruct (negb _); [reflexivity|].
    destruct (QString.isEmpty filepath); [reflexivity | apply Save_patches].
  - apply Hsame. cbn [handle]. unfold OnLoad. rewrite Load_system.
    reflexivity.
  - apply Hsame. cbn [handle]. unfold OnLoadFrom.
    destruct (QString.isEmpty filepath);
      [reflexivity | rewrite Load_system; reflexivity].
  - apply Hsame. cbn [handle]. unfold OnToggleAutoSave.
    destruct (negb checked); [reflexivity|].
    destruct (QString.isEmpty filepath); reflexivity.
  - apply Hsame. cbn [handle]. unfold OnCodePathWasTaken.
    cbn [m_system UpdateStatus showMessage setEnabled_wipe_recent_hits].
    rewrite AutoSave_patches. reflexivity.
  - apply Hsame. cbn [handle]. unfold OnCodePathNotTaken.
    cbn [m_system UpdateStatus showMessage].
    rewrite AutoSave_patches. reflexivity.
  - apply Hsame. cbn [handle]. unfold OnBranchWasOverwritten.
    rewrite Hcore. cbn [m_system UpdateStatus showMessage].
    rewrite AutoSave_patches. reflexivity.
  - apply Hsame. cbn [handle]. unfold OnBranchNotOverwritten.
    rewrite Hcore. cbn [m_system UpdateStatus showMessage].
    rewrite AutoSave_patches. reflexivity.
  - apply Hsame. cbn [handle]. unfold OnTimeout. rewrite Update_system.
    reflexivity.
  - apply Hsame. cbn [handle]. unfold OnEmulationStateChanged.
    destruct (negb isVisible); [reflexivity | rewrite Update_system;
                                                reflexivity].
  - destruct (nth_error (OnTableContextMenu index selectedRows d) chosen)
      as [a|] eqn:Ea.
    + destruct (trigger_patches a d) as (added & H1 & H2 & H3).
      exists added. split; [cbn [handle]; rewrite Ea; exact H1|]. split; [exact H2|].
      intros Hne. split; [|exact Hinit].
      destruct (H3 Hne) as (_ & l & Hl).
      unfold OnTableContextMenu in Ea.
      destruct index as [index|]; [|destruct chosen; discriminate Ea].
      destruct chosen as [|[|chosen]]; [| reflexivity |].
      * exfalso. destruct (column index); cbn [nth_error] in Ea;
          injection Ea as <-; destruct Hl as [Hl | Hl]; discriminate Hl.
      * exfalso.
        destruct (column index); cbn [nth_error] in Ea;
          try (destruct chosen; discriminate Ea);
          try (destruct (_ && _) in Ea);
          destruct chosen as [|chosen]; try discriminate Ea;
          try (destruct chosen; discriminate Ea);
          injection Ea as <-; destruct Hl as [Hl | Hl]; discriminate Hl.
    + apply Hsame. cbn [handle]. rewrite Ea. reflexivity.
Qed.

(** The dialog patches the memory of the game through the context menu
    alone.  Whatever the events, the patches that were set stay, in their
    order, and every patch added writes the word NOP (0x60000000) or BLR
    (0x4e800020); a sequence of events in which no second action of a
    context menu is chosen adds none. *)
Theorem memory_is_patched_by_the_menus_only :
  forall (events : list Event) (d : BranchWatchDialog),
    exists added,
      patches (m_system (run d events)) =
      (patches (m_system d) ++ added)%list /\
      Forall patch_word added /\
      (forallb (fun e => negb (chooses_patch e)) events = true ->
       added = []).
Proof.
  unfold run. induction events as [|e events IH]; intros d.
  - exists []. cbn [fold_left]. rewrite app_nil_r.
    split; [reflexivity|]. split; [constructor | reflexivity].
  - cbn [fold_left forallb].
    destruct (handle_patches d e) as (a1 & H1 & F1 & N1).
    destruct (IH (handle d e)) as (a2 & H2 & F2 & N2).
    exists (a1 ++ a2)%list. split; [|split].
    + rewrite H2, H1, app_assoc. reflexivity.
    + apply Forall_app. split; assumption.
    + intros Hev. apply andb_true_iff in Hev. destruct Hev as [He Hev].
      rewrite (N2 Hev), app_nil_r.
      destruct a1 as [|p a1]; [reflexivity|].
      destruct N1 as [Hc _]; [discriminate|].
      rewrite Hc in He. discriminate He.
Qed.

Lemma memory_is_patched_by_the_menus_only_witness :
  patches
    (m_system
       (run example_dialog_two_rows
          [TableContextMenu (Some {| row := 0; column := Origin |}) [0%nat] 2;
           WipeInspection; TableDeleteKeypress [1%nat]])) =
  patches (m_system example_dialog_two_rows).
Proof.
  destruct (memory_is_patched_by_the_menus_only
              [TableContextMenu (Some {| row := 0; column := Origin |})
                 [0%nat] 2;
               WipeInspection; TableDeleteKeypress [1%nat]]
              example_dialog_two_rows) as (added & H & _ & Hn).
  rewrite H, (Hn eq_refl), app_nil_r. reflexivity.
Defined.

